(** * FlowTrace: the record/replay engine, embedded and verified

    The development follows the extension's sources:
    - [content.js]: the in-page [SessionRecorder] (recorder, selector
      derivation and resolution, playback scheduler, action executor);
    - the popup script: [SessionValidator], [exportSession], [importSession].

    JavaScript numbers that hold milliseconds, pixels and counters are
    integers ([Z]); the playback speed, which is a fraction, is an exact
    rational ([Q]).  Strings are [string]; [null]/[undefined] are [None]. *)

From Stdlib Require Import ZArith QArith Qround Qminmax String Ascii List Bool Lia DecimalString.
Import ListNotations.
Open Scope Z_scope.
Open Scope string_scope.

(* ================================================================== *)
(** * Part I: the embedding                                            *)
(* ================================================================== *)

(** ** JavaScript primitives used by the sources *)

(** [String.prototype.includes]. *)
Fixpoint includes (s sub : string) : bool :=
  if String.prefix sub s then true
  else match s with
       | EmptyString => false
       | String _ s' => includes s' sub
       end.

(** [Array.prototype.includes] on strings. *)
Definition includes_list (l : list string) (s : string) : bool :=
  existsb (String.eqb s) l.

(** [Number.prototype.toString] on integers. *)
Definition toString (z : Z) : string := NilZero.string_of_int (Z.to_int z).

(** [Math.round]: nearest integer, halves towards plus infinity. *)
Definition Math_round (q : Q) : Z := Qfloor (q + (1 # 2)).

(** [o?.includes(sub)] used as a condition: a missing string is falsy. *)
Definition opt_includes (o : option string) (sub : string) : bool :=
  match o with
  | Some s => includes s sub
  | None => false
  end.

(** ** Data model: the Action record written by [recordAction] *)

Module Point.
Record t := mk { x : Z; y : Z }.
End Point.

Module Coordinates.
Record t := mk {
  x : Z; y : Z; pageX : Z; pageY : Z;
  elementX : option Z; elementY : option Z;
  elementWidth : option Z; elementHeight : option Z }.
End Coordinates.

Module Viewport.
Record t := mk { width : Z; height : Z }.
End Viewport.

Module Action.
Record t := mk {
  type : string;
  timestamp : Z;
  target : option string;
  coordinates : Coordinates.t;
  key : option string;
  value : option string;
  scrollPosition : Point.t;
  scrollStart : option Point.t;
  viewport : Viewport.t }.
End Action.

(** ** Playback scheduler: [calculateOptimalDelay] *)

(** [speed] is [this.settings.playback.speed]. *)
Definition calculateOptimalDelay (speed : Q) (currentAction nextAction : Action.t) : Z :=
  let ct := Action.type currentAction in
  let nt := Action.type nextAction in
  let originalDelay := Action.timestamp nextAction - Action.timestamp currentAction in
  let delay := Z.max originalDelay 50 in
  let delay :=
    if (nt =? "keyup") || (nt =? "keydown") then Z.min delay 150
    else if nt =? "input" then
      if (ct =? "input") || (ct =? "keydown") then Z.min delay 300
      else Z.min delay 500
    else if nt =? "scroll" then
      let delay := Z.min delay 100 in
      if ct =? "scroll" then Z.min delay 50 else delay
    else if (nt =? "click") || (nt =? "dblclick") then
      let delay := Z.min delay 1500 in
      if (ct =? "submit")
         || ((ct =? "click") && opt_includes (Action.target currentAction) "button")
      then Z.max delay 500 else delay
    else if nt =? "change" then Z.min delay 800
    else Z.min delay 2000 in
  let delay := if negb (ct =? nt) then Z.max delay 100 else delay in
  let delay :=
    if (ct =? "submit")
       || ((ct =? "click") && opt_includes (Action.target currentAction) "submit")
    then Z.max delay 1000 else delay in
  let speedMultiplier := (1 / (if Qeq_bool speed 0 then 1 else speed))%Q in
  let delay := Math_round (inject_Z delay * speedMultiplier) in
  Z.max delay 25.

(** *** The delay rule as the specification words it *)

Definition isKeyEvent (ty : string) : bool := (ty =? "keyup") || (ty =? "keydown").

Definition isClickEvent (ty : string) : bool := (ty =? "click") || (ty =? "dblclick").

(** A click whose recorded selector mentions a button. *)
Definition isButtonClick (a : Action.t) : bool :=
  (Action.type a =? "click") && opt_includes (Action.target a) "button".

(** A submit, or a click whose recorded selector mentions submit. *)
Definition isSubmitLike (a : Action.t) : bool :=
  (Action.type a =? "submit")
  || ((Action.type a =? "click") && opt_includes (Action.target a) "submit").

(** The upper bound chosen by the type of the next action. *)
Definition typeCap (prev next : string) : Z :=
  if isKeyEvent next then 150
  else if next =? "input" then
    (if (prev =? "input") || (prev =? "keydown") then 300 else 500)
  else if next =? "scroll" then (if prev =? "scroll" then 50 else 100)
  else if isClickEvent next then 1500
  else if next =? "change" then 800
  else 2000.

(** Base, clamp and the three lower bounds, before the speed is applied. *)
Definition clampedDelay (current next : Action.t) : Z :=
  let base := Z.max (Action.timestamp next - Action.timestamp current) 50 in
  let d := Z.min base (typeCap (Action.type current) (Action.type next)) in
  let d := if isClickEvent (Action.type next)
              && ((Action.type current =? "submit") || isButtonClick current)
           then Z.max d 500 else d in
  let d := if Action.type current =? Action.type next then d else Z.max d 100 in
  if isSubmitLike current then Z.max d 1000 else d.


(** The last step as the code has it: a speed of 0 counts as 1 and the
    product is rounded to the nearest integer before the floor of 25. *)
Definition nextDelay_rounded (speed : Q) (current next : Action.t) : Z :=
  let s := if Qeq_bool speed 0 then 1%Q else speed in
  Z.max (Math_round (inject_Z (clampedDelay current next) * (1 / s))) 25.

(** ** More string primitives *)

Definition isWhiteSpace (c : ascii) : bool :=
  let n := nat_of_ascii c in
  ((9 <=? n) && (n <=? 13))%nat || (n =? 32)%nat.

Fixpoint dropWhile {A} (p : A -> bool) (l : list A) : list A :=
  match l with
  | [] => []
  | a :: l' => if p a then dropWhile p l' else l
  end.

(** [String.prototype.trim], on the ASCII white space. *)
Definition trim (s : string) : string :=
  let front := dropWhile isWhiteSpace (list_ascii_of_string s) in
  string_of_list_ascii (rev (dropWhile isWhiteSpace (rev front))).

Definition lowerChar (c : ascii) : ascii :=
  let n := nat_of_ascii c in
  if ((65 <=? n) && (n <=? 90))%nat then ascii_of_nat (n + 32) else c.

(** [String.prototype.toLowerCase], on ASCII letters. *)
Fixpoint toLowerCase (s : string) : string :=
  match s with
  | EmptyString => EmptyString
  | String c s' => String (lowerChar c) (toLowerCase s')
  end.

(** [s.split(sep)] for a one-character separator: [cur] accumulates the
    current piece, reversed. *)
Fixpoint split_aux (sep : ascii) (s : string) (cur : list ascii) : list string :=
  match s with
  | EmptyString => [string_of_list_ascii (rev cur)]
  | String c s' =>
      if Ascii.eqb c sep
      then string_of_list_ascii (rev cur) :: split_aux sep s' []
      else split_aux sep s' (c :: cur)
  end.

Definition split (sep : ascii) (s : string) : list string := split_aux sep s [].

(** [l.join(sep)]. *)
Definition join (sep : string) (l : list string) : string := String.concat sep l.

(** JavaScript truthiness of a string. *)
Definition nonEmpty (s : string) : bool := negb (s =? "").

(** The character that delimits an attribute value in a selector. *)
Definition doubleQuote : string := String (ascii_of_nat 34) EmptyString.

(** [s && s.trim()] as a condition. *)
Definition nonBlank (s : string) : bool := nonEmpty s && nonEmpty (trim s).

(** Decimal rendering of an array index plus one. *)
Definition ordinal (i : nat) : string := toString (Z.of_nat (i + 1)).

(** ** Completion of a JavaScript call: a value, or a thrown error *)

Inductive completion (A : Type) : Type :=
| Normal (a : A)
| Thrown (message : string).
Arguments Normal {A} a.
Arguments Thrown {A} message.

(** ** Selector resolver, capture side: [getElementSelector] *)

(** What the selector derivation reads from an element.  [className] is
    [None] when the property is not a string (SVG elements); [name] is
    [None] on elements without that property. *)
Module Element.
Record data := mk {
  tagName : string;
  id : string;
  attributes : list (string * string);
  name : option string;
  className : option string;
  textContent : option string;
  value : option string;
  isBody : bool;
  isDocumentElement : bool }.
End Element.

(** An element with its chain of ancestors.  [siblingTags] are the tag
    names of [parentNode.children], [childIndex] the element's index in
    that collection. *)
Inductive node : Type :=
| Elem (d : Element.data) (up : parentLink)
with parentLink : Type :=
| Detached
| InElement (parent : node) (siblingTags : list string) (childIndex : nat)
| InNonElement (siblingTags : list string) (childIndex : nat).

Definition dataOf (n : node) : Element.data := match n with Elem d _ => d end.
Definition linkOf (n : node) : parentLink := match n with Elem _ up => up end.

(** The value of [event.target || event.currentTarget || document]. *)
Inductive EventTarget : Type :=
| TDocument
| TWindow
| TOther
| TElement (e : node).

(** The document as the derivation sees it: [matchCount s] is
    [document.querySelectorAll(s).length], [cssEscape] is [CSS.escape]. *)
Module Dom.
Record t := mk {
  matchCount : string -> nat;
  cssEscape : string -> string }.
End Dom.

Definition getAttribute (d : Element.data) (attr : string) : option string :=
  match find (fun kv => fst kv =? attr) (Element.attributes d) with
  | Some kv => Some (snd kv)
  | None => None
  end.

Definition isUnique (dom : Dom.t) (selector : string) : bool :=
  (Dom.matchCount dom selector =? 1)%nat.

(** The pattern [/^(hover|active|focus|selected|disabled)$/]. *)
Definition isStateClass (c : string) : bool :=
  includes_list ["hover"; "active"; "focus"; "selected"; "disabled"] c.

(** [className.split(' ').filter(...)] of strategies 4 and 5. *)
Definition stableClasses (className : string) : list string :=
  filter (fun c => nonEmpty c && negb (isStateClass c)) (split " " className).

Definition dataAttrs : list string :=
  ["data-testid"; "data-test"; "data-cy"; "data-id"; "data-automation-id"].

(** The loop over [dataAttrs] of strategy 2. *)
Fixpoint dataAttrLoop (dom : Dom.t) (d : Element.data) (attrs : list string)
  : option string :=
  match attrs with
  | [] => None
  | attr :: rest =>
      match getAttribute d attr with
      | Some value =>
          if nonBlank value then
            let dataSelector := "[" ++ attr ++ "=" ++ doubleQuote ++ Dom.cssEscape dom value ++ doubleQuote ++ "]" in
            if isUnique dom dataSelector then Some dataSelector
            else dataAttrLoop dom d rest
          else dataAttrLoop dom d rest
      | None => dataAttrLoop dom d rest
      end
  end.

(** [siblings.filter(sibling => sibling.tagName === current.tagName)] and
    the index of the element in it. *)
Definition sameTagCount (tag : string) (siblingTags : list string) : nat :=
  length (filter (String.eqb tag) siblingTags).

Definition sameTagIndex (tag : string) (siblingTags : list string) (childIndex : nat) : nat :=
  length (filter (String.eqb tag) (firstn childIndex siblingTags)).

(** One level of [getElementPath], after the id test: tag, up to two
    stable classes, [:nth-of-type] when the tag repeats among siblings. *)
Definition pathSegment (dom : Dom.t) (cur : node) : string :=
  let d := dataOf cur in
  let selector := toLowerCase (Element.tagName d) in
  let selector :=
    match Element.className d with
    | Some cn =>
        if nonEmpty cn then
          let classes := firstn 2 (stableClasses cn) in
          match classes with
          | [] => selector
          | _ => selector ++ "." ++ join "." (map (Dom.cssEscape dom) classes)
          end
        else selector
    | None => selector
    end in
  match linkOf cur with
  | Detached => selector
  | InElement _ sibs i | InNonElement sibs i =>
      if (1 <? sameTagCount (Element.tagName d) sibs)%nat
      then selector ++ ":nth-of-type(" ++ ordinal (sameTagIndex (Element.tagName d) sibs i) ++ ")"
      else selector
  end.

(** The [while] loop of [getElementPath]; [room] is how many more
    segments the path may take (4 at the start).  The path is returned
    outermost segment first.  Walking into a parent that is not an
    element dereferences its missing [tagName]: a TypeError. *)
Fixpoint pathLoop (dom : Dom.t) (room : nat) (cur : node) : completion (list string) :=
  match room with
  | O => Normal []
  | S room' =>
      let d := dataOf cur in
      if Element.isBody d || Element.isDocumentElement d then Normal []
      else if nonBlank (Element.id d) then
        Normal [toLowerCase (Element.tagName d) ++ "#" ++ Dom.cssEscape dom (Element.id d)]
      else
        let selector := pathSegment dom cur in
        match linkOf cur with
        | Detached => Normal [selector]
        | InElement parent _ _ =>
            match pathLoop dom room' parent with
            | Normal outer => Normal (outer ++ [selector])%list
            | Thrown e => Thrown e
            end
        | InNonElement _ _ =>
            match room' with
            | O => Normal [selector]
            | S _ => Thrown "TypeError: Cannot read properties of undefined (reading 'toLowerCase')"
            end
        end
  end.

Definition getElementPath (dom : Dom.t) (el : node) : completion string :=
  match pathLoop dom 4 el with
  | Normal path => Normal (join " > " path)
  | Thrown e => Thrown e
  end.

(** Strategy 1: [#id]. *)
Definition idStrategy (dom : Dom.t) (d : Element.data) : option string :=
  if nonBlank (Element.id d) then
    let idSelector := "#" ++ Dom.cssEscape dom (Element.id d) in
    if isUnique dom idSelector then Some idSelector else None
  else None.

(** Strategy 3: [tag[name="..."]]. *)
Definition nameStrategy (dom : Dom.t) (d : Element.data) : option string :=
  match Element.name d with
  | Some name =>
      if nonBlank name then
        let nameSelector :=
          toLowerCase (Element.tagName d) ++ "[name=" ++ doubleQuote ++ Dom.cssEscape dom name ++ doubleQuote ++ "]" in
        if isUnique dom nameSelector then Some nameSelector else None
      else None
  | None => None
  end.

(** Strategy 4: the tag with its first three stable classes. *)
Definition classStrategy (dom : Dom.t) (d : Element.data) : option string :=
  match Element.className d with
  | Some cn =>
      if nonEmpty cn then
        match firstn 3 (stableClasses cn) with
        | [] => None
        | classes =>
            let classSelector :=
              toLowerCase (Element.tagName d) ++ "." ++ join "." (map (Dom.cssEscape dom) classes) in
            if isUnique dom classSelector then Some classSelector else None
        end
      else None
  | None => None
  end.

(** Strategy 6: links and buttons carry their text in a [data-text]
    pseudo-selector.  Only [CSS.escape] is consulted, not the document. *)
Definition textStrategy (esc : string -> string) (d : Element.data) : option string :=
  let tag := toLowerCase (Element.tagName d) in
  if includes_list ["a"; "button"] tag then
    match Element.textContent d with
    | Some text =>
        let textContent := substring 0 30 (trim text) in
        if nonEmpty textContent
        then Some (tag ++ "[data-text=" ++ doubleQuote ++ esc textContent ++ doubleQuote ++ "]")
        else None
    | None => None
    end
  else None.

(** Strategy 7: position under the parent, or the bare tag. *)
Definition positionStrategy (esc : string -> string) (el : node) : string :=
  let tag := toLowerCase (Element.tagName (dataOf el)) in
  match linkOf el with
  | Detached => tag
  | InNonElement _ index => tag ++ ":nth-child(" ++ ordinal index ++ ")"
  | InElement parent _ index =>
      let positionSelector := tag ++ ":nth-child(" ++ ordinal index ++ ")" in
      let pd := dataOf parent in
      let parentSelector := toLowerCase (Element.tagName pd) in
      let parentSelector :=
        if nonEmpty (Element.id pd) then parentSelector ++ "#" ++ esc (Element.id pd)
        else match Element.className pd with
             | Some cn =>
                 if nonEmpty cn then
                   match firstn 1 (filter nonEmpty (split " " cn)) with
                   | c :: _ => parentSelector ++ "." ++ esc c
                   | [] => parentSelector
                   end
                 else parentSelector
             | None => parentSelector
             end in
      parentSelector ++ " > " ++ positionSelector
  end.

Definition getElementSelector (dom : Dom.t) (element : option EventTarget)
  : completion (option string) :=
  match element with
  | None => Normal None
  | Some TDocument => Normal (Some "document")
  | Some TWindow => Normal (Some "window")
  | Some TOther => Normal (Some "unknown")
  | Some (TElement el) =>
      let d := dataOf el in
      match idStrategy dom d with
      | Some idSelector => Normal (Some idSelector)
      | None =>
      match dataAttrLoop dom d dataAttrs with
      | Some dataSelector => Normal (Some dataSelector)
      | None =>
      match nameStrategy dom d with
      | Some nameSelector => Normal (Some nameSelector)
      | None =>
      match classStrategy dom d with
      | Some classSelector => Normal (Some classSelector)
      | None =>
      match getElementPath dom el with
      | Thrown e => Thrown e
      | Normal pathSelector =>
          if nonEmpty pathSelector && isUnique dom pathSelector
          then Normal (Some pathSelector)
          else
            match textStrategy (Dom.cssEscape dom) d with
            | Some textSelector => Normal (Some textSelector)
            | None => Normal (Some (positionStrategy (Dom.cssEscape dom) el))
            end
      end end end end end
  end.

(** *** The derivation as the specification words it: an ordered list of
    candidates, the first unique one wins, else the fallback *)

Definition idCandidate (dom : Dom.t) (d : Element.data) : list string :=
  if nonBlank (Element.id d) then ["#" ++ Dom.cssEscape dom (Element.id d)] else [].

Definition dataCandidates (dom : Dom.t) (d : Element.data) : list string :=
  flat_map (fun attr =>
              match getAttribute d attr with
              | Some value =>
                  if nonBlank value
                  then ["[" ++ attr ++ "=" ++ doubleQuote ++ Dom.cssEscape dom value ++ doubleQuote ++ "]"]
                  else []
              | None => []
              end) dataAttrs.

Definition nameCandidate (dom : Dom.t) (d : Element.data) : list string :=
  match Element.name d with
  | Some name =>
      if nonBlank name
      then [toLowerCase (Element.tagName d) ++ "[name=" ++ doubleQuote ++ Dom.cssEscape dom name ++ doubleQuote ++ "]"]
      else []
  | None => []
  end.

Definition classCandidate (dom : Dom.t) (d : Element.data) : list string :=
  match Element.className d with
  | Some cn =>
      match firstn 3 (stableClasses cn) with
      | [] => []
      | classes =>
          [toLowerCase (Element.tagName d) ++ "." ++ join "." (map (Dom.cssEscape dom) classes)]
      end
  | None => []
  end.

Definition pathCandidate (path : string) : list string :=
  if nonEmpty path then [path] else [].

(** Strategies 1 to 4, in priority order. *)
Definition attributeCandidates (dom : Dom.t) (d : Element.data) : list string :=
  (idCandidate dom d ++ dataCandidates dom d ++ nameCandidate dom d ++ classCandidate dom d)%list.

(** Strategies 6 and 7. *)
Definition fallbackSelector (esc : string -> string) (el : node) : string :=
  match textStrategy esc (dataOf el) with
  | Some textSelector => textSelector
  | None => positionStrategy esc el
  end.

Definition deriveSelector (dom : Dom.t) (el : node) : completion (option string) :=
  match find (isUnique dom) (attributeCandidates dom (dataOf el)) with
  | Some s => Normal (Some s)
  | None =>
      match getElementPath dom el with
      | Thrown e => Thrown e
      | Normal path =>
          match find (isUnique dom) (pathCandidate path) with
          | Some s => Normal (Some s)
          | None => Normal (Some (fallbackSelector (Dom.cssEscape dom) el))
          end
      end
  end.

(** ** Action recorder *)

(** A page of a recording.  [timestamp] is the wall-clock time at which
    the page's recording started; action timestamps are relative to it. *)
Module Page.
Record t := mk {
  url : string;
  title : string;
  timestamp : Z;
  endTime : option Z;
  actions : list Action.t }.
End Page.

(** The session object held by the recorder.  Its [pages] array holds
    references to page objects: [currentPageData] is the same object as
    the page pushed last, so pages live in a heap and are named by their
    index in it. *)
Module Session.
Record t := mk {
  id : string;
  startTime : Z;
  pages : list nat }.
End Session.

(** A session as it travels in a message: pages by value. *)
Module SessionValue.
Record t := mk {
  id : string;
  startTime : Z;
  pages : list Page.t }.
End SessionValue.

(** [performanceMonitor.metrics.recording]. *)
Module RecordingMetrics.
Record t := mk {
  startTime : option Z;
  endTime : option Z;
  actionsRecorded : nat;
  pagesRecorded : nat;
  errors : nat }.
End RecordingMetrics.

(** What the browser answers at the moment of a call. *)
Module Env.
Record t := mk {
  now : Z;
  scrollX : Z;
  scrollY : Z;
  innerWidth : Z;
  innerHeight : Z;
  href : string;
  title : string;
  hasRuntime : bool;
  hasSendMessage : bool;
  sendMessageThrows : bool;
  dom : Dom.t }.
End Env.

(** The fields of a DOM event that [recordAction] reads.  Absent numbers
    are 0 (the source writes [event.clientX || 0]); [rect] is the
    target's bounding rectangle: left, top, width, height. *)
Module RawEvent.
Record t := mk {
  target : EventTarget;
  clientX : Z;
  clientY : Z;
  pageX : Z;
  pageY : Z;
  key : option string;
  rect : Z * Z * Z * Z }.
End RawEvent.

(** The recorder's fields, under the names of the source; [heap] holds
    the page objects, [listening] says whether the handlers are attached,
    [indicator] whether the recording badge is in the page, [sent] the
    session snapshots posted to the background script.  A timer slot
    holds the pending timer: its due time and what its closure captured. *)

Module Recorder.
Record t := mk {
  heap : list Page.t;
  isRecording : bool;
  currentSession : option Session.t;
  currentPageData : option nat;
  lastRecordedAction : option Action.t;
  actionDebounceTimeout : option Z;
  recordingQueue : list Action.t;
  isProcessingQueue : bool;
  scrollStartPosition : option Point.t;
  extensionContextValid : bool;
  scrollTimeout : option (Z * Point.t);
  isScrolling : bool;
  listening : bool;
  indicator : bool;
  showIndicatorSetting : bool;
  metrics : RecordingMetrics.t;
  sent : list (option SessionValue.t) }.
End Recorder.

Definition with_heap (v : list Page.t) (r : Recorder.t) : Recorder.t :=
  Recorder.mk v (Recorder.isRecording r) (Recorder.currentSession r)
    (Recorder.currentPageData r) (Recorder.lastRecordedAction r)
    (Recorder.actionDebounceTimeout r) (Recorder.recordingQueue r)
    (Recorder.isProcessingQueue r) (Recorder.scrollStartPosition r)
    (Recorder.extensionContextValid r) (Recorder.scrollTimeout r) (Recorder.isScrolling r)
    (Recorder.listening r) (Recorder.indicator r) (Recorder.showIndicatorSetting r)
    (Recorder.metrics r) (Recorder.sent r).

Definition with_isRecording (v : bool) (r : Recorder.t) : Recorder.t :=
  Recorder.mk (Recorder.heap r) v (Recorder.currentSession r) (Recorder.currentPageData r)
    (Recorder.lastRecordedAction r) (Recorder.actionDebounceTimeout r)
    (Recorder.recordingQueue r) (Recorder.isProcessingQueue r) (Recorder.scrollStartPosition
    r) (Recorder.extensionContextValid r) (Recorder.scrollTimeout r) (Recorder.isScrolling
    r) (Recorder.listening r) (Recorder.indicator r) (Recorder.showIndicatorSetting r)
    (Recorder.metrics r) (Recorder.sent r).

Definition with_currentSession (v : option Session.t) (r : Recorder.t) : Recorder.t :=
  Recorder.mk (Recorder.heap r) (Recorder.isRecording r) v (Recorder.currentPageData r)
    (Recorder.lastRecordedAction r) (Recorder.actionDebounceTimeout r)
    (Recorder.recordingQueue r) (Recorder.isProcessingQueue r) (Recorder.scrollStartPosition
    r) (Recorder.extensionContextValid r) (Recorder.scrollTimeout r) (Recorder.isScrolling
    r) (Recorder.listening r) (Recorder.indicator r) (Recorder.showIndicatorSetting r)
    (Recorder.metrics r) (Recorder.sent r).

Definition with_currentPageData (v : option nat) (r : Recorder.t) : Recorder.t :=
  Recorder.mk (Recorder.heap r) (Recorder.isRecording r) (Recorder.currentSession r) v
    (Recorder.lastRecordedAction r) (Recorder.actionDebounceTimeout r)
    (Recorder.recordingQueue r) (Recorder.isProcessingQueue r) (Recorder.scrollStartPosition
    r) (Recorder.extensionContextValid r) (Recorder.scrollTimeout r) (Recorder.isScrolling
    r) (Recorder.listening r) (Recorder.indicator r) (Recorder.showIndicatorSetting r)
    (Recorder.metrics r) (Recorder.sent r).

Definition with_lastRecordedAction (v : option Action.t) (r : Recorder.t) : Recorder.t :=
  Recorder.mk (Recorder.heap r) (Recorder.isRecording r) (Recorder.currentSession r)
    (Recorder.currentPageData r) v (Recorder.actionDebounceTimeout r)
    (Recorder.recordingQueue r) (Recorder.isProcessingQueue r) (Recorder.scrollStartPosition
    r) (Recorder.extensionContextValid r) (Recorder.scrollTimeout r) (Recorder.isScrolling
    r) (Recorder.listening r) (Recorder.indicator r) (Recorder.showIndicatorSetting r)
    (Recorder.metrics r) (Recorder.sent r).

Definition with_actionDebounceTimeout (v : option Z) (r : Recorder.t) : Recorder.t :=
  Recorder.mk (Recorder.heap r) (Recorder.isRecording r) (Recorder.currentSession r)
    (Recorder.currentPageData r) (Recorder.lastRecordedAction r) v (Recorder.recordingQueue
    r) (Recorder.isProcessingQueue r) (Recorder.scrollStartPosition r)
    (Recorder.extensionContextValid r) (Recorder.scrollTimeout r) (Recorder.isScrolling r)
    (Recorder.listening r) (Recorder.indicator r) (Recorder.showIndicatorSetting r)
    (Recorder.metrics r) (Recorder.sent r).

Definition with_recordingQueue (v : list Action.t) (r : Recorder.t) : Recorder.t :=
  Recorder.mk (Recorder.heap r) (Recorder.isRecording r) (Recorder.currentSession r)
    (Recorder.currentPageData r) (Recorder.lastRecordedAction r)
    (Recorder.actionDebounceTimeout r) v (Recorder.isProcessingQueue r)
    (Recorder.scrollStartPosition r) (Recorder.extensionContextValid r)
    (Recorder.scrollTimeout r) (Recorder.isScrolling r) (Recorder.listening r)
    (Recorder.indicator r) (Recorder.showIndicatorSetting r) (Recorder.metrics r)
    (Recorder.sent r).

Definition with_isProcessingQueue (v : bool) (r : Recorder.t) : Recorder.t :=
  Recorder.mk (Recorder.heap r) (Recorder.isRecording r) (Recorder.currentSession r)
    (Recorder.currentPageData r) (Recorder.lastRecordedAction r)
    (Recorder.actionDebounceTimeout r) (Recorder.recordingQueue r) v
    (Recorder.scrollStartPosition r) (Recorder.extensionContextValid r)
    (Recorder.scrollTimeout r) (Recorder.isScrolling r) (Recorder.listening r)
    (Recorder.indicator r) (Recorder.showIndicatorSetting r) (Recorder.metrics r)
    (Recorder.sent r).

Definition with_scrollStartPosition (v : option Point.t) (r : Recorder.t) : Recorder.t :=
  Recorder.mk (Recorder.heap r) (Recorder.isRecording r) (Recorder.currentSession r)
    (Recorder.currentPageData r) (Recorder.lastRecordedAction r)
    (Recorder.actionDebounceTimeout r) (Recorder.recordingQueue r)
    (Recorder.isProcessingQueue r) v (Recorder.extensionContextValid r)
    (Recorder.scrollTimeout r) (Recorder.isScrolling r) (Recorder.listening r)
    (Recorder.indicator r) (Recorder.showIndicatorSetting r) (Recorder.metrics r)
    (Recorder.sent r).

Definition with_extensionContextValid (v : bool) (r : Recorder.t) : Recorder.t :=
  Recorder.mk (Recorder.heap r) (Recorder.isRecording r) (Recorder.currentSession r)
    (Recorder.currentPageData r) (Recorder.lastRecordedAction r)
    (Recorder.actionDebounceTimeout r) (Recorder.recordingQueue r)
    (Recorder.isProcessingQueue r) (Recorder.scrollStartPosition r) v
    (Recorder.scrollTimeout r) (Recorder.isScrolling r) (Recorder.listening r)
    (Recorder.indicator r) (Recorder.showIndicatorSetting r) (Recorder.metrics r)
    (Recorder.sent r).

Definition with_scrollTimeout (v : option (Z * Point.t)) (r : Recorder.t) : Recorder.t :=
  Recorder.mk (Recorder.heap r) (Recorder.isRecording r) (Recorder.currentSession r)
    (Recorder.currentPageData r) (Recorder.lastRecordedAction r)
    (Recorder.actionDebounceTimeout r) (Recorder.recordingQueue r)
    (Recorder.isProcessingQueue r) (Recorder.scrollStartPosition r)
    (Recorder.extensionContextValid r) v (Recorder.isScrolling r) (Recorder.listening r)
    (Recorder.indicator r) (Recorder.showIndicatorSetting r) (Recorder.metrics r)
    (Recorder.sent r).

Definition with_isScrolling (v : bool) (r : Recorder.t) : Recorder.t :=
  Recorder.mk (Recorder.heap r) (Recorder.isRecording r) (Recorder.currentSession r)
    (Recorder.currentPageData r) (Recorder.lastRecordedAction r)
    (Recorder.actionDebounceTimeout r) (Recorder.recordingQueue r)
    (Recorder.isProcessingQueue r) (Recorder.scrollStartPosition r)
    (Recorder.extensionContextValid r) (Recorder.scrollTimeout r) v (Recorder.listening r)
    (Recorder.indicator r) (Recorder.showIndicatorSetting r) (Recorder.metrics r)
    (Recorder.sent r).

Definition with_listening (v : bool) (r : Recorder.t) : Recorder.t :=
  Recorder.mk (Recorder.heap r) (Recorder.isRecording r) (Recorder.currentSession r)
    (Recorder.currentPageData r) (Recorder.lastRecordedAction r)
    (Recorder.actionDebounceTimeout r) (Recorder.recordingQueue r)
    (Recorder.isProcessingQueue r) (Recorder.scrollStartPosition r)
    (Recorder.extensionContextValid r) (Recorder.scrollTimeout r) (Recorder.isScrolling r) v
    (Recorder.indicator r) (Recorder.showIndicatorSetting r) (Recorder.metrics r)
    (Recorder.sent r).

Definition with_indicator (v : bool) (r : Recorder.t) : Recorder.t :=
  Recorder.mk (Recorder.heap r) (Recorder.isRecording r) (Recorder.currentSession r)
    (Recorder.currentPageData r) (Recorder.lastRecordedAction r)
    (Recorder.actionDebounceTimeout r) (Recorder.recordingQueue r)
    (Recorder.isProcessingQueue r) (Recorder.scrollStartPosition r)
    (Recorder.extensionContextValid r) (Recorder.scrollTimeout r) (Recorder.isScrolling r)
    (Recorder.listening r) v (Recorder.showIndicatorSetting r) (Recorder.metrics r)
    (Recorder.sent r).

Definition with_showIndicatorSetting (v : bool) (r : Recorder.t) : Recorder.t :=
  Recorder.mk (Recorder.heap r) (Recorder.isRecording r) (Recorder.currentSession r)
    (Recorder.currentPageData r) (Recorder.lastRecordedAction r)
    (Recorder.actionDebounceTimeout r) (Recorder.recordingQueue r)
    (Recorder.isProcessingQueue r) (Recorder.scrollStartPosition r)
    (Recorder.extensionContextValid r) (Recorder.scrollTimeout r) (Recorder.isScrolling r)
    (Recorder.listening r) (Recorder.indicator r) v (Recorder.metrics r) (Recorder.sent r).

Definition with_metrics (v : RecordingMetrics.t) (r : Recorder.t) : Recorder.t :=
  Recorder.mk (Recorder.heap r) (Recorder.isRecording r) (Recorder.currentSession r)
    (Recorder.currentPageData r) (Recorder.lastRecordedAction r)
    (Recorder.actionDebounceTimeout r) (Recorder.recordingQueue r)
    (Recorder.isProcessingQueue r) (Recorder.scrollStartPosition r)
    (Recorder.extensionContextValid r) (Recorder.scrollTimeout r) (Recorder.isScrolling r)
    (Recorder.listening r) (Recorder.indicator r) (Recorder.showIndicatorSetting r) v
    (Recorder.sent r).

Definition with_sent (v : list (option SessionValue.t)) (r : Recorder.t) : Recorder.t :=
  Recorder.mk (Recorder.heap r) (Recorder.isRecording r) (Recorder.currentSession r)
    (Recorder.currentPageData r) (Recorder.lastRecordedAction r)
    (Recorder.actionDebounceTimeout r) (Recorder.recordingQueue r)
    (Recorder.isProcessingQueue r) (Recorder.scrollStartPosition r)
    (Recorder.extensionContextValid r) (Recorder.scrollTimeout r) (Recorder.isScrolling r)
    (Recorder.listening r) (Recorder.indicator r) (Recorder.showIndicatorSetting r)
    (Recorder.metrics r) v.

(** A handler either runs to its end or stops at an uncaught TypeError;
    both leave a recorder state behind. *)
Inductive outcome : Type :=
| Done (r : Recorder.t)
| Raised (r : Recorder.t).

Definition settle (o : outcome) : Recorder.t :=
  match o with Done r | Raised r => r end.

(** Heap access. *)
Definition deref (r : Recorder.t) (ref : nat) : option Page.t :=
  nth_error (Recorder.heap r) ref.

Fixpoint modify_nth {A} (f : A -> A) (i : nat) (l : list A) : list A :=
  match l, i with
  | [], _ => []
  | a :: l', O => f a :: l'
  | a :: l', S i' => a :: modify_nth f i' l'
  end.

Definition pushAction (a : Action.t) (p : Page.t) : Page.t :=
  Page.mk (Page.url p) (Page.title p) (Page.timestamp p) (Page.endTime p)
    (Page.actions p ++ [a])%list.

Definition setEndTime (t : Z) (p : Page.t) : Page.t :=
  Page.mk (Page.url p) (Page.title p) (Page.timestamp p) (Some t) (Page.actions p).

Definition updatePage (f : Page.t -> Page.t) (ref : nat) (r : Recorder.t) : Recorder.t :=
  with_heap (modify_nth f ref (Recorder.heap r)) r.

(** The session with its pages read from the heap, as a message or a
    return value carries it. *)
Definition snapshot (r : Recorder.t) : option SessionValue.t :=
  match Recorder.currentSession r with
  | None => None
  | Some s =>
      Some (SessionValue.mk (Session.id s) (Session.startTime s)
              (flat_map (fun ref => match deref r ref with
                                    | Some p => [p]
                                    | None => []
                                    end) (Session.pages s)))
  end.

Definition updateBackgroundSession (env : Env.t) (r : Recorder.t) : Recorder.t :=
  if negb (Env.hasRuntime env) || negb (Env.hasSendMessage env)
     || negb (Recorder.extensionContextValid r)
  then with_extensionContextValid false r
  else if Env.sendMessageThrows env
  then with_extensionContextValid false r
  else with_sent (Recorder.sent r ++ [snapshot r])%list r.

Definition hideRecordingIndicator (r : Recorder.t) : Recorder.t :=
  with_indicator false r.

Definition showRecordingIndicator (r : Recorder.t) : Recorder.t :=
  if negb (Recorder.showIndicatorSetting r) then r
  else with_indicator true (hideRecordingIndicator r).

Definition addEventListeners (r : Recorder.t) : Recorder.t := with_listening true r.

Definition startPageRecording (env : Env.t) (r : Recorder.t) : Recorder.t :=
  let page := Page.mk (Env.href env) (Env.title env) (Env.now env) None [] in
  let ref := length (Recorder.heap r) in
  let r := with_currentPageData (Some ref) (with_heap (Recorder.heap r ++ [page])%list r) in
  let r := addEventListeners r in
  match Recorder.currentSession r with
  | Some s =>
      let s' := Session.mk (Session.id s) (Session.startTime s) (Session.pages s ++ [ref])%list in
      updateBackgroundSession env (with_currentSession (Some s') r)
  | None => r
  end.

Definition startRecordingMetrics (env : Env.t) (r : Recorder.t) : Recorder.t :=
  with_metrics (RecordingMetrics.mk (Some (Env.now env)) None 0 1 0) r.

Definition endRecordingMetrics (env : Env.t) (r : Recorder.t) : Recorder.t :=
  let m := Recorder.metrics r in
  with_metrics (RecordingMetrics.mk (RecordingMetrics.startTime m) (Some (Env.now env))
                  (RecordingMetrics.actionsRecorded m) (RecordingMetrics.pagesRecorded m)
                  (RecordingMetrics.errors m)) r.

Definition recordActionMetric (r : Recorder.t) : Recorder.t :=
  let m := Recorder.metrics r in
  with_metrics (RecordingMetrics.mk (RecordingMetrics.startTime m) (RecordingMetrics.endTime m)
                  (S (RecordingMetrics.actionsRecorded m)) (RecordingMetrics.pagesRecorded m)
                  (RecordingMetrics.errors m)) r.

Definition startRecording (env : Env.t) (r : Recorder.t) : Recorder.t :=
  if Recorder.isRecording r then r
  else
    let r := with_isRecording true r in
    let r := with_currentSession
               (Some (Session.mk (toString (Env.now env)) (Env.now env) [])) r in
    let r := startRecordingMetrics env r in
    let r := startPageRecording env r in
    showRecordingIndicator r.

(** The incoming session's pages become heap objects of this recorder. *)
Definition adopt (session : option SessionValue.t) (r : Recorder.t) : Recorder.t :=
  match session with
  | None => with_currentSession None r
  | Some sv =>
      let base := length (Recorder.heap r) in
      let refs := seq base (length (SessionValue.pages sv)) in
      with_currentSession
        (Some (Session.mk (SessionValue.id sv) (SessionValue.startTime sv) refs))
        (with_heap (Recorder.heap r ++ SessionValue.pages sv)%list r)
  end.

Definition continueRecording (env : Env.t) (session : option SessionValue.t)
  (r : Recorder.t) : Recorder.t :=
  if Recorder.isRecording r then r
  else
    let r := with_isRecording true r in
    let r := adopt session r in
    let r := startPageRecording env r in
    showRecordingIndicator r.

Definition recordNavigation (env : Env.t) (url : string) (timestamp : Z)
  (r : Recorder.t) : Recorder.t :=
  if negb (Recorder.isRecording r) then r
  else match Recorder.currentPageData r with
       | Some ref => updateBackgroundSession env (updatePage (setEndTime timestamp) ref r)
       | None => r
       end.

Definition getDebounceDelay (actionType : string) : Z :=
  if actionType =? "scroll" then 300
  else if actionType =? "input" then 100
  else if actionType =? "mousemove" then 200
  else if actionType =? "resize" then 300
  else 50.

(** [===] on values that are a string or [null]. *)
Definition same_opt_string (a b : option string) : bool :=
  match a, b with
  | Some s, Some t => s =? t
  | None, None => true
  | _, _ => false
  end.

Definition isDuplicateAction (r : Recorder.t) (newAction : Action.t) : bool :=
  match Recorder.lastRecordedAction r with
  | None => false
  | Some last =>
      let timeDiff := Action.timestamp newAction - Action.timestamp last in
      let ty := Action.type newAction in
      if ty =? "scroll" then
        if (Action.type last =? "scroll") && (timeDiff <? 200)%Z then
          let scrollDiffX := Z.abs (Point.x (Action.scrollPosition newAction)
                                    - Point.x (Action.scrollPosition last)) in
          let scrollDiffY := Z.abs (Point.y (Action.scrollPosition newAction)
                                    - Point.y (Action.scrollPosition last)) in
          (scrollDiffX <? 20)%Z && (scrollDiffY <? 20)%Z
        else false
      else if ty =? "mousemove" then
        if (Action.type last =? "mousemove") && (timeDiff <? 50)%Z then
          let coordDiffX := Z.abs (Coordinates.x (Action.coordinates newAction)
                                   - Coordinates.x (Action.coordinates last)) in
          let coordDiffY := Z.abs (Coordinates.y (Action.coordinates newAction)
                                   - Coordinates.y (Action.coordinates last)) in
          (coordDiffX <? 5)%Z && (coordDiffY <? 5)%Z
        else false
      else if ty =? "input" then
        if (Action.type last =? "input")
           && same_opt_string (Action.target last) (Action.target newAction)
           && (timeDiff <? 50)%Z
        then true else false
      else if (ty =? "keydown") || (ty =? "keyup") then
        if (Action.type last =? ty)
           && same_opt_string (Action.key last) (Action.key newAction)
           && (timeDiff <? 30)%Z
        then true else false
      else false
  end.

(** The [while] loop of [processRecordingQueue]: [queue] is what is left
    of [recordingQueue]. *)
Fixpoint drainQueue (queue : list Action.t) (r : Recorder.t) : outcome :=
  match queue with
  | [] => Done r
  | action :: rest =>
      let r := with_recordingQueue rest r in
      if negb (isDuplicateAction r action) then
        match Recorder.currentPageData r with
        | None => Raised r
        | Some ref =>
            let r := updatePage (pushAction action) ref r in
            let r := recordActionMetric r in
            drainQueue rest (with_lastRecordedAction (Some action) r)
        end
      else drainQueue rest r
  end.

Definition processRecordingQueue (env : Env.t) (r : Recorder.t) : outcome :=
  if Recorder.isProcessingQueue r then Done r
  else match Recorder.recordingQueue r with
       | [] => Done r
       | queue =>
           match drainQueue queue (with_isProcessingQueue true r) with
           | Raised r => Raised r
           | Done r => Done (updateBackgroundSession env (with_isProcessingQueue false r))
           end
       end.

(** The callback armed by [queueAction]. *)
Definition debounceCallback (env : Env.t) (r : Recorder.t) : Recorder.t :=
  if negb (Recorder.extensionContextValid r) || negb (Env.hasRuntime env)
  then with_isRecording false (with_extensionContextValid false r)
  else match processRecordingQueue env r with
       | Done r => r
       | Raised r => with_isRecording false (with_extensionContextValid false r)
       end.

Definition queueAction (env : Env.t) (action : Action.t) (r : Recorder.t) : Recorder.t :=
  if isDuplicateAction r action then r
  else
    let r := with_recordingQueue (Recorder.recordingQueue r ++ [action])%list r in
    with_actionDebounceTimeout
      (Some (Env.now env + getDebounceDelay (Action.type action))) r.

(** [v || null] on a string. *)
Definition orNull (v : option string) : option string :=
  match v with
  | Some s => if nonEmpty s then Some s else None
  | None => None
  end.

Definition recordAction (env : Env.t) (type : string) (event : RawEvent.t)
  (r : Recorder.t) : outcome :=
  if negb (Recorder.isRecording r) then Done r
  else if negb (Recorder.extensionContextValid r) then Done (with_isRecording false r)
  else
    match Recorder.currentPageData r with
    | None => Done r
    | Some ref =>
        let eventTarget := RawEvent.target event in
        let isElement := match eventTarget with TElement _ => true | _ => false end in
        let '(rectLeft, rectTop, rectWidth, rectHeight) := RawEvent.rect event in
        let withRect := includes_list ["click"; "dblclick"] type && isElement in
        let pick (v : Z) := if withRect then Some v else None in
        let coordinates :=
          Coordinates.mk (RawEvent.clientX event) (RawEvent.clientY event)
            (RawEvent.pageX event) (RawEvent.pageY event)
            (pick (RawEvent.clientX event - rectLeft)) (pick (RawEvent.clientY event - rectTop))
            (pick rectWidth) (pick rectHeight) in
        match deref r ref, getElementSelector (Env.dom env) (Some eventTarget) with
        | None, _ => Raised r
        | Some _, Thrown _ => Raised r
        | Some page, Normal target =>
            let action :=
              Action.mk type (Env.now env - Page.timestamp page) target coordinates
                (orNull (RawEvent.key event))
                (match eventTarget with
                 | TElement el => orNull (Element.value (dataOf el))
                 | _ => None
                 end)
                (Point.mk (Env.scrollX env) (Env.scrollY env)) None
                (Viewport.mk (Env.innerWidth env) (Env.innerHeight env)) in
            Done (queueAction env action r)
        end
    end.

Definition recordScrollAction (env : Env.t) (r : Recorder.t) : Recorder.t :=
  if negb (Recorder.isRecording r) then r
  else match Recorder.currentPageData r with
       | None => r
       | Some _ =>
           let currentScrollPosition := Point.mk (Env.scrollX env) (Env.scrollY env) in
           let r :=
             if negb (Recorder.isScrolling r)
             then with_scrollStartPosition (Some currentScrollPosition)
                    (with_isScrolling true r)
             else r in
           with_scrollTimeout (Some (Env.now env + 200, currentScrollPosition)) r
       end.

Definition scrollActionAt (env : Env.t) (page : Page.t)
  (scrollPosition : Point.t) (scrollStart : option Point.t) : Action.t :=
  Action.mk "scroll" (Env.now env - Page.timestamp page) (Some "window")
    (Coordinates.mk 0 0 0 0 None None None None) None None
    scrollPosition scrollStart
    (Viewport.mk (Env.innerWidth env) (Env.innerHeight env)).

(** [scrollDistanceX > 5 || scrollDistanceY > 5]. *)
Definition meaningfulScroll (from to : Point.t) : bool :=
  (5 <? Z.abs (Point.x to - Point.x from))%Z || (5 <? Z.abs (Point.y to - Point.y from))%Z.

(** The callback armed by [recordScrollAction]; [currentScrollPosition]
    is the position its closure captured. *)
Definition scrollCallback (env : Env.t) (currentScrollPosition : Point.t)
  (r : Recorder.t) : outcome :=
  if Recorder.isScrolling r then
    match Recorder.currentPageData r with
    | None => Raised r
    | Some ref =>
        match deref r ref, Recorder.scrollStartPosition r with
        | None, _ => Raised r
        | Some _, None => Raised r
        | Some page, Some start =>
            let scrollAction :=
              scrollActionAt env page currentScrollPosition (Some start) in
            let r :=
              if meaningfulScroll start currentScrollPosition then
                let r := updatePage (pushAction scrollAction) ref r in
                let r := with_lastRecordedAction (Some scrollAction) r in
                updateBackgroundSession env r
              else r in
            Done (with_scrollStartPosition None (with_isScrolling false r))
        end
    end
  else Done r.

Definition removeEventListeners (env : Env.t) (r : Recorder.t) : outcome :=
  let r := with_listening false r in
  let r := with_actionDebounceTimeout None r in
  let r := with_scrollTimeout None r in
  let finish (r : Recorder.t) : outcome :=
    match Recorder.recordingQueue r with
    | [] => Done r
    | _ => processRecordingQueue env r
    end in
  if Recorder.isScrolling r then
    let currentScrollPosition := Point.mk (Env.scrollX env) (Env.scrollY env) in
    let clear (r : Recorder.t) := with_scrollStartPosition None (with_isScrolling false r) in
    match Recorder.scrollStartPosition r with
    | None => finish (clear r)
    | Some start =>
        if meaningfulScroll start currentScrollPosition then
          match Recorder.currentPageData r with
          | None => Raised r
          | Some ref =>
              match deref r ref with
              | None => Raised r
              | Some page =>
                  let scrollAction :=
                    scrollActionAt env page currentScrollPosition (Some start) in
                  finish (clear (updatePage (pushAction scrollAction) ref r))
              end
          end
        else finish (clear r)
    end
  else finish r.

(** Returns the recorder left behind and the session handed back
    ([null] when not recording, or when the call threw). *)
Definition stopRecording (env : Env.t) (r : Recorder.t) : outcome * option SessionValue.t :=
  if negb (Recorder.isRecording r) then (Done r, None)
  else
    match removeEventListeners env (with_isRecording false r) with
    | Raised r => (Raised r, None)
    | Done r =>
        let r := hideRecordingIndicator r in
        let r := match Recorder.currentPageData r with
                 | Some ref => updatePage (setEndTime (Env.now env)) ref r
                 | None => r
                 end in
        let sessionToReturn := snapshot r in
        let r := endRecordingMetrics env r in
        let r := with_recordingQueue [] r in
        let r := with_currentSession None r in
        let r := with_currentPageData None r in
        (Done r, sessionToReturn)
    end.

(** The event types for which [addEventListeners] attaches a handler
    that calls [recordAction]; scroll events have their own handler. *)
Definition handledTypes : list string :=
  ["click"; "dblclick"; "keydown"; "keyup"; "input"; "change"; "submit"; "resize"].

(** What can happen to a recorder: a control message, a DOM event
    reaching a handler, or one of the two timers coming due. *)
Inductive Input : Type :=
| StartRecording
| ContinueRecording (session : option SessionValue.t)
| RecordNavigation (url : string) (timestamp : Z)
| StopRecording
| DomEvent (type : string) (event : RawEvent.t)
| ScrollEvent
| ScrollTimeout
| DebounceTimeout.

Definition step (env : Env.t) (i : Input) (r : Recorder.t) : Recorder.t :=
  match i with
  | StartRecording => startRecording env r
  | ContinueRecording session => continueRecording env session r
  | RecordNavigation url timestamp => recordNavigation env url timestamp r
  | StopRecording => settle (fst (stopRecording env r))
  | DomEvent type event =>
      if Recorder.listening r && includes_list handledTypes type
      then settle (recordAction env type event r) else r
  | ScrollEvent =>
      if Recorder.listening r then recordScrollAction env r else r
  | ScrollTimeout =>
      match Recorder.scrollTimeout r with
      | Some (due, captured) =>
          if (due <=? Env.now env)%Z
          then settle (scrollCallback env captured (with_scrollTimeout None r))
          else r
      | None => r
      end
  | DebounceTimeout =>
      match Recorder.actionDebounceTimeout r with
      | Some due =>
          if (due <=? Env.now env)%Z
          then debounceCallback env (with_actionDebounceTimeout None r)
          else r
      | None => r
      end
  end.

Fixpoint run (trace : list (Env.t * Input)) (r : Recorder.t) : Recorder.t :=
  match trace with
  | [] => r
  | (env, i) :: rest => run rest (step env i r)
  end.

(** The recorder built by the constructor. *)
Definition newRecorder : Recorder.t :=
  Recorder.mk [] false None None None None [] false None true None false false false true
    (RecordingMetrics.mk None None 0 0 0) [].

(** The actions of the page being recorded. *)
Definition currentActions (r : Recorder.t) : list Action.t :=
  match Recorder.currentPageData r with
  | Some ref => match deref r ref with
                | Some page => Page.actions page
                | None => []
                end
  | None => []
  end.

(** The actions of the page object at [ref]. *)
Definition actionsAt (r : Recorder.t) (ref : nat) : list Action.t :=
  match deref r ref with
  | Some page => Page.actions page
  | None => []
  end.

(** *** The deduplication policy as the specification words it *)







(** *** Scroll bursts *)

(** [{ x: window.scrollX, y: window.scrollY }]. *)
Definition positionOf (env : Env.t) : Point.t :=
  Point.mk (Env.scrollX env) (Env.scrollY env).

(** A burst: scroll events with no timer coming due in between. *)
Definition scrollBurst (events : list Env.t) : list (Env.t * Input) :=
  map (fun env => (env, ScrollEvent)) events.

(** The timer left pending by a run of scroll events, [t] being the one
    pending before them. *)
Fixpoint burstTimer (t : Z * Point.t) (events : list Env.t) : Z * Point.t :=
  match events with
  | [] => t
  | env :: rest => burstTimer (Env.now env + 200, positionOf env) rest
  end.

(** ** Selector resolver, replay side: [findElement] *)

(** [this.settings], the fields the replay reads. *)
Module Settings.
Record t := mk {
  speed : Q;
  visualIndicators : bool;
  autoScroll : bool;
  elementDetection : string;
  debugMode : bool;
  maxRetries : Z }.
End Settings.

(** What [findElement] hands back: a DOM element (named by a handle),
    or the document or window object. *)
Inductive Found : Type :=
| FElement (e : nat)
| FDocument
| FWindow.

(** The closures pushed on [strategies], in the order of the source. *)
Inductive Strategy : Type :=
| DataText
| CoordinateHit
| PartialSelector
| AttributeMatch
| FuzzyText
| StructureMatch.

(** A look at the document: the direct [querySelector], or a strategy. *)
Inductive Query : Type :=
| Direct
| Via (s : Strategy).

(** What a look yields: an element, nothing, or a thrown error. *)
Inductive probe : Type :=
| Hit (e : nat)
| Miss
| Fault (message : string).

(** The document as the resolver sees it: the outcome of each look for a
    selector and an action, in a given retry round (the document may
    have changed between rounds). *)
Definition oracle : Type := string -> option Action.t -> Query -> nat -> probe.

(** What a call to [findElement] does besides returning. *)
Inductive Event : Type :=
| Asked (q : Query) (round : nat)
| ErrorLogged (context : string)
| Paused (ms : Z)
| DetectionRecorded (success : bool).

Definition strategiesFor (detectionMode : string) : list Strategy :=
  ([DataText]
   ++ (if (detectionMode =? "flexible") || (detectionMode =? "aggressive")
       then [CoordinateHit; PartialSelector; AttributeMatch] else [])
   ++ (if detectionMode =? "aggressive" then [FuzzyText; StructureMatch] else []))%list.

(** The inner [for (const strategy of strategies)] of one round. *)
Fixpoint tryStrategies (look : Query -> nat -> probe) (retry : nat)
  (strategies : list Strategy) : option nat * list Event :=
  match strategies with
  | [] => (None, [])
  | s :: rest =>
      match look (Via s) retry with
      | Hit e => (Some e, [Asked (Via s) retry; DetectionRecorded true])
      | Miss =>
          let '(found, events) := tryStrategies look retry rest in
          (found, Asked (Via s) retry :: events)
      | Fault _ =>
          let '(found, events) := tryStrategies look retry rest in
          (found,
           Asked (Via s) retry
           :: ErrorLogged ("Element Detection Strategy (retry " ++ ordinal retry ++ ")")
           :: events)
      end
  end.

(** The outer [for (let retry = 0; retry < maxRetries; retry++)];
    [rounds] is the number of iterations still to run. *)
Fixpoint retryLoop (look : Query -> nat -> probe) (strategies : list Strategy)
  (maxRetries : Z) (rounds : nat) (retry : nat) : option nat * list Event :=
  match rounds with
  | O => (None, [])
  | S rounds' =>
      match tryStrategies look retry strategies with
      | (Some e, events) => (Some e, events)
      | (None, events) =>
          let pause := if (Z.of_nat retry <? maxRetries - 1)%Z then [Paused 200] else [] in
          let '(found, later) := retryLoop look strategies maxRetries rounds' (S retry) in
          (found, (events ++ pause ++ later)%list)
      end
  end.

Definition findElement (settings : Settings.t) (page : oracle)
  (selector : option string) (action : option Action.t) : option Found * list Event :=
  match selector with
  | None => (None, [])
  | Some selector =>
      if selector =? "" then (None, [])
      else if selector =? "document" then (Some FDocument, [])
      else if selector =? "window" then (Some FWindow, [])
      else
        let detectionMode := Settings.elementDetection settings in
        let maxRetries := Settings.maxRetries settings in
        let look := page selector action in
        let retries (direct : list Event) :=
          match retryLoop look (strategiesFor detectionMode) maxRetries
                  (Z.to_nat maxRetries) 0 with
          | (Some e, events) => (Some (FElement e), (direct ++ events)%list)
          | (None, events) =>
              (None, (direct ++ events ++ [DetectionRecorded false])%list)
          end in
        match look Direct O with
        | Hit e => (Some (FElement e), [Asked Direct 0])
        | Miss => retries [Asked Direct 0]
        | Fault _ => retries [Asked Direct 0; ErrorLogged "Direct Selector Query"]
        end
  end.

(** *** The pipeline as the specification words it: the direct query is
    the first strategy of every round *)




(** *** The pipeline as the code runs it *)

(** The looks in the order of the code: the direct query once, then
    every strategy of the mode in each of the rounds. *)
Definition attempts (strategies : list Strategy) (rounds : nat) : list (Query * nat) :=
  (Direct, O)
  :: flat_map (fun retry => map (fun s => (Via s, retry)) strategies) (seq 0 rounds).

(** The element of the first look that hits. *)
Fixpoint firstHit (look : Query -> nat -> probe) (l : list (Query * nat)) : option nat :=
  match l with
  | [] => None
  | (q, retry) :: rest =>
      match look q retry with
      | Hit e => Some e
      | _ => firstHit look rest
      end
  end.

Definition isHit (p : probe) : bool :=
  match p with Hit _ => true | _ => false end.

Definition isPause (ev : Event) : bool :=
  match ev with Paused _ => true | _ => false end.

Definition isDirect (ev : Event) : bool :=
  match ev with Asked Direct _ => true | _ => false end.

(** ** Playback scheduler and action executor *)

(** A page of the session being replayed.  [actions] may be missing. *)
Module PlaybackPage.
Record t := mk {
  url : string;
  actions : option (list Action.t) }.
End PlaybackPage.

(** A stored session: pages, or the legacy flat list of actions. *)
Module PlaybackSession.
Record t := mk {
  pages : option (list PlaybackPage.t);
  actions : option (list Action.t) }.
End PlaybackSession.

(** What a pending timer (or frame callback, or promise) will run. *)
Inductive Task : Type :=
| AfterReady (overlay : bool)
| NextAction
| NextPage
| Execute (action : Action.t)
| RetryFind (action : Action.t).

(** A pending timer: its id, its due time and its task. *)
Definition Timer : Type := (nat * Z * Task)%type.

(** What the replay does to the page and tells the host. *)
Inductive Effect : Type :=
| Warned (message : string)
| ErrorCaught
| Clicked (element : nat)
| DoubleClicked (element : nat)
| KeyDispatched (type : string) (key : option string)
| InputSet (element : nat) (value : option string)
| ScrolledTo (position : Point.t)
| MouseDispatched (type : string) (on : Found)
| SubmitDispatched (form : nat)
| StateStored (pageIndex : option nat) (actionIndex : nat)
| NavigatedTo (url : string)
| PlaybackCompleted.

(** The page in which the replay runs.  [interactiveAt] and
    [completeAt] are the times at which [document.readyState] leaves
    "loading" and reaches "complete"; [frame] is the wait for the next
    animation frame; [scrollAt] and [elementFromPoint] take the time of
    the call; [ancestors] lists [parentElement] upwards. *)
Module World.
Record t := mk {
  page : oracle;
  href : string;
  interactiveAt : Z;
  completeAt : Z;
  frame : Z;
  scrollAt : Z -> Point.t;
  innerWidth : Z;
  innerHeight : Z;
  elementFromPoint : Z -> Z -> Z -> option nat;
  tagName : nat -> string;
  isElementInteractable : nat -> bool;
  ancestors : nat -> list nat;
  closestForm : nat -> option nat }.
End World.

(** The player's fields, under the names of the source;
    [detectionAttempts] and [detectionSuccesses] are the playback
    metrics, [errorsLogged] counts [errorHandler.logError]; [clock],
    [timers] and [nextTimerId] are the event loop, [unloaded] says that
    the page was navigated away, [uncaught] counts uncaught errors. *)
Module Player.
#[local] Set Primitive Projections.
Record t := mk {
  playbackSession : option PlaybackSession.t;
  playbackPageIndex : option nat;
  playbackActionIndex : nat;
  currentPlaybackPage : option PlaybackPage.t;
  isPlaybackPaused : bool;
  playbackTimeoutId : option nat;
  playbackOverlay : bool;
  settings : Settings.t;
  detectionAttempts : nat;
  detectionSuccesses : nat;
  errorsLogged : nat;
  clock : Z;
  unloaded : bool;
  timers : list Timer;
  nextTimerId : nat;
  effects : list Effect;
  uncaught : nat }.
End Player.

Definition set_playbackSession (v : option PlaybackSession.t) (p : Player.t) : Player.t :=
  Player.mk v (Player.playbackPageIndex p) (Player.playbackActionIndex p)
    (Player.currentPlaybackPage p) (Player.isPlaybackPaused p) (Player.playbackTimeoutId p)
    (Player.playbackOverlay p) (Player.settings p) (Player.detectionAttempts p)
    (Player.detectionSuccesses p) (Player.errorsLogged p) (Player.clock p) (Player.unloaded
    p) (Player.timers p) (Player.nextTimerId p) (Player.effects p) (Player.uncaught p).

Definition set_playbackPageIndex (v : option nat) (p : Player.t) : Player.t :=
  Player.mk (Player.playbackSession p) v (Player.playbackActionIndex p)
    (Player.currentPlaybackPage p) (Player.isPlaybackPaused p) (Player.playbackTimeoutId p)
    (Player.playbackOverlay p) (Player.settings p) (Player.detectionAttempts p)
    (Player.detectionSuccesses p) (Player.errorsLogged p) (Player.clock p) (Player.unloaded
    p) (Player.timers p) (Player.nextTimerId p) (Player.effects p) (Player.uncaught p).

Definition set_playbackActionIndex (v : nat) (p : Player.t) : Player.t :=
  Player.mk (Player.playbackSession p) (Player.playbackPageIndex p) v
    (Player.currentPlaybackPage p) (Player.isPlaybackPaused p) (Player.playbackTimeoutId p)
    (Player.playbackOverlay p) (Player.settings p) (Player.detectionAttempts p)
    (Player.detectionSuccesses p) (Player.errorsLogged p) (Player.clock p) (Player.unloaded
    p) (Player.timers p) (Player.nextTimerId p) (Player.effects p) (Player.uncaught p).

Definition set_currentPlaybackPage (v : option PlaybackPage.t) (p : Player.t) : Player.t :=
  Player.mk (Player.playbackSession p) (Player.playbackPageIndex p)
    (Player.playbackActionIndex p) v (Player.isPlaybackPaused p) (Player.playbackTimeoutId
    p) (Player.playbackOverlay p) (Player.settings p) (Player.detectionAttempts p)
    (Player.detectionSuccesses p) (Player.errorsLogged p) (Player.clock p) (Player.unloaded
    p) (Player.timers p) (Player.nextTimerId p) (Player.effects p) (Player.uncaught p).

Definition set_isPlaybackPaused (v : bool) (p : Player.t) : Player.t :=
  Player.mk (Player.playbackSession p) (Player.playbackPageIndex p)
    (Player.playbackActionIndex p) (Player.currentPlaybackPage p) v
    (Player.playbackTimeoutId p) (Player.playbackOverlay p) (Player.settings p)
    (Player.detectionAttempts p) (Player.detectionSuccesses p) (Player.errorsLogged p)
    (Player.clock p) (Player.unloaded p) (Player.timers p) (Player.nextTimerId p)
    (Player.effects p) (Player.uncaught p).

Definition set_playbackTimeoutId (v : option nat) (p : Player.t) : Player.t :=
  Player.mk (Player.playbackSession p) (Player.playbackPageIndex p)
    (Player.playbackActionIndex p) (Player.currentPlaybackPage p) (Player.isPlaybackPaused
    p) v (Player.playbackOverlay p) (Player.settings p) (Player.detectionAttempts p)
    (Player.detectionSuccesses p) (Player.errorsLogged p) (Player.clock p) (Player.unloaded
    p) (Player.timers p) (Player.nextTimerId p) (Player.effects p) (Player.uncaught p).

Definition set_playbackOverlay (v : bool) (p : Player.t) : Player.t :=
  Player.mk (Player.playbackSession p) (Player.playbackPageIndex p)
    (Player.playbackActionIndex p) (Player.currentPlaybackPage p) (Player.isPlaybackPaused
    p) (Player.playbackTimeoutId p) v (Player.settings p) (Player.detectionAttempts p)
    (Player.detectionSuccesses p) (Player.errorsLogged p) (Player.clock p) (Player.unloaded
    p) (Player.timers p) (Player.nextTimerId p) (Player.effects p) (Player.uncaught p).

Definition set_settings (v : Settings.t) (p : Player.t) : Player.t :=
  Player.mk (Player.playbackSession p) (Player.playbackPageIndex p)
    (Player.playbackActionIndex p) (Player.currentPlaybackPage p) (Player.isPlaybackPaused
    p) (Player.playbackTimeoutId p) (Player.playbackOverlay p) v (Player.detectionAttempts
    p) (Player.detectionSuccesses p) (Player.errorsLogged p) (Player.clock p)
    (Player.unloaded p) (Player.timers p) (Player.nextTimerId p) (Player.effects p)
    (Player.uncaught p).

Definition set_detectionAttempts (v : nat) (p : Player.t) : Player.t :=
  Player.mk (Player.playbackSession p) (Player.playbackPageIndex p)
    (Player.playbackActionIndex p) (Player.currentPlaybackPage p) (Player.isPlaybackPaused
    p) (Player.playbackTimeoutId p) (Player.playbackOverlay p) (Player.settings p) v
    (Player.detectionSuccesses p) (Player.errorsLogged p) (Player.clock p) (Player.unloaded
    p) (Player.timers p) (Player.nextTimerId p) (Player.effects p) (Player.uncaught p).

Definition set_detectionSuccesses (v : nat) (p : Player.t) : Player.t :=
  Player.mk (Player.playbackSession p) (Player.playbackPageIndex p)
    (Player.playbackActionIndex p) (Player.currentPlaybackPage p) (Player.isPlaybackPaused
    p) (Player.playbackTimeoutId p) (Player.playbackOverlay p) (Player.settings p)
    (Player.detectionAttempts p) v (Player.errorsLogged p) (Player.clock p) (Player.unloaded
    p) (Player.timers p) (Player.nextTimerId p) (Player.effects p) (Player.uncaught p).

Definition set_errorsLogged (v : nat) (p : Player.t) : Player.t :=
  Player.mk (Player.playbackSession p) (Player.playbackPageIndex p)
    (Player.playbackActionIndex p) (Player.currentPlaybackPage p) (Player.isPlaybackPaused
    p) (Player.playbackTimeoutId p) (Player.playbackOverlay p) (Player.settings p)
    (Player.detectionAttempts p) (Player.detectionSuccesses p) v (Player.clock p)
    (Player.unloaded p) (Player.timers p) (Player.nextTimerId p) (Player.effects p)
    (Player.uncaught p).

Definition set_clock (v : Z) (p : Player.t) : Player.t :=
  Player.mk (Player.playbackSession p) (Player.playbackPageIndex p)
    (Player.playbackActionIndex p) (Player.currentPlaybackPage p) (Player.isPlaybackPaused
    p) (Player.playbackTimeoutId p) (Player.playbackOverlay p) (Player.settings p)
    (Player.detectionAttempts p) (Player.detectionSuccesses p) (Player.errorsLogged p) v
    (Player.unloaded p) (Player.timers p) (Player.nextTimerId p) (Player.effects p)
    (Player.uncaught p).

Definition set_unloaded (v : bool) (p : Player.t) : Player.t :=
  Player.mk (Player.playbackSession p) (Player.playbackPageIndex p)
    (Player.playbackActionIndex p) (Player.currentPlaybackPage p) (Player.isPlaybackPaused
    p) (Player.playbackTimeoutId p) (Player.playbackOverlay p) (Player.settings p)
    (Player.detectionAttempts p) (Player.detectionSuccesses p) (Player.errorsLogged p)
    (Player.clock p) v (Player.timers p) (Player.nextTimerId p) (Player.effects p)
    (Player.uncaught p).

Definition set_timers (v : list Timer) (p : Player.t) : Player.t :=
  Player.mk (Player.playbackSession p) (Player.playbackPageIndex p)
    (Player.playbackActionIndex p) (Player.currentPlaybackPage p) (Player.isPlaybackPaused
    p) (Player.playbackTimeoutId p) (Player.playbackOverlay p) (Player.settings p)
    (Player.detectionAttempts p) (Player.detectionSuccesses p) (Player.errorsLogged p)
    (Player.clock p) (Player.unloaded p) v (Player.nextTimerId p) (Player.effects p)
    (Player.uncaught p).

Definition set_nextTimerId (v : nat) (p : Player.t) : Player.t :=
  Player.mk (Player.playbackSession p) (Player.playbackPageIndex p)
    (Player.playbackActionIndex p) (Player.currentPlaybackPage p) (Player.isPlaybackPaused
    p) (Player.playbackTimeoutId p) (Player.playbackOverlay p) (Player.settings p)
    (Player.detectionAttempts p) (Player.detectionSuccesses p) (Player.errorsLogged p)
    (Player.clock p) (Player.unloaded p) (Player.timers p) v (Player.effects p)
    (Player.uncaught p).

Definition set_effects (v : list Effect) (p : Player.t) : Player.t :=
  Player.mk (Player.playbackSession p) (Player.playbackPageIndex p)
    (Player.playbackActionIndex p) (Player.currentPlaybackPage p) (Player.isPlaybackPaused
    p) (Player.playbackTimeoutId p) (Player.playbackOverlay p) (Player.settings p)
    (Player.detectionAttempts p) (Player.detectionSuccesses p) (Player.errorsLogged p)
    (Player.clock p) (Player.unloaded p) (Player.timers p) (Player.nextTimerId p) v
    (Player.uncaught p).

Definition set_uncaught (v : nat) (p : Player.t) : Player.t :=
  Player.mk (Player.playbackSession p) (Player.playbackPageIndex p)
    (Player.playbackActionIndex p) (Player.currentPlaybackPage p) (Player.isPlaybackPaused
    p) (Player.playbackTimeoutId p) (Player.playbackOverlay p) (Player.settings p)
    (Player.detectionAttempts p) (Player.detectionSuccesses p) (Player.errorsLogged p)
    (Player.clock p) (Player.unloaded p) (Player.timers p) (Player.nextTimerId p)
    (Player.effects p) v.

Definition timerId (t : Timer) : nat := fst (fst t).
Definition timerDue (t : Timer) : Z := snd (fst t).
Definition timerTask (t : Timer) : Task := snd t.

Definition setTimeout (task : Task) (delay : Z) (p : Player.t) : Player.t * nat :=
  let id := Player.nextTimerId p in
  (set_nextTimerId (S id)
     (set_timers (Player.timers p ++ [(id, Player.clock p + delay, task)])%list p),
   id).

(** The timers other than the one named [id]. *)
Definition keepOthers (id : nat) (l : list Timer) : list Timer :=
  filter (fun t => negb (timerId t =? id)%nat) l.

Definition clearTimeout (id : nat) (p : Player.t) : Player.t :=
  set_timers (keepOthers id (Player.timers p)) p.

Definition emit (l : list Effect) (p : Player.t) : Player.t :=
  set_effects (Player.effects p ++ l)%list p.

(** What a call to [findElement] leaves in the player: the busy-waits
    move the clock, errors and detections are counted. *)
Fixpoint absorb (events : list Event) (p : Player.t) : Player.t :=
  match events with
  | [] => p
  | ev :: rest =>
      absorb rest
        match ev with
        | Asked _ _ => p
        | ErrorLogged _ => set_errorsLogged (S (Player.errorsLogged p)) p
        | Paused ms => set_clock (Player.clock p + ms) p
        | DetectionRecorded true =>
            set_detectionSuccesses (S (Player.detectionSuccesses p))
              (set_detectionAttempts (S (Player.detectionAttempts p)) p)
        | DetectionRecorded false =>
            set_detectionAttempts (S (Player.detectionAttempts p)) p
        end
  end.

Definition locate (w : World.t) (selector : option string) (action : Action.t)
  (p : Player.t) : option Found * Player.t :=
  let '(found, events) :=
    findElement (Player.settings p) (World.page w) selector (Some action) in
  (found, absorb events p).

(** [simulateClick] from "Ensure the element is visible and
    interactable" on: the click lands on the element, or on its nearest
    interactable ancestor. *)
Definition clickOnElement (w : World.t) (element : nat) : list Effect :=
  if World.isElementInteractable w element then [Clicked element]
  else
    Warned "Element is not interactable"
    :: match find (World.isElementInteractable w) (World.ancestors w element) with
       | Some parent => [Clicked parent]
       | None => [Clicked element]
       end.

Definition simulateClick (w : World.t) (now : Z) (targetElement : option Found)
  (action : Action.t) : list Effect :=
  match targetElement with
  | Some (FElement element) => clickOnElement w element
  | Some _ => [ErrorCaught]
  | None =>
      let clientX := Coordinates.x (Action.coordinates action) in
      let clientY := Coordinates.y (Action.coordinates action) in
      let current := World.scrollAt w now in
      let recorded := Action.scrollPosition action in
      let adjustedX := clientX + (Point.x current - Point.x recorded) in
      let adjustedY := clientY + (Point.y current - Point.y recorded) in
      let adjustedX := Z.max 0 (Z.min adjustedX (World.innerWidth w - 1)) in
      let adjustedY := Z.max 0 (Z.min adjustedY (World.innerHeight w - 1)) in
      match World.elementFromPoint w now adjustedX adjustedY with
      | Some element => clickOnElement w element
      | None => [Warned "Could not find any element to click at coordinates"]
      end
  end.

Definition simulateDoubleClick (w : World.t) (now : Z) (targetElement : option Found)
  (action : Action.t) : list Effect :=
  match targetElement with
  | Some (FElement element) => [DoubleClicked element]
  | Some _ => [ErrorCaught]
  | None =>
      match World.elementFromPoint w now (Coordinates.x (Action.coordinates action))
              (Coordinates.y (Action.coordinates action)) with
      | Some element => [DoubleClicked element]
      | None => [Warned "Could not find element for double-click"]
      end
  end.

Definition simulateKeyEvent (action : Action.t) : list Effect :=
  [KeyDispatched (Action.type action) (Action.key action)].

Definition simulateInputEvent (w : World.t) (targetElement : option Found)
  (action : Action.t) : list Effect :=
  match targetElement with
  | Some (FElement element) =>
      if (World.tagName w element =? "INPUT") || (World.tagName w element =? "TEXTAREA")
      then [InputSet element (Action.value action)]
      else [Warned "Could not simulate input - target element not found or not an input"]
  | _ => [Warned "Could not simulate input - target element not found or not an input"]
  end.

Definition simulateScrollEvent (action : Action.t) : list Effect :=
  [ScrolledTo (Action.scrollPosition action)].

Definition simulateMouseEvent (w : World.t) (now : Z) (targetElement : option Found)
  (action : Action.t) : list Effect :=
  match targetElement with
  | Some on => [MouseDispatched (Action.type action) on]
  | None =>
      match World.elementFromPoint w now (Coordinates.x (Action.coordinates action))
              (Coordinates.y (Action.coordinates action)) with
      | Some element => [MouseDispatched (Action.type action) (FElement element)]
      | None => []
      end
  end.

Definition simulateSubmitEvent (w : World.t) (targetElement : option Found) : list Effect :=
  match targetElement with
  | Some (FElement element) =>
      if World.tagName w element =? "FORM" then [SubmitDispatched element]
      else match World.closestForm w element with
           | Some form => [SubmitDispatched form]
           | None => []
           end
  | Some _ => [ErrorCaught]
  | None => []
  end.

(** The [switch (action.type)] of [executeAction]. *)
Definition dispatch (w : World.t) (now : Z) (targetElement : option Found)
  (action : Action.t) : list Effect :=
  let ty := Action.type action in
  if ty =? "click" then simulateClick w now targetElement action
  else if ty =? "dblclick" then simulateDoubleClick w now targetElement action
  else if (ty =? "keydown") || (ty =? "keyup") || (ty =? "keypress")
  then simulateKeyEvent action
  else if (ty =? "input") || (ty =? "change")
  then simulateInputEvent w targetElement action
  else if ty =? "scroll" then simulateScrollEvent action
  else if ty =? "mousemove" then simulateMouseEvent w now targetElement action
  else if ty =? "submit" then simulateSubmitEvent w targetElement
  else [].

Definition executeAction (w : World.t) (action : Action.t) (p : Player.t) : Player.t :=
  if (Player.clock p <? World.interactiveAt w)%Z
  then fst (setTimeout (Execute action) 200 p)
  else
    let '(targetElement, p) :=
      match Action.target action with
      | Some selector =>
          if nonEmpty selector then
            let '(found, p) := locate w (Some selector) action p in
            match found with
            | Some f => (Some f, p)
            | None =>
                (None,
                 fst (setTimeout (RetryFind action) 500
                        (emit [Warned "Target element not found"] p)))
            end
          else (None, p)
      | None => (None, p)
      end in
    emit (dispatch w (Player.clock p) targetElement action) p.

(** The second look armed by [executeAction]; its result is only logged. *)
Definition retryFind (w : World.t) (action : Action.t) (p : Player.t) : Player.t :=
  let '(found, p) := locate w (Action.target action) action p in
  match found with
  | Some _ => p
  | None => emit [Warned "Target element still not found after retry"] p
  end.

(** [visualizeClickAction] and [visualizeAction], as far as the player's
    state goes: a missing overlay is logged as an error. *)
Definition visualize (action : Action.t) (p : Player.t) : Player.t :=
  if negb (Settings.visualIndicators (Player.settings p)) then p
  else if negb (isClickEvent (Action.type action))
          && ((Action.type action =? "keyup") || (Action.type action =? "keydown")
              || (Action.type action =? "scroll"))
  then p
  else if negb (Player.playbackOverlay p)
  then set_errorsLogged (S (Player.errorsLogged p)) p
  else p.

Definition executeActionWithVisualization (w : World.t) (action : Action.t)
  (p : Player.t) : Player.t :=
  if isClickEvent (Action.type action)
  then fst (setTimeout (Execute action) (World.frame w) (visualize action p))
  else executeAction w action (visualize action p).

Definition stopPlayback (p : Player.t) : Player.t :=
  let p := match Player.playbackTimeoutId p with
           | Some id => set_playbackTimeoutId None (clearTimeout id p)
           | None => p
           end in
  let p := set_playbackOverlay false p in
  let p := set_playbackActionIndex 0 p in
  let p := set_playbackPageIndex (Some O) p in
  let p := set_playbackSession None p in
  let p := set_currentPlaybackPage None p in
  let p := set_isPlaybackPaused false p in
  emit [PlaybackCompleted; PlaybackCompleted] p.

Definition navigateToPageForPlayback (url : string) (p : Player.t) : Player.t :=
  set_unloaded true
    (emit [StateStored (Player.playbackPageIndex p) (Player.playbackActionIndex p);
           NavigatedTo url] p).

(** [waitForPageReady().then(...)]: the continuation runs once the
    document is complete, and after ten seconds at the latest. *)
Definition whenPageReady (w : World.t) (task : Task) (p : Player.t) : Player.t :=
  let delay := if (World.completeAt w <=? Player.clock p)%Z then 0
               else Z.min (World.completeAt w - Player.clock p) 10000 in
  fst (setTimeout task delay p).

Definition moveToNextPage (w : World.t) (p : Player.t) : Player.t :=
  match Player.playbackSession p with
  | None => set_uncaught (S (Player.uncaught p)) p
  | Some session =>
      match PlaybackSession.pages session with
      | None => stopPlayback p
      | Some pages =>
          let index := S (match Player.playbackPageIndex p with
                          | Some i => i
                          | None => O
                          end) in
          let p := set_playbackPageIndex (Some index) p in
          match nth_error pages index with
          | None => stopPlayback p
          | Some page =>
              let p := set_currentPlaybackPage (Some page) p in
              let p := set_playbackActionIndex 0 p in
              if negb (World.href w =? PlaybackPage.url page)
              then navigateToPageForPlayback (PlaybackPage.url page) p
              else whenPageReady w (AfterReady false) p
          end
      end
  end.

Definition playNextAction (w : World.t) (p : Player.t) : Player.t :=
  match Player.currentPlaybackPage p with
  | None => moveToNextPage w p
  | Some page =>
      match PlaybackPage.actions page with
      | None => moveToNextPage w p
      | Some actions =>
          match nth_error actions (Player.playbackActionIndex p) with
          | None => moveToNextPage w p
          | Some action =>
              let nextAction := nth_error actions (S (Player.playbackActionIndex p)) in
              let p := executeActionWithVisualization w action p in
              let p := set_playbackActionIndex (S (Player.playbackActionIndex p)) p in
              match nextAction with
              | Some next =>
                  let delay :=
                    calculateOptimalDelay (Settings.speed (Player.settings p)) action next in
                  let '(p, id) := setTimeout NextAction delay p in
                  set_playbackTimeoutId (Some id) p
              | None =>
                  let '(p, id) := setTimeout NextPage 800 p in
                  set_playbackTimeoutId (Some id) p
              end
          end
      end
  end.

Definition startPlayback (w : World.t) (p : Player.t) : Player.t :=
  match Player.playbackSession p with
  | None => p
  | Some session =>
      let p := set_isPlaybackPaused false (set_playbackOverlay false p) in
      let start (p : Player.t) :=
        let p := set_detectionSuccesses 0 (set_detectionAttempts 0 p) in
        whenPageReady w (AfterReady true) p in
      match PlaybackSession.pages session, PlaybackSession.actions session with
      | Some (first :: _), _ =>
          let p := set_playbackPageIndex (Some O) p in
          let p := set_playbackActionIndex 0 p in
          let p := set_currentPlaybackPage (Some first) p in
          if negb (World.href w =? PlaybackPage.url first)
          then navigateToPageForPlayback (PlaybackPage.url first) p
          else start p
      | _, Some actions =>
          let p := set_currentPlaybackPage (Some (PlaybackPage.mk "" (Some actions))) p in
          start (set_playbackActionIndex 0 p)
      | _, None => p
      end
  end.

(** The [playbackSession] message. *)
Definition playbackSessionMessage (w : World.t) (session : PlaybackSession.t)
  (p : Player.t) : Player.t :=
  startPlayback w (set_playbackSession (Some session) p).

(** The [continuePlayback] message, received by the fresh player of the
    page navigated to.  A session without pages makes the handler fail;
    its [catch] answers the host with the error. *)
Definition continuePlaybackMessage (w : World.t) (session : PlaybackSession.t)
  (pageIndex actionIndex : nat) (p : Player.t) : Player.t :=
  let p := set_playbackSession (Some session) p in
  let p := set_playbackPageIndex (Some pageIndex) p in
  let p := set_playbackActionIndex actionIndex p in
  match PlaybackSession.pages session with
  | None => emit [ErrorCaught] p
  | Some pages =>
      whenPageReady w (AfterReady true)
        (set_currentPlaybackPage (nth_error pages pageIndex) p)
  end.

Definition togglePauseResume (w : World.t) (p : Player.t) : Player.t :=
  if Player.isPlaybackPaused p then playNextAction w (set_isPlaybackPaused false p)
  else
    let p := set_isPlaybackPaused true p in
    match Player.playbackTimeoutId p with
    | Some id => set_playbackTimeoutId None (clearTimeout id p)
    | None => p
    end.

(** One turn of the event loop: the task of a timer that came due. *)
Definition fire (w : World.t) (task : Task) (p : Player.t) : Player.t :=
  match task with
  | AfterReady overlay =>
      playNextAction w (if overlay then set_playbackOverlay true p else p)
  | NextAction => if Player.isPlaybackPaused p then p else playNextAction w p
  | NextPage => if Player.isPlaybackPaused p then p else moveToNextPage w p
  | Execute action => executeAction w action p
  | RetryFind action => retryFind w action p
  end.

(** The pending timer that is due first (the oldest among equals). *)
Fixpoint earliest (best : Timer) (l : list Timer) : Timer :=
  match l with
  | [] => best
  | t :: rest => earliest (if (timerDue t <? timerDue best)%Z then t else best) rest
  end.

(** The event loop: timers run in the order in which they come due,
    until none is pending or the page is navigated away. *)
Fixpoint runTimers (w : World.t) (fuel : nat) (p : Player.t) : Player.t :=
  match fuel with
  | O => p
  | S fuel' =>
      if Player.unloaded p then p
      else match Player.timers p with
           | [] => p
           | t0 :: rest =>
               let t := earliest t0 rest in
               let p := clearTimeout (timerId t) p in
               let p := set_clock (Z.max (Player.clock p) (timerDue t)) p in
               runTimers w fuel' (fire w (timerTask t) p)
           end
  end.

(** The player built by the constructor, with given settings. *)
Definition newPlayer (settings : Settings.t) : Player.t :=
  Player.mk None None 0 None false None false settings 0 0 0 0 false [] 0 [] 0.

(** The player has nothing left to do. *)
Definition quiescent (p : Player.t) : bool :=
  match Player.timers p with [] => true | _ => false end.

(** An effect that acts on the page, as opposed to a log line or a
    message to the host. *)
Definition actsOnPage (e : Effect) : bool :=
  match e with
  | Clicked _ | DoubleClicked _ | KeyDispatched _ _ | InputSet _ _ | ScrolledTo _
  | MouseDispatched _ _ | SubmitDispatched _ => true
  | _ => false
  end.

(** *** Replaying a session that holds one action: what stays true
    from the start of the replay to its end *)










(** An event of [findElement] other than a detection count, with no
    negative pause. *)
Definition calm (ev : Event) : bool :=
  match ev with
  | DetectionRecorded _ => false
  | Paused ms => (0 <=? ms)%Z
  | _ => true
  end.






(** ** Session files: JSON values, validation, repair, export, import *)

(** A JSON value; an object keeps its properties in insertion order.
    Numbers are the integers: the times, positions and sizes that the
    recorder writes.  [JSON.stringify] followed by [JSON.parse] gives
    back the value, so a file is represented by the value it holds. *)
#[local] Set Warnings "-register-all".
Inductive JValue : Type :=
| JNull
| JBool (b : bool)
| JNum (n : Z)
| JStr (s : string)
| JArr (items : list JValue)
| JObj (fields : list (string * JValue)).

(** Property lookup in an object's property list. *)
Fixpoint lookup (k : string) (fields : list (string * JValue)) : option JValue :=
  match fields with
  | [] => None
  | (k', v) :: rest => if k' =? k then Some v else lookup k rest
  end.

(** [o[k] = v]: an existing property is overwritten in place, a new one
    is added at the end. *)
Fixpoint setField (k : string) (v : JValue) (fields : list (string * JValue))
  : list (string * JValue) :=
  match fields with
  | [] => [(k, v)]
  | (k', v') :: rest =>
      if k' =? k then (k, v) :: rest else (k', v') :: setField k v rest
  end.

(** [delete o[k]]. *)
Definition deleteField (k : string) (fields : list (string * JValue))
  : list (string * JValue) :=
  filter (fun kv => negb (fst kv =? k)) fields.

(** [v[k]] for the property names the sources use; [None] is
    [undefined].  Only objects have such properties. *)
Definition get (v : JValue) (k : string) : option JValue :=
  match v with
  | JObj fields => lookup k fields
  | _ => None
  end.

(** JavaScript truthiness. *)
Definition truthy (o : option JValue) : bool :=
  match o with
  | None | Some JNull | Some (JBool false) => false
  | Some (JNum n) => negb (n =? 0)%Z
  | Some (JStr s) => nonEmpty s
  | Some _ => true
  end.

Definition isArray (o : option JValue) : bool :=
  match o with Some (JArr _) => true | _ => false end.

(** [typeof v === 'object']: objects, arrays and [null]. *)
Definition typeofObject (o : option JValue) : bool :=
  match o with
  | Some (JObj _) | Some (JArr _) | Some JNull => true
  | _ => false
  end.

(** [String(v)], as a template literal renders a value. *)
Fixpoint jsToString (v : JValue) : string :=
  match v with
  | JNull => "null"
  | JBool true => "true"
  | JBool false => "false"
  | JNum n => toString n
  | JStr s => s
  | JArr items =>
      join "," (map (fun item => match item with
                                 | JNull => ""
                                 | _ => jsToString item
                                 end) items)
  | JObj _ => "[object Object]"
  end.

Definition renderOpt (o : option JValue) : string :=
  match o with
  | Some v => jsToString v
  | None => "undefined"
  end.

(** [k in v]: a TypeError on anything but an object or an array. *)
Definition inOperator (k : string) (v : JValue) : completion bool :=
  match v with
  | JObj fields => Normal (match lookup k fields with Some _ => true | None => false end)
  | JArr _ => Normal false
  | _ => Thrown ("Cannot use 'in' operator to search for '" ++ k ++ "' in " ++ jsToString v)
  end.

(** *** [SessionValidator] *)

Definition requiredSessionFields : list string := ["id"; "startTime"; "pages"].
Definition requiredPageFields : list string := ["url"; "title"; "timestamp"; "actions"].
Definition requiredActionFields : list string := ["type"; "timestamp"; "target"].

Definition validActionTypes : list string :=
  ["click"; "dblclick"; "keydown"; "keyup"; "input"; "change"; "submit"; "scroll";
   "mousemove"; "resize"].

(** The two lists a validation fills. *)
Module Report.
Record t := mk {
  issues : list string;
  warnings : list string }.
End Report.

Definition addIssue (s : string) (r : Report.t) : Report.t :=
  Report.mk (Report.issues r ++ [s])%list (Report.warnings r).

Definition addWarning (s : string) (r : Report.t) : Report.t :=
  Report.mk (Report.issues r) (Report.warnings r ++ [s])%list.

(** A validation step: the report it leaves, and the error it threw,
    if any. *)
Definition Checked : Type := (Report.t * option string)%type.

(** The loop over required fields: [missing field] is the issue text. *)
Fixpoint requireFields (fields : list string) (v : JValue) (missing : string -> string)
  (r : Report.t) : Checked :=
  match fields with
  | [] => (r, None)
  | field :: rest =>
      match inOperator field v with
      | Thrown e => (r, Some e)
      | Normal true => requireFields rest v missing r
      | Normal false => requireFields rest v missing (addIssue (missing field) r)
      end
  end.

Definition isStringIn (l : list string) (o : option JValue) : bool :=
  match o with
  | Some (JStr s) => includes_list l s
  | _ => false
  end.

(** [action.timestamp && (typeof ... !== 'number' || ... < 0)]. *)
Definition badTimestamp (o : option JValue) : bool :=
  truthy o && match o with
              | Some (JNum n) => (n <? 0)%Z
              | _ => true
              end.

(** The body of the [forEach] of [validateActions]. *)
Definition validateAction (context : string) (actionIndex : nat) (action : JValue)
  (r : Report.t) : Checked :=
  let here := context ++ ", action " ++ toString (Z.of_nat actionIndex) in
  match requireFields requiredActionFields action
          (fun field => here ++ ": Missing required field: " ++ field) r with
  | (r, Some e) => (r, Some e)
  | (r, None) =>
      let r := if truthy (get action "type")
                  && negb (isStringIn validActionTypes (get action "type"))
               then addWarning (here ++ ": Unknown action type: "
                                ++ renderOpt (get action "type")) r
               else r in
      let r := if badTimestamp (get action "timestamp")
               then addIssue (here ++ ": Invalid timestamp: "
                              ++ renderOpt (get action "timestamp")) r
               else r in
      let r := if isStringIn ["click"; "dblclick"; "mousemove"] (get action "type")
                  && (negb (truthy (get action "coordinates"))
                      || negb (typeofObject (get action "coordinates")))
               then addWarning (here ++ ": Missing coordinates for "
                                ++ renderOpt (get action "type") ++ " action") r
               else r in
      (r, None)
  end.

(** [items.forEach((item, index) => ...)], stopped by a thrown error. *)
Fixpoint forEachChecked (body : nat -> JValue -> Report.t -> Checked)
  (index : nat) (items : list JValue) (r : Report.t) : Checked :=
  match items with
  | [] => (r, None)
  | item :: rest =>
      match body index item r with
      | (r, Some e) => (r, Some e)
      | (r, None) => forEachChecked body (S index) rest r
      end
  end.

Definition validateActions (actions : option JValue) (context : string) (r : Report.t)
  : Checked :=
  match actions with
  | Some (JArr items) => forEachChecked (validateAction context) 0 items r
  | _ => (addIssue (context ++ ": Actions is not an array") r, None)
  end.

(** [validUrl] is [isValidUrl]: whether [new URL(url)] succeeds. *)
Definition validatePage (validUrl : string -> bool) (pageIndex : nat) (page : JValue)
  (r : Report.t) : Checked :=
  let index := toString (Z.of_nat pageIndex) in
  match requireFields requiredPageFields page
          (fun field => "Page " ++ index ++ ": Missing required field: " ++ field) r with
  | (r, Some e) => (r, Some e)
  | (r, None) =>
      let r := if truthy (get page "url") && negb (validUrl (renderOpt (get page "url")))
               then addWarning ("Page " ++ index ++ ": Invalid URL format: "
                                ++ renderOpt (get page "url")) r
               else r in
      if truthy (get page "actions") && isArray (get page "actions")
      then validateActions (get page "actions") ("page " ++ index) r
      else (r, None)
  end.

Definition canRepairSession (issues : list string) : bool :=
  let repairableIssues :=
    filter (fun issue => includes issue "Missing required field"
                         && negb (includes issue "id")
                         && negb (includes issue "type")) issues in
  (length repairableIssues =? length issues)%nat.

(** The test of [canRepairSession], issue by issue. *)
Definition repairableIssue (issue : string) : bool :=
  includes issue "Missing required field"
  && negb (includes issue "id")
  && negb (includes issue "type").

(** The object [validateSession] returns. *)
Module Validation.
Record t := mk {
  isValid : bool;
  issues : list string;
  warnings : list string;
  canRepair : bool }.
End Validation.

(** The loop over the required session fields. *)
Fixpoint requireSessionFields (fields : list string) (session : JValue) (r : Report.t)
  : Checked :=
  match fields with
  | [] => (r, None)
  | field :: rest =>
      match inOperator field session with
      | Thrown e => (r, Some e)
      | Normal true => requireSessionFields rest session r
      | Normal false =>
          requireSessionFields rest session
            (if (field =? "pages") && truthy (get session "actions")
             then addWarning "Legacy session format detected (actions instead of pages)" r
             else addIssue ("Missing required session field: " ++ field) r)
      end
  end.

Definition yearMs : Z := 365 * 24 * 60 * 60 * 1000.

(** The body of the [try] of [validateSession]; [now] is [Date.now()].
    The age test is modelled for a numeric [startTime], which is what
    the recorder writes; for any other value the subtraction is taken to
    give [NaN], so that no warning is added. *)
Definition validateSessionBody (validUrl : string -> bool) (now : Z) (session : JValue)
  (r : Report.t) : Checked :=
  match requireSessionFields requiredSessionFields session r with
  | (r, Some e) => (r, Some e)
  | (r, None) =>
      let walked :=
        match get session "pages" with
        | Some (JArr pages) => forEachChecked (validatePage validUrl) 0 pages r
        | _ =>
            if truthy (get session "actions") && isArray (get session "actions")
            then validateActions (get session "actions") "session" r
            else (addIssue "Session has no pages or actions" r, None)
        end in
      match walked with
      | (r, Some e) => (r, Some e)
      | (r, None) =>
          match get session "startTime" with
          | Some (JNum startTime) =>
              if negb (startTime =? 0)%Z && (yearMs <? now - startTime)%Z
              then (addWarning "Session is more than a year old" r, None)
              else (r, None)
          | _ => (r, None)
          end
      end
  end.

Definition validateSession (validUrl : string -> bool) (now : Z) (session : JValue)
  : Validation.t :=
  if negb (truthy (Some session)) || negb (typeofObject (Some session))
  then Validation.mk false ["Invalid session: not an object"] [] false
  else
    let r := match validateSessionBody validUrl now session (Report.mk [] []) with
             | (r, Some e) => addIssue ("Validation error: " ++ e) r
             | (r, None) => r
             end in
    Validation.mk (match Report.issues r with [] => true | _ => false end)
      (Report.issues r) (Report.warnings r) (canRepairSession (Report.issues r)).

(** *** [repairSession] *)

(** [o[k] = v] on a value: a property of an array is not part of its
    JSON form, and is lost when the value is stored. *)
Definition assign (k : string) (v : JValue) (o : JValue) : JValue :=
  match o with
  | JObj fields => JObj (setField k v fields)
  | _ => o
  end.

(** Values on which reading a property throws. *)
Definition isNullish (v : JValue) : bool :=
  match v with JNull => true | _ => false end.

(** Values on which writing a property throws (in the strict mode of a
    class body): everything but objects and arrays. *)
Definition isPrimitive (v : JValue) : bool :=
  match v with
  | JObj _ | JArr _ => false
  | _ => true
  end.

(** The predicate of [page.actions.filter(...)]; [None] stands for the
    TypeError of reading a property of [null]. *)
Definition keepAction (action : JValue) : option bool :=
  if isNullish action then None
  else Some (truthy (get action "type")
             && match get action "timestamp" with Some _ => true | None => false end
             && match get action "target" with Some _ => true | None => false end).

Fixpoint filterActions (actions : list JValue) : option (list JValue) :=
  match actions with
  | [] => Some []
  | action :: rest =>
      match keepAction action, filterActions rest with
      | Some true, Some kept => Some (action :: kept)
      | Some false, Some kept => Some kept
      | _, _ => None
      end
  end.

(** The body of the [forEach] over the pages: the page as the body
    leaves it, the repairs noted, and whether it threw a TypeError. *)
Definition repairPage (startTime : option JValue) (pageIndex : nat) (page : JValue)
  : JValue * list string * bool :=
  if isPrimitive page then (page, [], true)
  else
    let index := toString (Z.of_nat pageIndex) in
    let orUndefined (o : option JValue) := match o with Some v => v | None => JNull end in
    let step (k : string) (v : JValue) (note : string) (acc : JValue * list string) :=
      if truthy (get (fst acc) k) then acc
      else (assign k v (fst acc), (snd acc ++ [note])%list) in
    let acc := (page, []) in
    let acc := step "url" (JStr "about:blank")
                 ("Generated missing URL for page " ++ index) acc in
    let acc := step "title" (JStr ("Page " ++ ordinal pageIndex))
                 ("Generated missing title for page " ++ index) acc in
    let acc := step "timestamp" (orUndefined startTime)
                 ("Generated missing timestamp for page " ++ index) acc in
    match fst acc with
    | JObj _ =>
        let acc := step "actions" (JArr [])
                     ("Generated missing actions array for page " ++ index) acc in
        match get (fst acc) "actions" with
        | Some (JArr actions) =>
            match filterActions actions with
            | None => (fst acc, snd acc, true)
            | Some kept =>
                let removed := (length actions - length kept)%nat in
                (assign "actions" (JArr kept) (fst acc),
                 if (length kept <? length actions)%nat
                 then (snd acc ++ [("Removed " ++ toString (Z.of_nat removed)
                                    ++ " invalid actions from page " ++ index)%string])%list
                 else snd acc,
                 false)
            end
        | _ => (fst acc, snd acc, true)
        end
    | _ =>
        (fst acc,
         (snd acc ++ [("Generated missing actions array for page " ++ index)%string])%list,
         false)
    end.

(** The loop over the pages; a TypeError stops it, and what was repaired
    before it stays repaired. *)
Fixpoint repairPages (startTime : option JValue) (pageIndex : nat) (pages : list JValue)
  : list JValue * list string * bool :=
  match pages with
  | [] => ([], [], false)
  | page :: rest =>
      match repairPage startTime pageIndex page with
      | (page', notes, true) => (page' :: rest, notes, true)
      | (page', notes, false) =>
          let '(rest', notes', threw) := repairPages startTime (S pageIndex) rest in
          (page' :: rest', (notes ++ notes')%list, threw)
      end
  end.

(** [href] and [title] are [window.location.href] and [document.title]
    of the popup, [now] is [Date.now()].  The session is the deep clone
    that the method works on.  A caught TypeError is noted by its name,
    not by the engine's message. *)
Definition repairSession (now : Z) (href title : string) (session : JValue)
  : JValue * list string :=
  match session with
  | JObj fields =>
      let orElse (o : option JValue) (d : JValue) := if truthy o then
                                                        match o with Some v => v | None => d end
                                                      else d in
      let '(fields, repairs) :=
        if truthy (lookup "id" fields) then (fields, [])
        else (setField "id" (JStr (toString now)) fields, ["Generated missing session ID"]) in
      let '(fields, repairs) :=
        if truthy (lookup "startTime" fields) then (fields, repairs)
        else (setField "startTime" (JNum now) fields,
              (repairs ++ ["Generated missing startTime"])%list) in
      let '(fields, repairs) :=
        if negb (truthy (lookup "pages" fields)) && truthy (lookup "actions" fields) then
          let page :=
            JObj ([("url", orElse (lookup "url" fields) (JStr href));
                   ("title", orElse (lookup "title" fields) (JStr title))]
                  ++ match lookup "startTime" fields with
                     | Some t => [("timestamp", t)]
                     | None => []
                     end
                  ++ match lookup "actions" fields with
                     | Some acts => [("actions", acts)]
                     | None => []
                     end)%list in
          (deleteField "title"
             (deleteField "url"
                (deleteField "actions" (setField "pages" (JArr [page]) fields))),
           (repairs ++ ["Converted legacy session format"])%list)
        else (fields, repairs) in
      match lookup "pages" fields with
      | Some (JArr pages) =>
          let '(pages', notes, threw) := repairPages (lookup "startTime" fields) 0 pages in
          (JObj (setField "pages" (JArr pages') fields),
           (repairs ++ notes ++ if threw then ["Repair error: TypeError"] else [])%list)
      | _ => (JObj fields, repairs)
      end
  | JArr _ =>
      (session, ["Generated missing session ID"; "Generated missing startTime"])
  | _ => (session, ["Repair error: TypeError"])
  end.

(** *** [exportSession] and [importSession] *)

(** The own enumerable properties that [{...v}] copies. *)
Definition spread (v : JValue) : list (string * JValue) :=
  match v with
  | JObj fields => fields
  | JArr items =>
      combine (map (fun i => toString (Z.of_nat i)) (seq 0 (length items))) items
  | JStr s =>
      combine (map (fun i => toString (Z.of_nat i)) (seq 0 (String.length s)))
        (map (fun c => JStr (String c EmptyString)) (list_ascii_of_string s))
  | _ => []
  end.

(** The value written to the export file; [None] when no session is
    selected.  [exportedAt] is the time of the export in ISO form. *)
Definition exportSession (selectedSession : option JValue) (exportedAt : string)
  (settings : JValue) : option JValue :=
  if negb (truthy selectedSession) then None
  else
    match selectedSession with
    | None => None
    | Some session =>
        Some (JObj (setField "settings" settings
                      (setField "version" (JStr "1.0.0")
                         (setField "exportedAt" (JStr exportedAt) (spread session)))))
    end.

(** How an import ends: the new content of the stored [sessions] object
    with the status line, or an error report with nothing stored. *)
Inductive ImportResult : Type :=
| Imported (sessions : list (string * JValue)) (statusMessage : string)
| Rejected (message : string).

(** [file] is the parsed content of the chosen file ([None] when it is
    not JSON, an error noted by its name); [now] and [importedAt] are the
    time of the import, as a number and in ISO form, the clock being read
    as [now] throughout; [sessions] is the stored [sessions] object. *)
Definition importSession (validUrl : string -> bool) (now : Z) (importedAt : string)
  (href title : string) (file : option JValue) (sessions : list (string * JValue))
  : ImportResult :=
  match file with
  | None => Rejected "Failed to import session: SyntaxError"
  | Some sessionData =>
      let validation := validateSession validUrl now sessionData in
      let store (finalSessionData : JValue) (statusMessage : string) :=
        let id := toString now in
        let finalSessionData :=
          assign "importedAt" (JStr importedAt) (assign "id" (JStr id) finalSessionData) in
        Imported (setField id finalSessionData sessions) statusMessage in
      if negb (Validation.isValid validation) then
        if Validation.canRepair validation then
          let '(repairedSession, repairs) := repairSession now href title sessionData in
          store repairedSession
            ("Session repaired and imported ("
             ++ toString (Z.of_nat (length repairs)) ++ " fixes applied)")
        else
          Rejected ("Failed to import session: Invalid session: "
                    ++ join ", " (Validation.issues validation))
      else
        match Validation.warnings validation with
        | [] => store sessionData "Session imported successfully"
        | warnings =>
            store sessionData
              ("Session imported with warnings ("
               ++ toString (Z.of_nat (length warnings)) ++ " warnings)")
        end
  end.

(** ** Fuzzy text matching: [levenshteinDistance] and [fuzzyMatch] *)

(** The characters of a string, a JavaScript string being indexed by
    code unit. *)
Definition chars (s : string) : list ascii := list_ascii_of_string s.

(** The inner loop of [levenshteinDistance] for one row [j] of the
    matrix, from column [i] on: [str1] is what is left of the first
    string, [c] is [str2[j - 1]], [diag] is [matrix[j - 1][i - 1]],
    [above] holds [matrix[j - 1][i]] onwards and [left] is
    [matrix[j][i - 1]]. *)
Fixpoint fillRow (str1 : list ascii) (c : ascii) (diag : nat) (above : list nat)
  (left : nat) : list nat :=
  match str1, above with
  | ch :: str1', up :: above' =>
      let cost := if Ascii.eqb ch c then 0%nat else 1%nat in
      let cell := Nat.min (Nat.min (left + 1) (up + 1)) (diag + cost) in
      cell :: fillRow str1' c up above' cell
  | _, _ => []
  end.

(** Row [j] of the matrix from row [j - 1]: [matrix[j][0] = j], then the
    inner loop. *)
Definition nextRow (str1 : list ascii) (c : ascii) (j : nat) (above : list nat) : list nat :=
  match above with
  | diag :: rest => j :: fillRow str1 c diag rest j
  | [] => [j]
  end.

(** The outer loop: [str2] is what is left of the second string, [above]
    is row [j] of the matrix. *)
Fixpoint fillMatrix (str1 str2 : list ascii) (j : nat) (above : list nat) : list nat :=
  match str2 with
  | [] => above
  | c :: rest => fillMatrix str1 rest (S j) (nextRow str1 c (S j) above)
  end.

(** [matrix[0][i] = i], the two loops, and the cell
    [matrix[str2.length][str1.length]]. *)
Definition levenshteinDistance (str1 str2 : string) : nat :=
  let firstRow := seq 0 (S (String.length str1)) in
  last (fillMatrix (chars str1) (chars str2) 0 firstRow) 0%nat.

(** [threshold] is an exact rational; the quotient of the two lengths is
    compared with it exactly. *)
Definition fuzzyMatch (text1 text2 : string) (threshold : Q) : bool :=
  let longer := if (String.length text2 <? String.length text1)%nat then text1 else text2 in
  let shorter := if (String.length text2 <? String.length text1)%nat then text2 else text1 in
  if (String.length longer =? 0)%nat then true
  else
    let editDistance := levenshteinDistance longer shorter in
    Qle_bool threshold
      (inject_Z (Z.of_nat (String.length longer) - Z.of_nat editDistance)
       / inject_Z (Z.of_nat (String.length longer))).

(** The edit distance by its recurrence, on the strings read from their
    ends: the reference against which the matrix is checked. *)
Fixpoint editDistance (s t : list ascii) : nat :=
  match s with
  | [] => length t
  | a :: s' =>
      (fix inner (t : list ascii) : nat :=
         match t with
         | [] => length s
         | b :: t' =>
             Nat.min (Nat.min (editDistance s' t + 1) (inner t' + 1))
               (editDistance s' t' + if Ascii.eqb a b then 0 else 1)
         end) t
  end.

(** The cells of a matrix row right of a column, by the recurrence:
    [p] is the part of the first string left of the column, reversed,
    [q] the part right of it, [t] the part of the second string above
    the row, reversed. *)
Fixpoint cellsFrom (p q t : list ascii) : list nat :=
  match q with
  | [] => []
  | ch :: q' => editDistance (ch :: p) t :: cellsFrom (ch :: p) q' t
  end.

(** ** Error log: [errorHandler.logError] and [getRecentErrors] *)

(** An entry of the log; [message] is [error.message || error], [url]
    is kept by the handler of the page only. *)
Module ErrorEntry.
Record t := mk {
  timestamp : Z;
  message : string;
  context : string;
  stack : option string;
  url : option string }.
End ErrorEntry.

(** [logError], as far as the log goes: the entry is put in front
    ([unshift]) and the log is cut to [maxErrors] entries.  [maxErrors]
    is 100 in the page and 50 in the popup. *)
Definition logError (maxErrors : nat) (errorEntry : ErrorEntry.t)
  (errors : list ErrorEntry.t) : list ErrorEntry.t :=
  let errors := errorEntry :: errors in
  if (maxErrors <? length errors)%nat then firstn maxErrors errors else errors.

Definition getRecentErrors (errors : list ErrorEntry.t) : list ErrorEntry.t :=
  firstn 10 errors.

(** The log after the errors of [entries] were logged one after the
    other, the first of the list first. *)
Definition logAll (maxErrors : nat) (entries : list ErrorEntry.t)
  (errors : list ErrorEntry.t) : list ErrorEntry.t :=
  fold_left (fun errors errorEntry => logError maxErrors errorEntry errors) entries errors.

(** An element of the document: its chain of parents leads, through
    elements, to the document element. *)
Fixpoint inDocument (n : node) : bool :=
  match n with
  | Elem d up =>
      Element.isDocumentElement d
      || match up with
         | InElement parent _ _ => inDocument parent
         | _ => false
         end
  end.

(** [kept] holds some of the elements of [l], in the order of [l]. *)
Inductive subsequence {A : Type} : list A -> list A -> Prop :=
| subsequence_nil : subsequence [] []
| subsequence_keep (a : A) (kept l : list A) :
    subsequence kept l -> subsequence (a :: kept) (a :: l)
| subsequence_drop (a : A) (kept l : list A) :
    subsequence kept l -> subsequence kept (a :: l).

(** The action types for which [isDuplicateAction] has a case. *)
Definition deduplicatedTypes : list string :=
  ["scroll"; "mousemove"; "input"; "keydown"; "keyup"].

(** An input that starts a recording. *)
Definition startsRecording (i : Input) : bool :=
  match i with
  | StartRecording | ContinueRecording _ => true
  | _ => false
  end.

(** What decides whether a recorder reacts to an input: the recording
    flag, the attached handlers and the two pending timers. *)
Definition wiring (r : Recorder.t) : bool * bool * option (Z * Point.t) * option Z :=
  (Recorder.isRecording r, Recorder.listening r, Recorder.scrollTimeout r,
   Recorder.actionDebounceTimeout r).

(** The page object that [startPageRecording] creates. *)
Definition freshPage (env : Env.t) : Page.t :=
  Page.mk (Env.href env) (Env.title env) (Env.now env) None [].

(** The body of [repairSession]'s page loop, cut in two for the proofs.
    One repair, [if (!page.k) { page.k = v; repairs.push(note) }]: the
    page and the notes before and after. *)
Definition ensureProperty (k : string) (v : JValue) (note : string)
  (acc : JValue * list string) : JValue * list string :=
  if truthy (get (fst acc) k) then acc
  else (assign k v (fst acc), (snd acc ++ [note])%list).

(** The end of the body, from the test of [page.actions] on. *)
Definition finishPage (index : string) (acc : JValue * list string)
  : JValue * list string * bool :=
  match fst acc with
  | JObj _ =>
      let acc := ensureProperty "actions" (JArr [])
                   ("Generated missing actions array for page " ++ index) acc in
      match get (fst acc) "actions" with
      | Some (JArr actions) =>
          match filterActions actions with
          | None => (fst acc, snd acc, true)
          | Some kept =>
              let removed := (length actions - length kept)%nat in
              (assign "actions" (JArr kept) (fst acc),
               if (length kept <? length actions)%nat
               then (snd acc ++ [("Removed " ++ toString (Z.of_nat removed)
                                  ++ " invalid actions from page " ++ index)%string])%list
               else snd acc,
               false)
          end
      | _ => (fst acc, snd acc, true)
      end
  | _ =>
      (fst acc,
       (snd acc ++ [("Generated missing actions array for page " ++ index)%string])%list,
       false)
  end.

(** *** The JSON form of a recorded session

    What [JSON.stringify] makes of the objects that the recorder builds,
    property by property in the order of the object literals of
    [recordAction], [recordScrollAction], [startPageRecording] and
    [startRecording]; [endTime] is added to a page later and comes
    last. *)

Definition encodeString (o : option string) : JValue :=
  match o with
  | Some s => JStr s
  | None => JNull
  end.

Definition encodePoint (p : Point.t) : JValue :=
  JObj [("x", JNum (Point.x p)); ("y", JNum (Point.y p))].

Definition encodeOptional (k : string) (o : option Z) : list (string * JValue) :=
  match o with
  | Some z => [(k, JNum z)]
  | None => []
  end.

Definition encodeCoordinates (c : Coordinates.t) : JValue :=
  JObj ([("x", JNum (Coordinates.x c)); ("y", JNum (Coordinates.y c));
         ("pageX", JNum (Coordinates.pageX c)); ("pageY", JNum (Coordinates.pageY c))]
        ++ encodeOptional "elementX" (Coordinates.elementX c)
        ++ encodeOptional "elementY" (Coordinates.elementY c)
        ++ encodeOptional "elementWidth" (Coordinates.elementWidth c)
        ++ encodeOptional "elementHeight" (Coordinates.elementHeight c))%list.

Definition encodeAction (a : Action.t) : JValue :=
  JObj ([("type", JStr (Action.type a));
         ("timestamp", JNum (Action.timestamp a));
         ("target", encodeString (Action.target a));
         ("coordinates", encodeCoordinates (Action.coordinates a));
         ("key", encodeString (Action.key a));
         ("value", encodeString (Action.value a));
         ("scrollPosition", encodePoint (Action.scrollPosition a))]
        ++ match Action.scrollStart a with
           | Some start => [("scrollStart", encodePoint start)]
           | None => []
           end
        ++ [("viewport", JObj [("width", JNum (Viewport.width (Action.viewport a)));
                               ("height", JNum (Viewport.height (Action.viewport a)))])])%list.

Definition encodePage (p : Page.t) : JValue :=
  JObj ([("url", JStr (Page.url p)); ("title", JStr (Page.title p));
         ("timestamp", JNum (Page.timestamp p));
         ("actions", JArr (map encodeAction (Page.actions p)))]
        ++ encodeOptional "endTime" (Page.endTime p))%list.

Definition encodeSession (s : SessionValue.t) : JValue :=
  JObj [("id", JStr (SessionValue.id s)); ("startTime", JNum (SessionValue.startTime s));
        ("pages", JArr (map encodePage (SessionValue.pages s)))].

(** No action of the session has a negative timestamp. *)
Definition timestampsFrom0 (s : SessionValue.t) : bool :=
  forallb (fun p => forallb (fun a => (0 <=? Action.timestamp a)%Z) (Page.actions p))
    (SessionValue.pages s).

(** ** Selector resolver, replay side: the data-text strategy *)

(** The document as the first strategy of [findElement] sees it:
    [querySelectorAll], which lists elements in document order or throws
    a SyntaxError, and the [textContent] of each element. *)
Module TextDom.
Record t := mk {
  querySelectorAll : string -> completion (list nat);
  textContent : nat -> option string }.
End TextDom.

(** What is left of [s] after the prefix [p], if [s] starts with [p]. *)
Fixpoint afterPrefix (p s : string) : option string :=
  match p with
  | EmptyString => Some s
  | String a p' =>
      match s with
      | EmptyString => None
      | String b s' => if Ascii.eqb a b then afterPrefix p' s' else None
      end
  end.

(** The longest run of characters other than the double quote at the
    start of [s], and what follows it: the group of the pattern below,
    which cannot give a character back. *)
Fixpoint untilQuote (s : string) : string * string :=
  match s with
  | EmptyString => (EmptyString, EmptyString)
  | String c rest =>
      if Ascii.eqb c (ascii_of_nat 34) then (EmptyString, s)
      else let '(group, after) := untilQuote rest in (String c group, after)
  end.

(** The pattern of the source tried at the start of [s]: an opening
    bracket, data-text=, a double quote, the group (one or more
    characters other than the double quote), a double quote and a
    closing bracket. *)
Definition dataTextAt (s : string) : option string :=
  match afterPrefix ("[data-text=" ++ doubleQuote) s with
  | Some rest =>
      let '(group, after) := untilQuote rest in
      if nonEmpty group
      then match afterPrefix (doubleQuote ++ "]") after with
           | Some _ => Some group
           | None => None
           end
      else None
  | None => None
  end.

(** [selector.match] with that pattern: the group of the leftmost
    match, [None] when there is no match. *)
Fixpoint matchDataText (s : string) : option string :=
  match dataTextAt s with
  | Some group => Some group
  | None =>
      match s with
      | EmptyString => None
      | String _ rest => matchDataText rest
      end
  end.

(** [el.textContent?.trim().includes(text)] as a condition. *)
Definition textIncludes (doc : TextDom.t) (text : string) (el : nat) : bool :=
  match TextDom.textContent doc el with
  | Some content => includes (trim content) text
  | None => false
  end.

(** The first closure pushed on [strategies]: a selector that carries a
    [data-text] is resolved to the first element of its tag whose text
    includes the recorded text. *)
Definition dataTextStrategy (doc : TextDom.t) (selector : string) : probe :=
  if includes selector "[data-text=" then
    match matchDataText selector with
    | Some text =>
        let tagName := hd EmptyString (split "[" selector) in
        match TextDom.querySelectorAll doc tagName with
        | Thrown e => Fault e
        | Normal elements =>
            match find (textIncludes doc text) elements with
            | Some el => Hit el
            | None => Miss
            end
        end
    | None => Miss
    end
  else Miss.

(** *** Replaying any session: the work that is left, and what stays
    true from the start of the replay to its end *)
























(** The detection counters of [p'] continue those of [p]: neither went
    down, and the successes rose by no more than the attempts. *)
Definition tally (p p' : Player.t) : Prop :=
  (Player.detectionAttempts p <= Player.detectionAttempts p')%nat
  /\ (Player.detectionSuccesses p <= Player.detectionSuccesses p')%nat
  /\ (Player.detectionSuccesses p' + Player.detectionAttempts p
      <= Player.detectionAttempts p' + Player.detectionSuccesses p)%nat.
(** ** Ending a recording: the background script and the popup *)

(** [globalRecordingState] of the background script. *)
Module GlobalRecordingState.
Record t := mk {
  isRecording : bool;
  currentSession : option SessionValue.t;
  recordingTabId : option nat }.
End GlobalRecordingState.

(** A tab id that passes [if (tabId)]: present and not 0. *)
Definition truthyTab (tabId : option nat) : bool :=
  match tabId with
  | Some (S _) => true
  | _ => false
  end.

(** The [startGlobalRecording] message, received at time [now]; the
    second component is the [success] of the response. *)
Definition startGlobalRecording (tabId : option nat) (now : Z)
  (g : GlobalRecordingState.t) : GlobalRecordingState.t * bool :=
  if negb (truthyTab tabId) then (g, false)
  else
    (GlobalRecordingState.mk true (Some (SessionValue.mk (toString now) now [])) tabId,
     true).

(** The [updateSession] message. *)
Definition updateSession (session : option SessionValue.t) (g : GlobalRecordingState.t)
  : GlobalRecordingState.t :=
  match GlobalRecordingState.currentSession g with
  | Some _ =>
      GlobalRecordingState.mk (GlobalRecordingState.isRecording g) session
        (GlobalRecordingState.recordingTabId g)
  | None => g
  end.

(** The [stopGlobalRecording] message.  [reply] is the [session] of the
    content script's response to [stopRecording]: [None] when the tab
    cannot be reached, when the response carries no session, or when it
    carries [null].  The second component is the session of the
    response to the popup. *)
Definition stopGlobalRecording (reply : option SessionValue.t)
  (g : GlobalRecordingState.t) : GlobalRecordingState.t * option SessionValue.t :=
  let finalSession :=
    if truthyTab (GlobalRecordingState.recordingTabId g) then
      match reply with
      | Some session => Some session
      | None => GlobalRecordingState.currentSession g
      end
    else GlobalRecordingState.currentSession g in
  (GlobalRecordingState.mk false None None, finalSession).

(** The [reduce] of the popup over the pages of a session. *)
Definition totalActions (session : SessionValue.t) : nat :=
  fold_left (fun total page => (total + length (Page.actions page))%nat)
    (SessionValue.pages session) O.

(** [saveSession] of the popup, as its second declaration defines it:
    the session is stored under a new id, the time of the call;
    [localeNow] is that time as [toLocaleString] renders it, [sessions]
    the stored [sessions] object. *)
Definition saveSession (now : Z) (localeNow : string) (session : SessionValue.t)
  (sessions : list (string * JValue)) : list (string * JValue) :=
  let sessionId := toString now in
  setField sessionId
    (assign "name" (JStr ("Session " ++ localeNow))
       (assign "id" (JStr sessionId) (encodeSession session)))
    sessions.

(** [stopRecording] of the popup, from the response of the background
    script on: the new content of the store and the status line. *)
Definition popupStopRecording (now : Z) (localeNow : string)
  (session : option SessionValue.t) (sessions : list (string * JValue))
  : list (string * JValue) * string :=
  match session with
  | None => (sessions, "Recording stopped (no session data)")
  | Some s =>
      match SessionValue.pages s with
      | [] => (sessions, "Recording stopped (no session data)")
      | pages =>
          if (0 <? totalActions s)%nat then
            (saveSession now localeNow s sessions,
             "Recording completed! Captured " ++ toString (Z.of_nat (totalActions s))
             ++ " actions across " ++ toString (Z.of_nat (length pages)) ++ " page(s)")
          else (sessions, "Recording stopped (no actions recorded)")
      end
  end.

(** ** Sample values used by the examples *)

Definition mkAction (ty : string) (ts : Z) (tgt : option string) : Action.t :=
  Action.mk ty ts tgt
    (Coordinates.mk 0 0 0 0 None None None None) None None
    (Point.mk 0 0) None (Viewport.mk 1280 720).

(** A document in which no selector is unique. *)
Definition plainDom : Dom.t := Dom.mk (fun _ => 2%nat) (fun s => s).

(** The page at wall-clock time [now], scrolled to [(sx, sy)]. *)
Definition envAt (now sx sy : Z) : Env.t :=
  Env.mk now sx sy 1280 720 "https://example.test/" "Example" true true false plainDom.

Definition sampleButton : node :=
  Elem (Element.mk "BUTTON" "" [] (Some "") (Some "btn") (Some "Save") None false false)
    (InElement
       (Elem (Element.mk "BODY" "" [] None (Some "") (Some "Save") None true false) Detached)
       ["BUTTON"; "BUTTON"] 1).

Definition clickOn (el : node) : RawEvent.t :=
  RawEvent.mk (TElement el) 100 200 100 200 None (90, 190, 40, 20).

(** A recorder that started recording at time 0. *)
Definition recording0 : Recorder.t := startRecording (envAt 0 0 0) newRecorder.

Definition keyPress (k : string) : RawEvent.t :=
  RawEvent.mk TDocument 0 0 0 0 (Some k) (0, 0, 0, 0).

(** The recorder after a keydown of "a" at 10ms was recorded. *)
Definition typed0 : Recorder.t :=
  run [(envAt 10 0 0, DomEvent "keydown" (keyPress "a"));
       (envAt 60 0 0, DebounceTimeout)] recording0.


(** A scroll burst ending at 120ms, then a click at 300ms, then the two
    timers in the order in which they come due. *)
Definition scrollThenClick : list (Env.t * Input) :=
  [(envAt 100 0 50, ScrollEvent);
   (envAt 120 0 300, ScrollEvent);
   (envAt 300 0 300, DomEvent "click" (clickOn sampleButton));
   (envAt 320 0 300, ScrollTimeout);
   (envAt 350 0 300, DebounceTimeout)].

Definition defaultSettings : Settings.t :=
  Settings.mk 1 true true "flexible" false 3.

Definition strictSettings : Settings.t :=
  Settings.mk 1 true true "strict" false 3.

(** A document in which nothing matches. *)
Definition emptyPage : oracle := fun _ _ _ _ => Miss.

(** A loaded page in which no selector resolves and the element with
    handle 7 lies under every point. *)
Definition coveredWorld : World.t :=
  World.mk emptyPage "https://example.test/" 0 0 16 (fun _ => Point.mk 0 0) 1280 720
    (fun _ _ _ => Some 7%nat) (fun _ => "BUTTON") (fun _ => true) (fun _ => [])
    (fun _ => None).

(** A recorded click at (100, 200) on an element that is gone. *)
Definition goneClick : Action.t :=
  Action.mk "click" 0 (Some "#gone")
    (Coordinates.mk 100 200 100 200 (Some 10) (Some 10) (Some 40) (Some 20)) None None
    (Point.mk 0 0) None (Viewport.mk 1280 720).


Definition sampleClick : JValue :=
  JObj [("type", JStr "click"); ("timestamp", JNum 0); ("target", JStr "#save");
        ("coordinates", JObj [("x", JNum 100); ("y", JNum 200);
                              ("pageX", JNum 100); ("pageY", JNum 200)]);
        ("key", JNull); ("value", JNull);
        ("scrollPosition", JObj [("x", JNum 0); ("y", JNum 0)]);
        ("viewport", JObj [("width", JNum 1280); ("height", JNum 720)])].

Definition samplePage : JValue :=
  JObj [("url", JStr "https://example.test/"); ("title", JStr "Example");
        ("timestamp", JNum 1700000000000); ("actions", JArr [sampleClick])].

(** A stored session, as [saveSession] leaves it. *)
Definition sampleSession : JValue :=
  JObj [("id", JStr "1700000000000"); ("startTime", JNum 1700000000000);
        ("pages", JArr [samplePage]); ("name", JStr "Session 000000")].

Definition sampleSettingsValue : JValue :=
  JObj [("playback", JObj [("speed", JNum 1)]);
        ("advanced", JObj [("elementDetection", JStr "flexible"); ("maxRetries", JNum 3)])].

(** A session file without [startTime]. *)
Definition noStartTime : JValue :=
  JObj [("id", JStr "1700000000000"); ("pages", JArr [samplePage])].

(** A session file whose page has no [title]. *)
Definition noTitle : JValue :=
  JObj [("id", JStr "1700000000000"); ("startTime", JNum 1700000000000);
        ("pages", JArr [JObj [("url", JStr "https://example.test/");
                              ("timestamp", JNum 1700000000000);
                              ("actions", JArr [sampleClick])]])].

Definition anyUrl : string -> bool := fun _ => true.


Definition saveButton : node :=
  Elem (Element.mk "BUTTON" "save" [("data-testid", "save-button")] (Some "")
          (Some "btn primary") (Some "Save") None false false)
       (InElement
          (Elem (Element.mk "FORM" "" [] None (Some "editor") None None false false) Detached)
          ["INPUT"; "BUTTON"] 1).

(** A button of a document: [html > body > button]. *)
Definition documentButton : node :=
  Elem (Element.mk "BUTTON" "" [] (Some "") (Some "") (Some "Send") None false false)
       (InElement
          (Elem (Element.mk "BODY" "" [] None (Some "") None None true false)
                (InElement
                   (Elem (Element.mk "HTML" "" [] None (Some "") None None false true)
                         (InNonElement ["HTML"] 0))
                   ["HEAD"; "BODY"] 1))
          ["BUTTON"] 0).

(** A [span] inside a [div] that is the child of a shadow root. *)
Definition shadowSpan : node :=
  Elem (Element.mk "SPAN" "" [] None (Some "") (Some "Send") None false false)
       (InElement
          (Elem (Element.mk "DIV" "" [] None (Some "") None None false false)
                (InNonElement ["DIV"] 0))
          ["SPAN"] 0).

(** A document in which only the data-text strategy finds an element. *)
Definition textOnlyPage : oracle :=
  fun _ _ q _ => match q with Via DataText => Hit 3 | _ => Miss end.

(** A page with two buttons, "Cancel" and "Send", and one that reads
    "Save changes"; its text is looked at by the data-text strategy
    only. *)
Definition buttonsDoc : TextDom.t :=
  TextDom.mk
    (fun selector => if selector =? "button" then Normal [4; 7; 9]%nat else Normal [])
    (fun el => if (el =? 4)%nat then Some "Cancel"
               else if (el =? 7)%nat then Some " Send "
               else if (el =? 9)%nat then Some "Save changes"
               else None).

Definition buttonsPage : oracle :=
  fun selector _ q _ =>
    match q with
    | Via DataText => dataTextStrategy buttonsDoc selector
    | _ => Miss
    end.

(** What [CSS.escape] does to the spaces of a text: a backslash before
    each. *)
Fixpoint escapeSpaces (s : string) : string :=
  match s with
  | EmptyString => EmptyString
  | String c rest =>
      if Ascii.eqb c " "%char then String (ascii_of_nat 92) (String c (escapeSpaces rest))
      else String c (escapeSpaces rest)
  end.

Definition saveChangesButton : Element.data :=
  Element.mk "BUTTON" "" [] (Some "") (Some "") (Some "Save changes") None false false.

(** A page that is still loading when the replay starts (interactive at
    450 ms, complete at 900 ms), in which [#save] is element 3. *)
Definition loadingWorld : World.t :=
  World.mk (fun selector _ q _ =>
              match q with
              | Direct => if selector =? "#save" then Hit 3 else Miss
              | Via _ => Miss
              end)
    "https://example.test/" 450 900 16 (fun _ => Point.mk 0 0) 1280 720
    (fun _ _ _ => None) (fun _ => "BUTTON") (fun _ => true) (fun _ => [])
    (fun _ => None).

(** A key press, then a click on [#save], on the page of [loadingWorld];
    then a click on a second page, at another address. *)
Definition keyThenSave : PlaybackPage.t :=
  PlaybackPage.mk "https://example.test/"
    (Some [mkAction "keydown" 0 None; mkAction "click" 700 (Some "#save")]).

Definition twoPageSession : PlaybackSession.t :=
  PlaybackSession.mk
    (Some [keyThenSave;
           PlaybackPage.mk "https://example.test/next"
             (Some [mkAction "click" 0 (Some "#next")])])
    None.

(** The replay of the first page of [twoPageSession], paused by the user
    200 ms after the start, while the page is still loading, and 1 s after
    the start, when the key press has been played. *)
Definition pausedWhileLoading : Player.t :=
  togglePauseResume loadingWorld
    (set_clock 200
       (playbackSessionMessage loadingWorld (PlaybackSession.mk (Some [keyThenSave]) None)
          (newPlayer defaultSettings))).

Definition pausedAfterKey : Player.t :=
  togglePauseResume loadingWorld
    (set_clock 1000
       (runTimers loadingWorld 1
          (playbackSessionMessage loadingWorld (PlaybackSession.mk (Some [keyThenSave]) None)
             (newPlayer defaultSettings)))).

(* END OF SAMPLES *)

(* ================================================================== *)
(** * Part II: properties                                              *)
(* ================================================================== *)

(** ** Delay computation *)

Ltac case_str x s := destruct (String.eqb_spec x s) as [-> | ?].

Ltac case_types x :=
  case_str x "keyup"; [| case_str x "keydown"; [| case_str x "input";
  [| case_str x "scroll"; [| case_str x "click"; [| case_str x "dblclick";
  [| case_str x "change"; [| case_str x "submit" ]]]]]]].

Ltac split_ifs :=
  repeat match goal with
         | |- context [if ?b then _ else _] => destruct b
         end.

Lemma code_clamp_eq (speed : Q) (c n : Action.t) :
  calculateOptimalDelay speed c n = nextDelay_rounded speed c n.
Proof.
  unfold calculateOptimalDelay, nextDelay_rounded, clampedDelay, typeCap,
    isSubmitLike, isButtonClick, isClickEvent, isKeyEvent.
  destruct c as [ct cts ctg ? ? ? ? ? ?], n as [nt nts ? ? ? ? ? ? ?].
  cbn [Action.type Action.timestamp Action.target].
  generalize (opt_includes ctg "button") (opt_includes ctg "submit").
  intros tb tsb.
  set (base := Z.max (nts - cts) 50).
  do 4 f_equal.
  destruct (String.eqb_spec ct nt) as [-> | Hne].
  - case_types nt; cbn; split_ifs; lia.
  - case_types nt; case_types ct; try congruence; cbn; split_ifs; lia.
Qed.

(** At speed 1 nothing is rounded away: the result is the clamped delay,
    at least 25. *)
Lemma delay_at_unit_speed (c n : Action.t) :
  calculateOptimalDelay 1 c n = Z.max (clampedDelay c n) 25.
Proof.
  rewrite code_clamp_eq. unfold nextDelay_rounded, Math_round.
  change (Qeq_bool 1 0) with false. cbv iota.
  f_equal.
  assert (H : (inject_Z (clampedDelay c n) * (1 / 1) + (1 # 2)
               == inject_Z (clampedDelay c n) + (1 # 2))%Q) by field.
  rewrite H. unfold Qfloor, Qplus, inject_Z; cbn [Qnum Qden].
  rewrite Z.mul_1_l, Pos.mul_1_l.
  change (Z.pos 2) with 2.
  symmetry. apply Z.div_unique with (r := 1); lia.
Qed.



(** ** Selector derivation *)

Lemma find_app_first {A} (p : A -> bool) (l1 l2 : list A) :
  find p (l1 ++ l2)%list
  = match find p l1 with Some a => Some a | None => find p l2 end.
Proof.
  induction l1 as [| a l1 IH]; cbn [find app]; [reflexivity |].
  destruct (p a); [reflexivity | exact IH].
Qed.

Lemma idStrategy_find (dom : Dom.t) (d : Element.data) :
  idStrategy dom d = find (isUnique dom) (idCandidate dom d).
Proof.
  unfold idStrategy, idCandidate.
  destruct (nonBlank (Element.id d)); cbn [find]; [| reflexivity].
  destruct (isUnique dom _); reflexivity.
Qed.

Lemma dataAttrLoop_find (dom : Dom.t) (d : Element.data) (attrs : list string) :
  dataAttrLoop dom d attrs
  = find (isUnique dom)
      (flat_map (fun attr =>
                   match getAttribute d attr with
                   | Some value =>
                       if nonBlank value
                       then ["[" ++ attr ++ "=" ++ doubleQuote ++ Dom.cssEscape dom value ++ doubleQuote ++ "]"]
                       else []
                   | None => []
                   end) attrs).
Proof.
  induction attrs as [| attr rest IH]; cbn [dataAttrLoop flat_map find]; [reflexivity |].
  destruct (getAttribute d attr) as [value |]; cbn [app]; [| exact IH].
  destruct (nonBlank value); cbn [app find]; [| exact IH].
  destruct (isUnique dom _); [reflexivity | exact IH].
Qed.

Lemma nameStrategy_find (dom : Dom.t) (d : Element.data) :
  nameStrategy dom d = find (isUnique dom) (nameCandidate dom d).
Proof.
  unfold nameStrategy, nameCandidate.
  destruct (Element.name d) as [name |]; [| reflexivity].
  destruct (nonBlank name); cbn [find]; [| reflexivity].
  destruct (isUnique dom _); reflexivity.
Qed.

Lemma classStrategy_find (dom : Dom.t) (d : Element.data) :
  classStrategy dom d = find (isUnique dom) (classCandidate dom d).
Proof.
  unfold classStrategy, classCandidate.
  destruct (Element.className d) as [cn |]; [| reflexivity].
  destruct (String.eqb_spec cn "") as [-> | Hne].
  - reflexivity.
  - unfold nonEmpty. destruct (String.eqb_spec cn ""); [contradiction |].
    cbn [negb].
    destruct (firstn 3 (stableClasses cn)); cbn [find]; [reflexivity |].
    destruct (isUnique dom _); reflexivity.
Qed.

Lemma derivation_refines (dom : Dom.t) (el : node) :
  getElementSelector dom (Some (TElement el)) = deriveSelector dom el.
Proof.
  unfold getElementSelector, deriveSelector, attributeCandidates, dataCandidates.
  rewrite !find_app_first.
  rewrite <- idStrategy_find, <- dataAttrLoop_find, <- nameStrategy_find,
    <- classStrategy_find.
  destruct (idStrategy dom (dataOf el)); [reflexivity |].
  destruct (dataAttrLoop dom (dataOf el) dataAttrs); [reflexivity |].
  destruct (nameStrategy dom (dataOf el)); [reflexivity |].
  destruct (classStrategy dom (dataOf el)); [reflexivity |].
  destruct (getElementPath dom el) as [path | e]; [| reflexivity].
  unfold pathCandidate, fallbackSelector.
  destruct (nonEmpty path); cbn [andb find].
  - destruct (isUnique dom path); [reflexivity |].
    destruct (textStrategy _ _); reflexivity.
  - destruct (textStrategy _ _); reflexivity.
Qed.





(** In a document where nothing is unique the fallback is returned, here
    the data-text selector of a button, although it matches two elements;
    where only the class selector is unique, the id and the test
    attribute are passed over for it. *)
Example getElementSelector_fallbacks :
  getElementSelector plainDom (Some (TElement saveButton))
  = Normal (Some ("button[data-text=" ++ doubleQuote ++ "Save" ++ doubleQuote ++ "]"))
  /\ Dom.matchCount plainDom ("button[data-text=" ++ doubleQuote ++ "Save" ++ doubleQuote ++ "]")
     = 2%nat
  /\ getElementSelector
       (Dom.mk (fun s => if s =? "button.btn.primary" then 1%nat else 0%nat) (fun s => s))
       (Some (TElement saveButton))
     = Normal (Some "button.btn.primary").
Proof. repeat split; reflexivity. Qed.

(** Projections of a player after field updates. *)
Ltac psimpl :=
  cbn [Player.playbackSession Player.playbackPageIndex Player.playbackActionIndex
    Player.currentPlaybackPage Player.isPlaybackPaused Player.playbackTimeoutId
    Player.playbackOverlay Player.settings Player.detectionAttempts
    Player.detectionSuccesses Player.errorsLogged Player.clock Player.unloaded
    Player.timers Player.nextTimerId Player.effects Player.uncaught set_playbackSession
    set_playbackPageIndex set_playbackActionIndex set_currentPlaybackPage
    set_isPlaybackPaused set_playbackTimeoutId set_playbackOverlay set_settings
    set_detectionAttempts set_detectionSuccesses set_errorsLogged set_clock set_unloaded
    set_timers set_nextTimerId set_effects set_uncaught].

(** ** Recorder: the page heap *)

(** Projections of a recorder after field updates. *)
Ltac rsimpl :=
  cbn [Recorder.heap Recorder.isRecording Recorder.currentSession Recorder.currentPageData
    Recorder.lastRecordedAction Recorder.actionDebounceTimeout Recorder.recordingQueue
    Recorder.isProcessingQueue Recorder.scrollStartPosition Recorder.extensionContextValid
    Recorder.scrollTimeout Recorder.isScrolling Recorder.listening Recorder.indicator
    Recorder.showIndicatorSetting Recorder.metrics Recorder.sent with_heap
    with_isRecording with_currentSession with_currentPageData with_lastRecordedAction
    with_actionDebounceTimeout with_recordingQueue with_isProcessingQueue
    with_scrollStartPosition with_extensionContextValid with_scrollTimeout
    with_isScrolling with_listening with_indicator with_showIndicatorSetting with_metrics
    with_sent updatePage hideRecordingIndicator endRecordingMetrics recordActionMetric].

(** Projections of a recorder after field updates. *)
Ltac rsimpl_in H :=
  cbn [Recorder.heap Recorder.isRecording Recorder.currentSession Recorder.currentPageData
    Recorder.lastRecordedAction Recorder.actionDebounceTimeout Recorder.recordingQueue
    Recorder.isProcessingQueue Recorder.scrollStartPosition Recorder.extensionContextValid
    Recorder.scrollTimeout Recorder.isScrolling Recorder.listening Recorder.indicator
    Recorder.showIndicatorSetting Recorder.metrics Recorder.sent with_heap
    with_isRecording with_currentSession with_currentPageData with_lastRecordedAction
    with_actionDebounceTimeout with_recordingQueue with_isProcessingQueue
    with_scrollStartPosition with_extensionContextValid with_scrollTimeout
    with_isScrolling with_listening with_indicator with_showIndicatorSetting with_metrics
    with_sent updatePage hideRecordingIndicator endRecordingMetrics recordActionMetric] in H.


Lemma nth_error_modify_nth {A} (f : A -> A) (i : nat) (l : list A) (a : A) :
  nth_error l i = Some a -> nth_error (modify_nth f i l) i = Some (f a).
Proof.
  revert i. induction l as [| b l IH]; intros [| i] H; cbn in *; try discriminate.
  - now injection H as ->.
  - now apply IH.
Qed.



(** ** Recorder: starting while recording *)

(** C10: while the recorder is recording, [startRecording] and
    [continueRecording] return at once and leave every field of the
    recorder as it was: no new session, no new page. *)
Theorem startRecording_idempotent (env : Env.t) (session : option SessionValue.t)
  (r : Recorder.t) :
  Recorder.isRecording r = true ->
  startRecording env r = r /\ continueRecording env session r = r.
Proof.
  intros H. unfold startRecording, continueRecording. rewrite H. split; reflexivity.
Qed.

Lemma startRecording_idempotent_witness :
  Recorder.isRecording recording0 = true
  /\ startRecording (envAt 5000 0 40) recording0 = recording0
  /\ continueRecording (envAt 5000 0 40) None recording0 = recording0.
Proof.
  split; [reflexivity |].
  apply (startRecording_idempotent (envAt 5000 0 40) None recording0). reflexivity.
Defined.

(** ** Recorder: deduplication *)





Lemma heap_updateBackgroundSession (env : Env.t) (r : Recorder.t) :
  Recorder.heap (updateBackgroundSession env r) = Recorder.heap r.
Proof.
  unfold updateBackgroundSession.
  destruct (_ || _ || _)%bool; [reflexivity |].
  destruct (Env.sendMessageThrows env); reflexivity.
Qed.

Lemma actionsAt_updateBackgroundSession (env : Env.t) (r : Recorder.t) (ref : nat) :
  actionsAt (updateBackgroundSession env r) ref = actionsAt r ref.
Proof.
  unfold actionsAt, deref. now rewrite heap_updateBackgroundSession.
Qed.



Example typed0_actions :
  map Action.type (currentActions typed0) = ["keydown"]
  /\ map Action.timestamp (currentActions typed0) = [10].
Proof. split; reflexivity. Qed.


(** ** Recorder: scroll coalescing *)

Lemma run_app (t1 t2 : list (Env.t * Input)) (r : Recorder.t) :
  run (t1 ++ t2)%list r = run t2 (run t1 r).
Proof.
  revert r. induction t1 as [| [env i] t1 IH]; intros r; cbn; [reflexivity | apply IH].
Qed.

Lemma last_cons_default {A} (l : list A) (a d d' : A) :
  last (a :: l) d = last (a :: l) d'.
Proof.
  revert a. induction l as [| b l IH]; intros a; [reflexivity |].
  change (last (b :: l) d = last (b :: l) d'). apply IH.
Qed.

Lemma burstTimer_last (e0 : Env.t) (rest : list Env.t) :
  burstTimer (Env.now e0 + 200, positionOf e0) rest
  = (Env.now (last rest e0) + 200, positionOf (last rest e0)).
Proof.
  revert e0. induction rest as [| e rest IH]; intros e0; cbn [burstTimer]; [reflexivity |].
  rewrite IH. destruct rest as [| e1 rest]; [reflexivity |].
  change (last (e :: e1 :: rest) e0) with (last (e1 :: rest) e0).
  now rewrite (last_cons_default rest e1 e e0).
Qed.

(** While a burst is under way, a scroll event only re-arms the timer. *)
Lemma burst_continues (rest : list Env.t) (t : Z * Point.t) (r : Recorder.t) (ref : nat) :
  Recorder.isRecording r = true ->
  Recorder.listening r = true ->
  Recorder.currentPageData r = Some ref ->
  Recorder.isScrolling r = true ->
  run (scrollBurst rest) (with_scrollTimeout (Some t) r)
  = with_scrollTimeout (Some (burstTimer t rest)) r.
Proof.
  intros Hrec Hlis Hcur Hscr. revert t.
  induction rest as [| e rest IH]; intros t; cbn [scrollBurst map run burstTimer];
    [reflexivity |].
  unfold step, recordScrollAction. cbn. rewrite Hrec, Hlis, Hcur, Hscr. cbn.
  apply (IH (Env.now e + 200, positionOf e)).
Qed.

(** The first scroll event of a burst notes where the burst starts. *)
Lemma burst_starts (e : Env.t) (r : Recorder.t) (ref : nat) :
  Recorder.isRecording r = true ->
  Recorder.listening r = true ->
  Recorder.currentPageData r = Some ref ->
  Recorder.isScrolling r = false ->
  step e ScrollEvent r
  = with_scrollTimeout (Some (Env.now e + 200, positionOf e))
      (with_scrollStartPosition (Some (positionOf e)) (with_isScrolling true r)).
Proof.
  intros Hrec Hlis Hcur Hscr.
  unfold step, recordScrollAction. rewrite Hrec, Hlis, Hcur, Hscr. reflexivity.
Qed.

(** A burst followed by its timer: the page gains the coalesced action
    when the burst moved the window by more than 5px on some axis, and
    nothing otherwise.  The action carries the position read at the last
    scroll event, which the timer's closure captured. *)
Lemma burst_fires (r : Recorder.t) (ref : nat) (page : Page.t)
  (first : Env.t) (rest : list Env.t) (fire : Env.t) :
  Recorder.isRecording r = true ->
  Recorder.listening r = true ->
  Recorder.currentPageData r = Some ref ->
  deref r ref = Some page ->
  Recorder.isScrolling r = false ->
  Env.now (last rest first) + 200 <= Env.now fire ->
  let r' := run (scrollBurst (first :: rest) ++ [(fire, ScrollTimeout)]) r in
  actionsAt r' ref
  = (Page.actions page
     ++ if meaningfulScroll (positionOf first) (positionOf (last rest first))
        then [scrollActionAt fire page (positionOf (last rest first))
                (Some (positionOf first))]
        else [])%list
  /\ Recorder.isScrolling r' = false.
Proof.
  intros Hrec Hlis Hcur Hpage Hscr Hdue r'. subst r'.
  rewrite run_app. cbn [scrollBurst map run].
  rewrite (burst_starts first r ref Hrec Hlis Hcur Hscr).
  rewrite (burst_continues rest _ _ ref); try assumption; try reflexivity.
  rewrite burstTimer_last.
  cbn [run step]. cbn [Recorder.scrollTimeout with_scrollTimeout].
  apply Z.leb_le in Hdue. rewrite Hdue.
  unfold scrollCallback. cbn [Recorder.isScrolling with_scrollTimeout
    with_scrollStartPosition with_isScrolling Recorder.currentPageData
    Recorder.scrollStartPosition].
  rewrite Hcur.
  match goal with
  | |- context [deref ?x ref] => change (deref x ref) with (deref r ref)
  end.
  rewrite Hpage.
  destruct (meaningfulScroll (positionOf first) (positionOf (last rest first)));
    cbn [settle]; split; try reflexivity.
  - unfold actionsAt, deref.
    cbn [Recorder.heap with_scrollStartPosition with_isScrolling].
    rewrite heap_updateBackgroundSession.
    cbn [Recorder.heap with_lastRecordedAction updatePage with_heap with_scrollTimeout
      with_scrollStartPosition with_isScrolling].
    unfold deref in Hpage.
    now rewrite (nth_error_modify_nth _ _ _ _ Hpage).
  - unfold actionsAt.
    match goal with
    | |- context [deref ?x ref] => change (deref x ref) with (deref r ref)
    end.
    rewrite Hpage. now rewrite app_nil_r.
Qed.

Lemma meaningfulScroll_iff (from to : Point.t) :
  meaningfulScroll from to = true
  <-> 5 < Z.abs (Point.x to - Point.x from) \/ 5 < Z.abs (Point.y to - Point.y from).
Proof.
  unfold meaningfulScroll. now rewrite orb_true_iff, !Z.ltb_lt.
Qed.

(** C2, as stated, fails: a burst that moves the window by exactly 5px
    (from (0,0) to (0,5)) has a net displacement of at least 5px, and yet
    no scroll action is recorded. *)
Lemma scroll_of_5px_not_recorded :
  5 <= Z.abs (Point.y (positionOf (envAt 350 0 5)) - Point.y (positionOf (envAt 100 0 0)))
  /\ currentActions
       (run (scrollBurst [envAt 100 0 0; envAt 150 0 5] ++ [(envAt 350 0 5, ScrollTimeout)])
          recording0) = [].
Proof.
  split; [cbn; lia | reflexivity].
Qed.

(** C2 (amended): a scroll burst on the page being recorded, followed by
    the timer armed 200ms after its last event, records no scroll action
    when the net displacement from the first event's position is at most
    5px on both axes, and exactly one when it is more than 5px on either
    axis; that action's [scrollStart] is the first scroll event's
    position and its [scrollPosition] is the position read at the last
    scroll event, which is the window's position when the timer fires if
    the window has not moved in between. *)
Theorem scroll_burst_coalesced (r : Recorder.t) (ref : nat) (page : Page.t)
  (first : Env.t) (rest : list Env.t) (fire : Env.t) :
  Recorder.isRecording r = true ->
  Recorder.listening r = true ->
  Recorder.currentPageData r = Some ref ->
  deref r ref = Some page ->
  Recorder.isScrolling r = false ->
  Env.now (last rest first) + 200 <= Env.now fire ->
  positionOf fire = positionOf (last rest first) ->
  let r' := run (scrollBurst (first :: rest) ++ [(fire, ScrollTimeout)]) r in
  let dx := Z.abs (Point.x (positionOf fire) - Point.x (positionOf first)) in
  let dy := Z.abs (Point.y (positionOf fire) - Point.y (positionOf first)) in
  (dx <= 5 /\ dy <= 5 -> actionsAt r' ref = Page.actions page)
  /\ (5 < dx \/ 5 < dy ->
      exists a, actionsAt r' ref = (Page.actions page ++ [a])%list
                /\ Action.type a = "scroll"
                /\ Action.scrollStart a = Some (positionOf first)
                /\ Action.scrollPosition a = positionOf fire)
  /\ Recorder.isScrolling r' = false.
Proof.
  intros Hrec Hlis Hcur Hpage Hscr Hdue Hpos r' dx dy.
  destruct (burst_fires r ref page first rest fire Hrec Hlis Hcur Hpage Hscr Hdue)
    as [Hact Hdone].
  fold r' in Hact, Hdone. rewrite <- Hpos in Hact.
  pose proof (meaningfulScroll_iff (positionOf first) (positionOf fire)) as Hm.
  fold dx dy in Hm.
  split; [| split; [| exact Hdone]].
  - intros [Hx Hy]. rewrite Hact.
    destruct (meaningfulScroll (positionOf first) (positionOf fire)).
    + assert (5 < dx \/ 5 < dy) by now apply Hm. lia.
    + apply app_nil_r.
  - intros Hfar. apply Hm in Hfar. rewrite Hfar in Hact.
    eexists. split; [exact Hact |]. cbn. repeat split; reflexivity.
Qed.

Lemma scroll_burst_coalesced_witness :
  exists a,
    actionsAt
      (run (scrollBurst [envAt 100 0 0; envAt 150 0 300]
            ++ [(envAt 350 0 300, ScrollTimeout)]) recording0) 0
    = [a]
    /\ Action.type a = "scroll"
    /\ Action.scrollStart a = Some (Point.mk 0 0)
    /\ Action.scrollPosition a = Point.mk 0 300.
Proof.
  assert (Hpage : deref recording0 0
                  = Some (Page.mk "https://example.test/" "Example" 0 None []))
    by reflexivity.
  destruct (scroll_burst_coalesced recording0 0 _ (envAt 100 0 0) [envAt 150 0 300]
              (envAt 350 0 300) eq_refl eq_refl eq_refl Hpage eq_refl)
    as [_ [Hone _]].
  - cbn. lia.
  - reflexivity.
  - apply Hone. right. cbn. lia.
Defined.

(** The same burst cut short by [stopRecording]: the coalesced action is
    appended by [removeEventListeners], with the window's position at the
    time of the stop and the same threshold. *)
Lemma burst_flushed_on_stop (r : Recorder.t) (ref : nat) (page : Page.t)
  (first : Env.t) (rest : list Env.t) (stop : Env.t) :
  Recorder.isRecording r = true ->
  Recorder.listening r = true ->
  Recorder.currentPageData r = Some ref ->
  deref r ref = Some page ->
  Recorder.isScrolling r = false ->
  Recorder.recordingQueue r = [] ->
  let r' := run (scrollBurst (first :: rest) ++ [(stop, StopRecording)]) r in
  actionsAt r' ref
  = (Page.actions page
     ++ if meaningfulScroll (positionOf first) (positionOf stop)
        then [scrollActionAt stop page (positionOf stop) (Some (positionOf first))]
        else [])%list
  /\ Recorder.isRecording r' = false.
Proof.
  intros Hrec Hlis Hcur Hpage Hscr Hq r'. subst r'.
  rewrite run_app. cbn [scrollBurst map run].
  rewrite (burst_starts first r ref Hrec Hlis Hcur Hscr).
  rewrite (burst_continues rest _ _ ref); try assumption; try reflexivity.
  cbn [run step]. unfold stopRecording. rsimpl.
  rewrite Hrec. cbn [negb]. unfold removeEventListeners. rsimpl.
  fold (positionOf stop). rewrite Hcur, Hq.
  unfold deref in Hpage |- *. rsimpl. rewrite Hpage.
  destruct (meaningfulScroll (positionOf first) (positionOf stop)).
  - rsimpl. try rewrite Hq. rewrite Hcur. cbn [fst settle]. split; [| reflexivity].
    unfold actionsAt, deref. rsimpl.
    rewrite (nth_error_modify_nth (setEndTime (Env.now stop)) ref _
               (pushAction (scrollActionAt stop page (positionOf stop)
                              (Some (positionOf first))) page)).
    + reflexivity.
    + now apply nth_error_modify_nth.
  - rsimpl. try rewrite Hq. rewrite Hcur. cbn [fst settle]. split; [| reflexivity].
    unfold actionsAt, deref. rsimpl.
    rewrite (nth_error_modify_nth (setEndTime (Env.now stop)) ref _ page Hpage).
    cbn. now rewrite app_nil_r.
Qed.

(** ** Recorder: order of the recorded actions *)

(** C5 fails on the code: the user scrolls (last scroll event at 120ms)
    and clicks at 300ms.  The click waits in the queue for its debounce
    timer (due at 350ms); the scroll timer (due at 320ms) appends the
    coalesced scroll action first, stamped 320.  The page ends with the
    scroll action before the click although its timestamp is larger. *)
Theorem scroll_action_overtakes_queue :
  map Action.type (currentActions (run scrollThenClick recording0)) = ["scroll"; "click"]
  /\ map Action.timestamp (currentActions (run scrollThenClick recording0)) = [320; 300].
Proof.
  split; reflexivity.
Qed.

(** ** Selector resolution: the retry pipeline *)

Lemma firstHit_app (look : Query -> nat -> probe) (l1 l2 : list (Query * nat)) :
  firstHit look (l1 ++ l2)%list
  = match firstHit look l1 with Some e => Some e | None => firstHit look l2 end.
Proof.
  induction l1 as [| [q n] l1 IH]; cbn [firstHit app]; [reflexivity |].
  destruct (look q n); [reflexivity | exact IH | exact IH].
Qed.


Lemma tryStrategies_firstHit (look : Query -> nat -> probe) (retry : nat)
  (strategies : list Strategy) :
  fst (tryStrategies look retry strategies)
  = firstHit look (map (fun s => (Via s, retry)) strategies).
Proof.
  induction strategies as [| s rest IH]; cbn [tryStrategies map firstHit]; [reflexivity |].
  destruct (look (Via s) retry); [reflexivity | |];
    destruct (tryStrategies look retry rest); exact IH.
Qed.

Lemma tryStrategies_no_pause (look : Query -> nat -> probe) (retry : nat)
  (strategies : list Strategy) :
  filter isPause (snd (tryStrategies look retry strategies)) = [].
Proof.
  induction strategies as [| s rest IH]; cbn [tryStrategies]; [reflexivity |].
  destruct (look (Via s) retry); [reflexivity | |];
    destruct (tryStrategies look retry rest); exact IH.
Qed.

Lemma retryLoop_firstHit (look : Query -> nat -> probe) (strategies : list Strategy)
  (maxRetries : Z) (rounds retry : nat) :
  fst (retryLoop look strategies maxRetries rounds retry)
  = firstHit look
      (flat_map (fun n => map (fun s => (Via s, n)) strategies) (seq retry rounds)).
Proof.
  revert retry. induction rounds as [| rounds IH]; intros retry;
    cbn [retryLoop seq flat_map firstHit]; [reflexivity |].
  rewrite firstHit_app, <- tryStrategies_firstHit.
  destruct (tryStrategies look retry strategies) as [[e |] events]; cbn [fst];
    [reflexivity |].
  specialize (IH (S retry)).
  destruct (retryLoop look strategies maxRetries rounds (S retry)). exact IH.
Qed.

Lemma retryLoop_pauses (look : Query -> nat -> probe) (strategies : list Strategy)
  (maxRetries : Z) (rounds retry : nat) :
  maxRetries = Z.of_nat (retry + rounds) ->
  fst (retryLoop look strategies maxRetries rounds retry) = None ->
  length (filter isPause (snd (retryLoop look strategies maxRetries rounds retry)))
  = pred rounds.
Proof.
  revert retry. induction rounds as [| rounds IH]; intros retry Hm;
    cbn [retryLoop]; [reflexivity |].
  pose proof (tryStrategies_no_pause look retry strategies) as Hnp.
  destruct (tryStrategies look retry strategies) as [[e |] events]; cbn [fst snd] in *;
    [discriminate |].
  specialize (IH (S retry)).
  destruct (retryLoop look strategies maxRetries rounds (S retry)) as [found later].
  cbn [fst snd] in *. intros Hnone.
  rewrite !filter_app, Hnp, !length_app. cbn [length app].
  rewrite IH by (try lia; assumption).
  destruct rounds as [| rounds'].
  - destruct (Z.ltb_spec (Z.of_nat retry) (maxRetries - 1)); [lia | reflexivity].
  - destruct (Z.ltb_spec (Z.of_nat retry) (maxRetries - 1)); [reflexivity | lia].
Qed.

Lemma tryStrategies_no_direct (look : Query -> nat -> probe) (retry : nat)
  (strategies : list Strategy) :
  filter isDirect (snd (tryStrategies look retry strategies)) = [].
Proof.
  induction strategies as [| s rest IH]; cbn [tryStrategies]; [reflexivity |].
  destruct (look (Via s) retry); [reflexivity | |];
    destruct (tryStrategies look retry rest); exact IH.
Qed.

Lemma retryLoop_no_direct (look : Query -> nat -> probe) (strategies : list Strategy)
  (maxRetries : Z) (rounds retry : nat) :
  filter isDirect (snd (retryLoop look strategies maxRetries rounds retry)) = [].
Proof.
  revert retry. induction rounds as [| rounds IH]; intros retry; cbn [retryLoop];
    [reflexivity |].
  pose proof (tryStrategies_no_direct look retry strategies) as Hnd.
  destruct (tryStrategies look retry strategies) as [[e |] events]; cbn [snd] in *;
    [exact Hnd |].
  specialize (IH (S retry)).
  destruct (retryLoop look strategies maxRetries rounds (S retry)) as [found later].
  cbn [snd] in *. rewrite !filter_app, Hnd, IH.
  destruct (Z.of_nat retry <? maxRetries - 1)%Z; reflexivity.
Qed.

Lemma retryLoop_pauses_from_zero (look : Query -> nat -> probe)
  (strategies : list Strategy) (maxRetries : Z) :
  fst (retryLoop look strategies maxRetries (Z.to_nat maxRetries) 0) = None ->
  length (filter isPause (snd (retryLoop look strategies maxRetries (Z.to_nat maxRetries) 0)))
  = pred (Z.to_nat maxRetries).
Proof.
  destruct (Z.le_gt_cases 0 maxRetries) as [Hpos | Hneg].
  - apply retryLoop_pauses. cbn [Nat.add]. now rewrite Z2Nat.id.
  - intros _. replace (Z.to_nat maxRetries) with O by lia. reflexivity.
Qed.

(** The body of [findElement] once the three guards on the selector have
    been passed. *)
Lemma findElement_resolution (settings : Settings.t) (page : oracle) (selector : string)
  (action : option Action.t) :
  selector <> "" -> selector <> "document" -> selector <> "window" ->
  let look := page selector action in
  let rounds := Z.to_nat (Settings.maxRetries settings) in
  let l := attempts (strategiesFor (Settings.elementDetection settings)) rounds in
  let result := findElement settings page (Some selector) action in
  fst result = option_map FElement (firstHit look l)
  /\ (fst result = None -> length (filter isPause (snd result)) = pred rounds)
  /\ length (filter isDirect (snd result)) = 1%nat.
Proof.
  intros H1 H2 H3 look rounds l result. subst result l rounds. unfold findElement.
  apply String.eqb_neq in H1, H2, H3. rewrite H1, H2, H3.
  fold look. unfold attempts. cbn [firstHit].
  pose proof (retryLoop_firstHit look (strategiesFor (Settings.elementDetection settings))
                (Settings.maxRetries settings)
                (Z.to_nat (Settings.maxRetries settings)) 0) as Hfirst.
  pose proof (retryLoop_pauses_from_zero look
                (strategiesFor (Settings.elementDetection settings))
                (Settings.maxRetries settings)) as Hpause.
  pose proof (retryLoop_no_direct look (strategiesFor (Settings.elementDetection settings))
                (Settings.maxRetries settings)
                (Z.to_nat (Settings.maxRetries settings)) 0) as Hnd.
  destruct (retryLoop look (strategiesFor (Settings.elementDetection settings))
              (Settings.maxRetries settings)
              (Z.to_nat (Settings.maxRetries settings)) 0) as [found events].
  cbn [fst snd] in Hfirst, Hpause, Hnd. rewrite <- Hfirst.
  destruct (look Direct O) as [e | | m]; cbn [fst snd option_map].
  - repeat split; try discriminate; reflexivity.
  - destruct found as [e |]; cbn [fst snd option_map];
      rewrite ?filter_app, ?Hnd, ?length_app.
    + repeat split; try discriminate; reflexivity.
    + split; [reflexivity |]. split; [| reflexivity].
      intros _. rewrite Hpause by reflexivity. cbn. lia.
  - destruct found as [e |]; cbn [fst snd option_map];
      rewrite ?filter_app, ?Hnd, ?length_app.
    + repeat split; try discriminate; reflexivity.
    + split; [reflexivity |]. split; [| reflexivity].
      intros _. rewrite Hpause by reflexivity. cbn. lia.
Qed.




Example findElement_special_selectors (settings : Settings.t) (page : oracle) :
  findElement settings page None None = (None, [])
  /\ findElement settings page (Some "") None = (None, [])
  /\ findElement settings page (Some "document") None = (Some FDocument, [])
  /\ findElement settings page (Some "window") None = (Some FWindow, []).
Proof. repeat split. Qed.

(** ** Replay: resolution failures *)







(** ** Replay: the timer queue *)














Lemma visualize_shape (a : Action.t) (p : Player.t) :
  exists e, visualize a p = set_errorsLogged e p.
Proof.
  unfold visualize.
  destruct (negb (Settings.visualIndicators (Player.settings p)));
    [exists (Player.errorsLogged p); destruct p; reflexivity |].
  destruct (_ && _)%bool; [exists (Player.errorsLogged p); destruct p; reflexivity |].
  destruct (negb (Player.playbackOverlay p)).
  - eexists. reflexivity.
  - exists (Player.errorsLogged p). destruct p; reflexivity.
Qed.

(** ** Replay of a session whose only action has no resolvable target *)

Section SoleActionReplay.

Variables (w : World.t) (a : Action.t) (selector : string).

Hypothesis Htarget : Action.target a = Some selector.
Hypothesis Hnonempty : selector <> "".
Hypothesis Hnotdocument : selector <> "document".
Hypothesis Hnotwindow : selector <> "window".
Hypothesis Hmiss :
  forall q retry, isHit (World.page w selector (Some a) q retry) = false.















End SoleActionReplay.





(** ** Session files *)

Lemma lookup_setField_eq (k : string) (v : JValue) (fields : list (string * JValue)) :
  lookup k (setField k v fields) = Some v.
Proof.
  induction fields as [| [k' v'] rest IH]; cbn [setField lookup].
  - now rewrite String.eqb_refl.
  - destruct (String.eqb_spec k' k) as [E | N]; cbn [lookup].
    + now rewrite String.eqb_refl.
    + destruct (String.eqb_spec k' k); [contradiction | exact IH].
Qed.

Lemma lookup_setField_ne (k k' : string) (v : JValue) (fields : list (string * JValue)) :
  k <> k' -> lookup k (setField k' v fields) = lookup k fields.
Proof.
  intros Hne. induction fields as [| [k0 v0] rest IH]; cbn [setField lookup].
  - destruct (String.eqb_spec k' k); [congruence | reflexivity].
  - destruct (String.eqb_spec k0 k') as [E | N]; cbn [lookup].
    + subst k0. destruct (String.eqb_spec k' k); [congruence | reflexivity].
    + destruct (String.eqb_spec k0 k); [reflexivity | exact IH].
Qed.

(** The export wrapper leaves every property of the session but its own
    three as it was. *)
Lemma lookup_export (k : string) (exportedAt : string) (settings : JValue)
  (fields : list (string * JValue)) :
  k <> "exportedAt" -> k <> "version" -> k <> "settings" ->
  lookup k (setField "settings" settings
              (setField "version" (JStr "1.0.0")
                 (setField "exportedAt" (JStr exportedAt) fields)))
  = lookup k fields.
Proof.
  intros H1 H2 H3. now rewrite !lookup_setField_ne.
Qed.

(** Validation reads [id], [startTime], [pages] and [actions] only, so
    the export wrapper does not change its verdict. *)
Lemma validateSession_export (validUrl : string -> bool) (now : Z) (exportedAt : string)
  (settings : JValue) (fields : list (string * JValue)) :
  validateSession validUrl now
    (JObj (setField "settings" settings
             (setField "version" (JStr "1.0.0")
                (setField "exportedAt" (JStr exportedAt) fields))))
  = validateSession validUrl now (JObj fields).
Proof.
  unfold validateSession, validateSessionBody.
  cbn [truthy typeofObject negb orb requiredSessionFields requireSessionFields
    inOperator get].
  rewrite !lookup_export by discriminate. reflexivity.
Qed.

(** A file produced by [exportSession] from a session that validates is
    imported as it stands: [importSession] takes neither the repair nor
    the rejection branch, and stores the file's object with a fresh [id]
    and an [importedAt] stamp under that [id]. *)
Lemma import_of_export (validUrl : string -> bool) (now : Z)
  (exportedAt importedAt href title : string) (settings : JValue)
  (fields sessions : list (string * JValue)) :
  Validation.isValid (validateSession validUrl now (JObj fields)) = true ->
  exists exported statusMessage,
    exportSession (Some (JObj fields)) exportedAt settings = Some (JObj exported)
    /\ exported = setField "settings" settings
                    (setField "version" (JStr "1.0.0")
                       (setField "exportedAt" (JStr exportedAt) fields))
    /\ importSession validUrl now importedAt href title (Some (JObj exported)) sessions
       = Imported
           (setField (toString now)
              (JObj (setField "importedAt" (JStr importedAt)
                       (setField "id" (JStr (toString now)) exported)))
              sessions)
           statusMessage.
Proof.
  intros Hvalid.
  eexists. 
  assert (Hexport : exportSession (Some (JObj fields)) exportedAt settings
                    = Some (JObj (setField "settings" settings
                                    (setField "version" (JStr "1.0.0")
                                       (setField "exportedAt" (JStr exportedAt) fields)))))
    by reflexivity.
  unfold importSession. rewrite validateSession_export, Hvalid.
  cbn [negb assign].
  destruct (Validation.warnings (validateSession validUrl now (JObj fields)));
    eexists; (split; [exact Hexport | split; reflexivity]).
Qed.

(** A session exported at one time and imported at a later one is stored
    under a new [id]: the stored session differs from the original in a
    field of its own, not only in the export metadata. *)
Lemma reimported_session_gets_new_id :
  Validation.isValid (validateSession anyUrl 1700000005000 sampleSession) = true
  /\ exists stored,
       importSession anyUrl 1700000005000 "2023-11-14T22:13:25.000Z" "" ""
         (exportSession (Some sampleSession) "2023-11-14T22:13:21.000Z" sampleSettingsValue)
         [("1700000000000", sampleSession)]
       = Imported [("1700000000000", sampleSession); ("1700000005000", stored)]
           "Session imported successfully"
       /\ get sampleSession "id" = Some (JStr "1700000000000")
       /\ get stored "id" = Some (JStr "1700000005000")
       /\ get stored "id" <> get sampleSession "id"
       /\ get sampleSession "importedAt" = None
       /\ get stored "importedAt" = Some (JStr "2023-11-14T22:13:25.000Z").
Proof.
  split; [reflexivity |].
  eexists. split; [vm_compute; reflexivity |].
  repeat split; try reflexivity. discriminate.
Qed.

(** C3: a session object that validates, exported and imported again
    without repair, is stored under the [id] that the import generates;
    the stored object carries that [id], the [importedAt] stamp of the
    import and the three properties of the export ([exportedAt],
    [version], [settings]), and agrees with the original on every other
    property. *)
Theorem export_import_roundtrip (validUrl : string -> bool) (now : Z)
  (exportedAt importedAt href title : string) (settings : JValue)
  (fields sessions : list (string * JValue)) :
  Validation.isValid (validateSession validUrl now (JObj fields)) = true ->
  exists exported stored statusMessage,
    exportSession (Some (JObj fields)) exportedAt settings = Some exported
    /\ importSession validUrl now importedAt href title (Some exported) sessions
       = Imported (setField (toString now) stored sessions) statusMessage
    /\ get stored "id" = Some (JStr (toString now))
    /\ get stored "importedAt" = Some (JStr importedAt)
    /\ get stored "exportedAt" = Some (JStr exportedAt)
    /\ get stored "version" = Some (JStr "1.0.0")
    /\ get stored "settings" = Some settings
    /\ forall k : string,
         k <> "id" -> k <> "importedAt" ->
         k <> "exportedAt" -> k <> "version" -> k <> "settings" ->
         get stored k = get (JObj fields) k.
Proof.
  intros Hvalid.
  destruct (import_of_export validUrl now exportedAt importedAt href title settings
              fields sessions Hvalid) as (exported & msg & Hexport & -> & Himport).
  eexists; eexists; exists msg.
  split; [exact Hexport |]. split; [exact Himport |].
  unfold get.
  repeat split.
  - rewrite lookup_setField_ne by discriminate. apply lookup_setField_eq.
  - apply lookup_setField_eq.
  - rewrite !lookup_setField_ne by discriminate. apply lookup_setField_eq.
  - rewrite !lookup_setField_ne by discriminate. apply lookup_setField_eq.
  - rewrite !lookup_setField_ne by discriminate. apply lookup_setField_eq.
  - intros k H1 H2 H3 H4 H5. now rewrite !lookup_setField_ne.
Qed.

Lemma export_import_roundtrip_witness :
  Validation.isValid (validateSession anyUrl 1700000005000 sampleSession) = true
  /\ exists exported stored statusMessage,
       exportSession (Some sampleSession) "2023-11-14T22:13:21.000Z" sampleSettingsValue
       = Some exported
       /\ importSession anyUrl 1700000005000 "2023-11-14T22:13:25.000Z" "" ""
            (Some exported) []
          = Imported (setField (toString 1700000005000) stored []) statusMessage
       /\ get stored "id" = Some (JStr (toString 1700000005000))
       /\ get stored "importedAt" = Some (JStr "2023-11-14T22:13:25.000Z")
       /\ get stored "exportedAt" = Some (JStr "2023-11-14T22:13:21.000Z")
       /\ get stored "version" = Some (JStr "1.0.0")
       /\ get stored "settings" = Some sampleSettingsValue
       /\ forall k : string,
            k <> "id" -> k <> "importedAt" ->
            k <> "exportedAt" -> k <> "version" -> k <> "settings" ->
            get stored k = get sampleSession k.
Proof.
  split; [reflexivity |].
  apply (export_import_roundtrip anyUrl 1700000005000 "2023-11-14T22:13:21.000Z"
           "2023-11-14T22:13:25.000Z" "" "" sampleSettingsValue
           [("id", JStr "1700000000000"); ("startTime", JNum 1700000000000);
            ("pages", JArr [samplePage]); ("name", JStr "Session 000000")] []).
  reflexivity.
Defined.

(** ** Session files: repair or rejection *)

Lemma filter_keeps_all {A : Type} (f : A -> bool) (l : list A) :
  (length (filter f l) =? length l)%nat = forallb f l.
Proof.
  induction l as [| x rest IH]; [reflexivity |].
  cbn [filter forallb]. destruct (f x); cbn [length andb].
  - exact IH.
  - apply Nat.eqb_neq. pose proof (filter_length_le f rest). lia.
Qed.

Lemma canRepairSession_forall (issues : list string) :
  canRepairSession issues = forallb repairableIssue issues.
Proof.
  unfold canRepairSession. apply filter_keeps_all.
Qed.

Lemma canRepair_of_validateSession (validUrl : string -> bool) (now : Z) (file : JValue) :
  Validation.canRepair (validateSession validUrl now file)
  = canRepairSession (Validation.issues (validateSession validUrl now file)).
Proof.
  unfold validateSession.
  destruct (negb (truthy (Some file)) || negb (typeofObject (Some file)));
    reflexivity.
Qed.

(** What [importSession] does with a file that has validation issues:
    it repairs and stores it when every issue passes the test of
    [canRepairSession], and rejects it, storing nothing, otherwise. *)
Lemma importSession_with_issues (validUrl : string -> bool) (now : Z)
  (importedAt href title : string) (file : JValue) (sessions : list (string * JValue)) :
  Validation.isValid (validateSession validUrl now file) = false ->
  let issues := Validation.issues (validateSession validUrl now file) in
  (forallb repairableIssue issues = true ->
   importSession validUrl now importedAt href title (Some file) sessions
   = Imported
       (setField (toString now)
          (assign "importedAt" (JStr importedAt)
             (assign "id" (JStr (toString now))
                (fst (repairSession now href title file))))
          sessions)
       ("Session repaired and imported ("
        ++ toString (Z.of_nat (length (snd (repairSession now href title file))))
        ++ " fixes applied)"))
  /\ (forallb repairableIssue issues = false ->
      importSession validUrl now importedAt href title (Some file) sessions
      = Rejected ("Failed to import session: Invalid session: " ++ join ", " issues)).
Proof.
  intros Hinvalid issues. subst issues.
  unfold importSession. rewrite Hinvalid, canRepair_of_validateSession,
    canRepairSession_forall.
  cbn [negb].
  split; intros ->; [| reflexivity].
  destruct (repairSession now href title file) as [repaired repairs]. reflexivity.
Qed.

(** No issue that [validateSession] raises for a missing session field
    passes the test of [canRepairSession], whichever field it is. *)
Lemma session_field_issue_not_repairable :
  forallb (fun field => negb (repairableIssue ("Missing required session field: " ++ field)))
    requiredSessionFields = true.
Proof. reflexivity. Qed.

(** The issues raised for a missing page field pass the test. *)
Lemma page_field_issue_repairable :
  forallb (fun field => repairableIssue ("Page 0: Missing required field: " ++ field))
    requiredPageFields = true.
Proof. reflexivity. Qed.

(** The issues raised for a missing action field pass the test, but for
    the [type] field. *)
Lemma action_field_issue_repairable :
  map (fun field => (field, repairableIssue
                              ("page 0, action 0: Missing required field: " ++ field)))
    requiredActionFields
  = [("type", false); ("timestamp", true); ("target", true)].
Proof. reflexivity. Qed.

(** A file whose page lacks its [title] is repaired and stored. *)
Example page_without_title_repaired :
  Validation.issues (validateSession anyUrl 1700000005000 noTitle)
  = ["Page 0: Missing required field: title"]
  /\ exists stored,
       importSession anyUrl 1700000005000 "2023-11-14T22:13:25.000Z" "" ""
         (Some noTitle) []
       = Imported [("1700000005000", stored)]
           "Session repaired and imported (1 fixes applied)"
       /\ get stored "pages"
          = Some (JArr [JObj [("url", JStr "https://example.test/");
                              ("timestamp", JNum 1700000000000);
                              ("actions", JArr [sampleClick]);
                              ("title", JStr "Page 1")]]).
Proof.
  split; [reflexivity |]. eexists. split; [vm_compute; reflexivity | reflexivity].
Qed.

(** C9: a session file that lacks nothing but its [startTime] has one
    validation issue, a missing required field that is neither [id] nor
    [type]; [canRepairSession] refuses it, because the issue text for a
    session field reads "Missing required session field", and the import
    is rejected with nothing stored, although [repairSession] would have
    generated the field. *)
Theorem session_without_startTime_rejected :
  let validation := validateSession anyUrl 1700000005000 noStartTime in
  Validation.issues validation = ["Missing required session field: startTime"]
  /\ includes "Missing required session field: startTime" "id" = false
  /\ includes "Missing required session field: startTime" "type" = false
  /\ canRepairSession (Validation.issues validation) = false
  /\ importSession anyUrl 1700000005000 "2023-11-14T22:13:25.000Z" "" ""
       (Some noStartTime) []
     = Rejected ("Failed to import session: Invalid session: "
                 ++ "Missing required session field: startTime")
  /\ snd (repairSession 1700000005000 "" "" noStartTime) = ["Generated missing startTime"]
  /\ Validation.isValid
       (validateSession anyUrl 1700000005000
          (fst (repairSession 1700000005000 "" "" noStartTime))) = true.
Proof.
  vm_compute. repeat split; reflexivity.
Qed.

(** ** Fuzzy text matching *)

Lemma editDistance_nil_r (s : list ascii) : editDistance s [] = length s.
Proof. destruct s; reflexivity. Qed.

Lemma editDistance_cons (a b : ascii) (s t : list ascii) :
  editDistance (a :: s) (b :: t)
  = Nat.min (Nat.min (editDistance s (b :: t) + 1) (editDistance (a :: s) t + 1))
      (editDistance s t + if Ascii.eqb a b then 0 else 1).
Proof. reflexivity. Qed.

(** The inner loop computes the recurrence along a row. *)
Lemma fillRow_cells (q p t : list ascii) (c : ascii) :
  fillRow q c (editDistance p t) (cellsFrom p q t) (editDistance p (c :: t))
  = cellsFrom p q (c :: t).
Proof.
  revert p. induction q as [| ch q IH]; intros p; [reflexivity |].
  cbn [cellsFrom fillRow]. rewrite (editDistance_cons ch c p t). f_equal. apply IH.
Qed.

Lemma cellsFrom_first_row (q p : list ascii) :
  cellsFrom p q [] = seq (S (length p)) (length q).
Proof.
  revert p. induction q as [| ch q IH]; intros p; [reflexivity |].
  cbn [cellsFrom length seq]. rewrite editDistance_nil_r, IH. reflexivity.
Qed.

(** The outer loop computes it row after row. *)
Lemma fillMatrix_rows (str1 rest t : list ascii) :
  fillMatrix str1 rest (length t) (editDistance [] t :: cellsFrom [] str1 t)
  = editDistance [] (rev rest ++ t) :: cellsFrom [] str1 (rev rest ++ t).
Proof.
  revert t. induction rest as [| c rest IH]; intros t; [reflexivity |].
  cbn [fillMatrix nextRow rev].
  change (S (length t)) with (editDistance [] (c :: t)) at 2.
  rewrite fillRow_cells.
  change (S (length t)) with (length (c :: t)).
  rewrite (IH (c :: t)), <- app_assoc. reflexivity.
Qed.

Lemma last_cellsFrom (q p t : list ascii) :
  last (editDistance p t :: cellsFrom p q t) 0%nat = editDistance (rev q ++ p) t.
Proof.
  revert p. induction q as [| ch q IH]; intros p; [reflexivity |].
  cbn [cellsFrom rev].
  change (last (?x :: ?y :: ?l) 0%nat) with (last (y :: l) 0%nat).
  rewrite IH, <- app_assoc. reflexivity.
Qed.

Lemma length_chars (s : string) : length (chars s) = String.length s.
Proof.
  induction s as [| c s IH]; [reflexivity |]. cbn. now rewrite <- IH.
Qed.

(** The matrix of [levenshteinDistance] holds the edit distance. *)
Lemma levenshteinDistance_editDistance (str1 str2 : string) :
  levenshteinDistance str1 str2 = editDistance (rev (chars str1)) (rev (chars str2)).
Proof.
  unfold levenshteinDistance.
  pose proof (fillMatrix_rows (chars str1) (chars str2) []) as H.
  rewrite cellsFrom_first_row, length_chars in H. cbn [length editDistance] in H.
  cbn [seq]. rewrite H, !app_nil_r.
  pose proof (last_cellsFrom (chars str1) [] (rev (chars str2))) as L.
  rewrite app_nil_r in L. exact L.
Qed.

Lemma editDistance_sym (s t : list ascii) : editDistance s t = editDistance t s.
Proof.
  revert t. induction s as [| a s IHs]; intros t.
  - now rewrite editDistance_nil_r.
  - induction t as [| b t IHt]; [reflexivity |].
    rewrite !editDistance_cons, IHt, (IHs (b :: t)), (IHs t), (Ascii.eqb_sym a b).
    f_equal. apply Nat.min_comm.
Qed.

Lemma editDistance_zero (s t : list ascii) : editDistance s t = 0%nat <-> s = t.
Proof.
  revert t. induction s as [| a s IHs]; intros t.
  - destruct t; cbn; split; congruence.
  - induction t as [| b t IHt].
    + split; discriminate.
    + rewrite editDistance_cons. split.
      * intros H. destruct (Ascii.eqb_spec a b) as [-> | Hne].
        -- assert (E : editDistance s t = 0%nat) by lia.
           apply IHs in E. now subst.
        -- lia.
      * intros E. injection E as -> ->.
        rewrite Ascii.eqb_refl. 
        assert (E : editDistance t t = 0%nat) by now apply IHs.
        lia.
Qed.

Lemma editDistance_upper (s t : list ascii) :
  (editDistance s t <= Nat.max (length s) (length t))%nat.
Proof.
  revert t. induction s as [| a s IHs]; intros t.
  - cbn. lia.
  - induction t as [| b t IHt].
    + cbn. lia.
    + rewrite editDistance_cons. pose proof (IHs t). cbn [length].
      destruct (Ascii.eqb a b); lia.
Qed.

Lemma editDistance_lower (s t : list ascii) :
  (length s - length t <= editDistance s t)%nat
  /\ (length t - length s <= editDistance s t)%nat.
Proof.
  revert t. induction s as [| a s IHs]; intros t.
  - cbn. lia.
  - induction t as [| b t IHt].
    + cbn. lia.
    + rewrite editDistance_cons. pose proof (IHs t). pose proof (IHs (b :: t)).
      cbn [length] in *. destruct (Ascii.eqb a b); lia.
Qed.

Lemma chars_inj (s t : string) : chars s = chars t -> s = t.
Proof.
  intros H. rewrite <- (string_of_list_ascii_of_string s),
    <- (string_of_list_ascii_of_string t). unfold chars in H. now rewrite H.
Qed.

Lemma rev_inj {A : Type} (l m : list A) : rev l = rev m -> l = m.
Proof.
  intros H. rewrite <- (rev_involutive l), <- (rev_involutive m). now rewrite H.
Qed.

(** X1: The edit distance computed by [levenshteinDistance] is zero
    exactly for equal strings. *)
Theorem levenshteinDistance_zero_iff_equal (str1 str2 : string) :
  levenshteinDistance str1 str2 = 0%nat <-> str1 = str2.
Proof.
  rewrite levenshteinDistance_editDistance, editDistance_zero. split.
  - intros H. apply chars_inj, rev_inj, H.
  - now intros ->.
Qed.

(** X2: [levenshteinDistance] does not depend on the order of its two
    arguments. *)
Theorem levenshteinDistance_symmetric (str1 str2 : string) :
  levenshteinDistance str1 str2 = levenshteinDistance str2 str1.
Proof.
  rewrite !levenshteinDistance_editDistance. apply editDistance_sym.
Qed.

(** X3: The distance lies between the difference of the two lengths and
    the larger of them; against the empty string it is the length of the
    other string. *)
Theorem levenshteinDistance_bounds (str1 str2 : string) :
  (String.length str1 - String.length str2 <= levenshteinDistance str1 str2)%nat
  /\ (String.length str2 - String.length str1 <= levenshteinDistance str1 str2)%nat
  /\ (levenshteinDistance str1 str2
      <= Nat.max (String.length str1) (String.length str2))%nat
  /\ levenshteinDistance str1 "" = String.length str1
  /\ levenshteinDistance "" str2 = String.length str2.
Proof.
  rewrite !levenshteinDistance_editDistance.
  pose proof (editDistance_lower (rev (chars str1)) (rev (chars str2))) as [L1 L2].
  pose proof (editDistance_upper (rev (chars str1)) (rev (chars str2))) as U.
  rewrite !length_rev, !length_chars in *.
  repeat split; try assumption.
  - cbn. now rewrite editDistance_nil_r, length_rev, length_chars.
  - cbn. now rewrite length_rev, length_chars.
Qed.

Lemma fuzzyMatch_ratio (text1 text2 : string) (threshold : Q) :
  let longest := Nat.max (String.length text1) (String.length text2) in
  fuzzyMatch text1 text2 threshold
  = if (longest =? 0)%nat then true
    else Qle_bool threshold
           (inject_Z (Z.of_nat longest - Z.of_nat (levenshteinDistance text1 text2))
            / inject_Z (Z.of_nat longest)).
Proof.
  intros longest. subst longest. unfold fuzzyMatch.
  destruct (Nat.ltb_spec (String.length text2) (String.length text1)) as [Hlt | Hge].
  - rewrite Nat.max_l by lia. reflexivity.
  - rewrite Nat.max_r by lia.
    now rewrite (levenshteinDistance_editDistance text2 text1), editDistance_sym,
      <- levenshteinDistance_editDistance.
Qed.

(** X4: [fuzzyMatch] gives the same answer whichever of the two texts
    comes first. *)
Theorem fuzzyMatch_symmetric (text1 text2 : string) (threshold : Q) :
  fuzzyMatch text1 text2 threshold = fuzzyMatch text2 text1 threshold.
Proof.
  rewrite !fuzzyMatch_ratio, (Nat.max_comm (String.length text2)),
    (levenshteinDistance_editDistance text2 text1), editDistance_sym,
    <- levenshteinDistance_editDistance.
  reflexivity.
Qed.

Lemma ratio_test (threshold : Q) (x len : Z) :
  0 < len ->
  Qle_bool threshold (inject_Z x / inject_Z len) = true
  <-> (threshold * inject_Z len <= inject_Z x)%Q.
Proof.
  intros Hpos.
  assert (Hq : (0 < inject_Z len)%Q) by (change 0%Q with (inject_Z 0); now rewrite <- Zlt_Qlt).
  assert (Hne : ~ (inject_Z len == 0)%Q) by (intros E; rewrite E in Hq; discriminate).
  rewrite Qle_bool_iff. split.
  - intros H.
    pose proof (Qmult_le_compat_r _ _ (inject_Z len) H (Qlt_le_weak _ _ Hq)) as M.
    now rewrite (Qmult_comm (_ / _)), Qmult_div_r in M.
  - intros H. now apply Qle_shift_div_l.
Qed.

(** X5: A text matches itself at every threshold up to 1, and at
    threshold 1 nothing but the text itself matches it. *)
Theorem fuzzyMatch_exact (text1 text2 : string) (threshold : Q) :
  (threshold <= 1)%Q ->
  fuzzyMatch text1 text1 threshold = true
  /\ (fuzzyMatch text1 text2 1 = true <-> text1 = text2).
Proof.
  intros Hle.
  assert (Hself : forall s t, (t <= 1)%Q -> fuzzyMatch s s t = true).
  { intros s t Ht. rewrite fuzzyMatch_ratio, Nat.max_id.
    destruct (String.length s =? 0)%nat eqn:E; [reflexivity |].
    apply Nat.eqb_neq in E.
    rewrite levenshteinDistance_editDistance, (proj2 (editDistance_zero _ _) eq_refl).
    apply ratio_test; [lia |]. cbn [Z.of_nat]. rewrite Z.sub_0_r.
    rewrite <- (Qmult_1_l (inject_Z _)) at 2.
    apply Qmult_le_compat_r; [exact Ht |].
    change 0%Q with (inject_Z 0). rewrite <- Zle_Qle. lia. }
  split; [now apply Hself |].
  split.
  - rewrite fuzzyMatch_ratio.
    destruct (Nat.max (String.length text1) (String.length text2) =? 0)%nat eqn:E.
    + apply Nat.eqb_eq in E. intros _.
      assert (H1 : String.length text1 = 0%nat) by lia.
      assert (H2 : String.length text2 = 0%nat) by lia.
      destruct text1, text2; try discriminate. reflexivity.
    + apply Nat.eqb_neq in E. intros H. apply ratio_test in H; [| lia].
      rewrite Qmult_1_l, <- Zle_Qle in H.
      apply chars_inj, rev_inj, editDistance_zero.
      rewrite <- levenshteinDistance_editDistance. lia.
  - intros <-. apply Hself. apply Qle_refl.
Qed.

(** X6: Two texts whose lengths are too far apart never match: when the
    shorter one has fewer characters than [threshold] times the longer
    one, [fuzzyMatch] answers no. *)
Theorem fuzzyMatch_length_gap (text1 text2 : string) (threshold : Q) :
  (inject_Z (Z.of_nat (Nat.min (String.length text1) (String.length text2)))
   < threshold * inject_Z (Z.of_nat (Nat.max (String.length text1) (String.length text2))))%Q ->
  fuzzyMatch text1 text2 threshold = false.
Proof.
  intros Hgap. rewrite fuzzyMatch_ratio.
  destruct (Nat.max (String.length text1) (String.length text2) =? 0)%nat eqn:E.
  - apply Nat.eqb_eq in E. rewrite E in Hgap.
    replace (Nat.min (String.length text1) (String.length text2)) with 0%nat in Hgap by lia.
    cbn in Hgap. rewrite Qmult_0_r in Hgap. now apply Qlt_irrefl in Hgap.
  - apply Nat.eqb_neq in E.
    destruct (Qle_bool _ _) eqn:B; [| reflexivity]. exfalso.
    apply ratio_test in B; [| lia].
    pose proof (editDistance_lower (rev (chars text1)) (rev (chars text2))) as [L1 L2].
    rewrite <- levenshteinDistance_editDistance, !length_rev, !length_chars in L1, L2.
    assert (Hle : (inject_Z (Z.of_nat (Nat.max (String.length text1) (String.length text2))
                             - Z.of_nat (levenshteinDistance text1 text2))
                   <= inject_Z (Z.of_nat (Nat.min (String.length text1)
                                            (String.length text2))))%Q).
    { rewrite <- Zle_Qle. lia. }
    apply (Qlt_irrefl (threshold * inject_Z (Z.of_nat (Nat.max (String.length text1)
                                                        (String.length text2))))).
    eapply Qle_lt_trans; [exact B |]. eapply Qle_lt_trans; [exact Hle | exact Hgap].
Qed.

Lemma fuzzyMatch_exact_witness :
  (7 # 10 <= 1)%Q
  /\ fuzzyMatch "submit order" "submit order" (7 # 10) = true
  /\ (fuzzyMatch "submit order" "submit orders" 1 = true
      <-> "submit order" = "submit orders").
Proof.
  split; [discriminate |].
  apply (fuzzyMatch_exact "submit order" "submit orders" (7 # 10)). discriminate.
Defined.

Lemma fuzzyMatch_length_gap_witness :
  (inject_Z (Z.of_nat (Nat.min (String.length "ok") (String.length "cancel order")))
   < (7 # 10) * inject_Z (Z.of_nat (Nat.max (String.length "ok")
                                       (String.length "cancel order"))))%Q
  /\ fuzzyMatch "ok" "cancel order" (7 # 10) = false.
Proof.
  split; [reflexivity |].
  apply (fuzzyMatch_length_gap "ok" "cancel order" (7 # 10)). reflexivity.
Defined.

(** The matrix at work: three edits turn "kitten" into "sitting"; at the
    threshold of the resolver, 0.7, a plural still matches and an
    unrelated label does not. *)
Example fuzzyMatch_at_work :
  levenshteinDistance "kitten" "sitting" = 3%nat
  /\ fuzzyMatch "submit order" "submit orders" (7 # 10) = true
  /\ fuzzyMatch "submit order" "cancel order" (7 # 10) = false.
Proof. repeat split; reflexivity. Qed.

(** ** Delay computation: range and speed *)

Lemma clampedDelay_range (c n : Action.t) :
  50 <= clampedDelay c n <= 2000.
Proof.
  unfold clampedDelay, typeCap, isSubmitLike, isButtonClick, isClickEvent, isKeyEvent.
  destruct c as [ct cts ctg ? ? ? ? ? ?], n as [nt nts ? ? ? ? ? ? ?].
  cbn [Action.type Action.timestamp Action.target].
  generalize (opt_includes ctg "button") (opt_includes ctg "submit").
  intros tb tsb.
  set (base := Z.max (nts - cts) 50).
  assert (50 <= base) by (subst base; lia).
  split_ifs; lia.
Qed.

Lemma Math_round_le (x y : Q) : (x <= y)%Q -> Math_round x <= Math_round y.
Proof.
  intros H. unfold Math_round. apply Qfloor_resp_le.
  apply Qplus_le_compat; [exact H | apply Qle_refl].
Qed.

Lemma Math_round_integer (z : Z) : Math_round (inject_Z z) = z.
Proof.
  unfold Math_round, Qfloor, Qplus, inject_Z; cbn [Qnum Qden].
  rewrite Pos.mul_1_l. change (Z.pos 2) with 2.
  symmetry. apply Z.div_unique with (r := 1); lia.
Qed.

Lemma scaled_le (d : Z) (s1 s2 : Q) :
  0 <= d -> (0 < s1)%Q -> (s1 <= s2)%Q ->
  (inject_Z d * (1 / s2) <= inject_Z d * (1 / s1))%Q.
Proof.
  intros Hd H1 H12.
  assert (H2 : (0 < s2)%Q) by (eapply Qlt_le_trans; eassumption).
  assert (Hdq : (0 <= inject_Z d)%Q) by (change 0%Q with (inject_Z 0); now rewrite <- Zle_Qle).
  assert (E1 : (inject_Z d * (1 / s1) == inject_Z d / s1)%Q) by (field; intros E; rewrite E in H1; discriminate).
  assert (E2 : (inject_Z d * (1 / s2) == inject_Z d / s2)%Q) by (field; intros E; rewrite E in H2; discriminate).
  rewrite E1, E2.
  apply Qle_shift_div_r; [exact H2 |].
  assert (Hq : (0 <= inject_Z d / s1)%Q).
  { apply Qle_shift_div_l; [exact H1 |]. now rewrite Qmult_0_l. }
  assert (E : (inject_Z d == inject_Z d / s1 * s1)%Q)
    by (field; intros E; rewrite E in H1; discriminate).
  rewrite E at 1. rewrite !(Qmult_comm (inject_Z d / s1)).
  now apply Qmult_le_compat_r.
Qed.

Lemma positive_speed (s : Q) : (0 < s)%Q -> Qeq_bool s 0 = false.
Proof.
  intros H. destruct (Qeq_bool s 0) eqn:E; [| reflexivity].
  apply Qeq_bool_iff in E. rewrite E in H. discriminate.
Qed.

(** X7: The delay before the next action is never under 25ms; at normal
    speed it lies between 50ms and 2000ms, and at any speed of 1 or more
    it does not exceed 2000ms. *)
Theorem calculateOptimalDelay_range (speed : Q) (current next : Action.t) :
  25 <= calculateOptimalDelay speed current next
  /\ 50 <= calculateOptimalDelay 1 current next <= 2000
  /\ ((1 <= speed)%Q -> calculateOptimalDelay speed current next <= 2000).
Proof.
  pose proof (clampedDelay_range current next) as R.
  split; [| split].
  - unfold calculateOptimalDelay. lia.
  - rewrite delay_at_unit_speed. lia.
  - intros Hs.
    assert (Hpos : (0 < speed)%Q) by (eapply Qlt_le_trans; [| exact Hs]; reflexivity).
    rewrite code_clamp_eq. unfold nextDelay_rounded.
    rewrite (positive_speed speed Hpos).
    pose proof (scaled_le (clampedDelay current next) 1 speed) as M.
    assert (E : (inject_Z (clampedDelay current next) * (1 / 1)
                 == inject_Z (clampedDelay current next))%Q) by field.
    rewrite E in M.
    apply Math_round_le in M; [| lia | reflexivity | exact Hs].
    rewrite Math_round_integer in M. lia.
Qed.

Lemma calculateOptimalDelay_range_witness :
  (1 <= 4)%Q
  /\ 25 <= calculateOptimalDelay 4 (mkAction "click" 0 (Some "#a"))
             (mkAction "input" 9000 (Some "#b")) <= 2000
  /\ 50 <= calculateOptimalDelay 1 (mkAction "click" 0 (Some "#a"))
             (mkAction "input" 9000 (Some "#b")) <= 2000.
Proof.
  assert (H : (1 <= 4)%Q) by discriminate.
  destruct (calculateOptimalDelay_range 4 (mkAction "click" 0 (Some "#a"))
              (mkAction "input" 9000 (Some "#b"))) as (Hlow & Hunit & Hhigh).
  exact (conj H (conj (conj Hlow (Hhigh H)) Hunit)).
Defined.

(** X8: A faster playback never waits longer: for two positive speeds, the
    delay at the higher speed is at most the delay at the lower one. *)
Theorem calculateOptimalDelay_faster_is_shorter (slow fast : Q) (current next : Action.t) :
  (0 < slow)%Q -> (slow <= fast)%Q ->
  calculateOptimalDelay fast current next <= calculateOptimalDelay slow current next.
Proof.
  intros Hpos Hle.
  assert (Hfast : (0 < fast)%Q) by (eapply Qlt_le_trans; eassumption).
  rewrite !code_clamp_eq. unfold nextDelay_rounded.
  rewrite (positive_speed slow Hpos), (positive_speed fast Hfast).
  pose proof (clampedDelay_range current next) as R.
  apply Z.max_le_compat_r, Math_round_le, scaled_le; [lia | assumption | assumption].
Qed.

Lemma calculateOptimalDelay_faster_is_shorter_witness :
  (0 < 1 # 2)%Q /\ (1 # 2 <= 2)%Q
  /\ calculateOptimalDelay 2 (mkAction "click" 0 (Some "#a")) (mkAction "click" 700 (Some "#b"))
     <= calculateOptimalDelay (1 # 2) (mkAction "click" 0 (Some "#a"))
          (mkAction "click" 700 (Some "#b")).
Proof.
  split; [reflexivity |]. split; [discriminate |].
  apply (calculateOptimalDelay_faster_is_shorter (1 # 2) 2); [reflexivity | discriminate].
Defined.

(** ** Error log *)

Lemma logError_firstn (maxErrors : nat) (e : ErrorEntry.t) (l : list ErrorEntry.t) :
  logError maxErrors e (firstn maxErrors l) = firstn maxErrors (e :: l).
Proof.
  unfold logError. cbn [length]. rewrite length_firstn.
  destruct (Nat.ltb_spec maxErrors (S (Nat.min maxErrors (length l)))) as [Hlt | Hge].
  - destruct maxErrors as [| m]; [reflexivity |].
    rewrite !firstn_cons. f_equal. rewrite firstn_firstn. f_equal. lia.
  - rewrite (firstn_all2 l) by lia.
    symmetry. apply firstn_all2. cbn [length]. lia.
Qed.

Lemma logAll_firstn (maxErrors : nat) (entries l : list ErrorEntry.t) :
  logAll maxErrors entries (firstn maxErrors l) = firstn maxErrors (rev entries ++ l).
Proof.
  revert l. induction entries as [| e entries IH]; intros l; [reflexivity |].
  unfold logAll in *. cbn [fold_left rev]. rewrite logError_firstn, IH, <- app_assoc.
  reflexivity.
Qed.

(** X9: Starting from the empty log, the error log holds the most recent
    errors, the newest first, and never more than [maxErrors] of them;
    [getRecentErrors] hands out the ten newest. *)
Theorem errorLog_keeps_most_recent (maxErrors : nat) (entries : list ErrorEntry.t) :
  logAll maxErrors entries [] = firstn maxErrors (rev entries)
  /\ length (logAll maxErrors entries []) = Nat.min maxErrors (length entries)
  /\ getRecentErrors (logAll maxErrors entries [])
     = firstn (Nat.min 10 maxErrors) (rev entries).
Proof.
  assert (E : logAll maxErrors entries [] = firstn maxErrors (rev entries)).
  { pose proof (logAll_firstn maxErrors entries []) as H.
    rewrite firstn_nil, app_nil_r in H. exact H. }
  rewrite E. split; [reflexivity |]. split.
  - now rewrite length_firstn, length_rev.
  - unfold getRecentErrors. apply firstn_firstn.
Qed.

(** ** Selector derivation: the path and its length *)

Lemma pathLoop_length (dom : Dom.t) (room : nat) (el : node) (path : list string) :
  pathLoop dom room el = Normal path -> (length path <= room)%nat.
Proof.
  revert el path. induction room as [| room IH]; intros el path; cbn [pathLoop].
  - intros H. injection H as <-. cbn. lia.
  - destruct (Element.isBody (dataOf el) || Element.isDocumentElement (dataOf el)).
    + intros H. injection H as <-. cbn. lia.
    + destruct (nonBlank (Element.id (dataOf el))).
      * intros H. injection H as <-. cbn. lia.
      * destruct (linkOf el) as [| parent sibs i | sibs i].
        -- intros H. injection H as <-. cbn. lia.
        -- destruct (pathLoop dom room parent) as [outer | e] eqn:E; [| discriminate].
           intros H. injection H as <-. apply IH in E.
           rewrite length_app. cbn. lia.
        -- destruct room; [| discriminate]. intros H. injection H as <-. cbn. lia.
Qed.


(** X10: The path selector built by [getElementSelector] has at most four
    segments, whatever the depth of the element; if building it fails,
    the whole derivation fails with that error or has returned before. *)
Theorem getElementPath_at_most_four_segments (dom : Dom.t) (el : node) :
  (exists path, pathLoop dom 4 el = Normal path
                /\ getElementPath dom el = Normal (join " > " path)
                /\ (length path <= 4)%nat)
  \/ (exists e, getElementPath dom el = Thrown e
                /\ (getElementSelector dom (Some (TElement el)) = Thrown e
                    \/ exists s, getElementSelector dom (Some (TElement el))
                                 = Normal (Some s)
                                 /\ Dom.matchCount dom s = 1%nat)).
Proof.
  unfold getElementPath.
  destruct (pathLoop dom 4 el) as [path | e] eqn:E.
  - left. exists path. repeat split. now apply pathLoop_length in E.
  - right. exists e. split; [reflexivity |].
    rewrite derivation_refines. unfold deriveSelector, getElementPath. rewrite E.
    destruct (find (isUnique dom) (attributeCandidates dom (dataOf el))) as [s |] eqn:F.
    + right. exists s. split; [reflexivity |].
      apply find_some in F. destruct F as [_ F]. now apply Nat.eqb_eq in F.
    + now left.
Qed.



(** Outside the document the walk up the parents can fail: for an
    element two levels under a shadow root, in a document where no
    attribute selector is unique, the derivation stops at a TypeError. *)
Example getElementSelector_under_shadow_root :
  inDocument shadowSpan = false
  /\ getElementSelector plainDom (Some (TElement shadowSpan))
     = Thrown "TypeError: Cannot read properties of undefined (reading 'toLowerCase')"
  /\ getElementSelector plainDom (Some (TElement documentButton))
     = Normal (Some ("button[data-text=" ++ doubleQuote ++ "Send" ++ doubleQuote ++ "]")).
Proof. repeat split; reflexivity. Qed.

(** ** Selector resolution: modes, retries and the detection count *)

Lemma firstHit_some_iff (look : Query -> nat -> probe) (l : list (Query * nat)) :
  firstHit look l <> None
  <-> exists q retry, In (q, retry) l /\ isHit (look q retry) = true.
Proof.
  induction l as [| [q n] l IH]; cbn [firstHit In].
  - split; [congruence | intros (q & r & [] & _)].
  - destruct (look q n) eqn:E.
    + split; [| discriminate]. intros _. exists q, n. rewrite E. now split; [left |].
    + rewrite IH. split.
      * intros (q' & r & Hin & Hhit). exists q', r. now split; [right |].
      * intros (q' & r & [Heq | Hin] & Hhit).
        -- injection Heq as <- <-. rewrite E in Hhit. discriminate.
        -- now exists q', r.
    + rewrite IH. split.
      * intros (q' & r & Hin & Hhit). exists q', r. now split; [right |].
      * intros (q' & r & [Heq | Hin] & Hhit).
        -- injection Heq as <- <-. rewrite E in Hhit. discriminate.
        -- now exists q', r.
Qed.

Lemma attempts_incl (s1 s2 : list Strategy) (rounds : nat) (q : Query) (retry : nat) :
  incl s1 s2 -> In (q, retry) (attempts s1 rounds) -> In (q, retry) (attempts s2 rounds).
Proof.
  intros Hincl. unfold attempts. cbn [In]. intros [H | H]; [now left | right].
  apply in_flat_map in H. destruct H as (n & Hn & Hin).
  apply in_flat_map. exists n. split; [exact Hn |].
  apply in_map_iff in Hin. destruct Hin as (s & Heq & Hs).
  apply in_map_iff. exists s. split; [exact Heq | now apply Hincl].
Qed.

Lemma findElement_found_iff (settings : Settings.t) (page : oracle) (selector : string)
  (action : option Action.t) :
  selector <> "" -> selector <> "document" -> selector <> "window" ->
  fst (findElement settings page (Some selector) action) <> None
  <-> firstHit (page selector action)
        (attempts (strategiesFor (Settings.elementDetection settings))
           (Z.to_nat (Settings.maxRetries settings))) <> None.
Proof.
  intros H1 H2 H3.
  destruct (findElement_resolution settings page selector action H1 H2 H3) as [-> _].
  destruct (firstHit _ _); cbn [option_map]; split; congruence.
Qed.

Lemma findElement_incl (s1 s2 : Settings.t) (page : oracle) (selector : option string)
  (action : option Action.t) :
  Settings.maxRetries s1 = Settings.maxRetries s2 ->
  incl (strategiesFor (Settings.elementDetection s1))
       (strategiesFor (Settings.elementDetection s2)) ->
  fst (findElement s1 page selector action) <> None ->
  fst (findElement s2 page selector action) <> None.
Proof.
  intros Hretries Hincl.
  destruct selector as [selector |]; [| exact (fun H => H)].
  destruct (String.eqb_spec selector "") as [-> | H1]; [exact (fun H => H) |].
  destruct (String.eqb_spec selector "document") as [-> | H2]; [exact (fun H => H) |].
  destruct (String.eqb_spec selector "window") as [-> | H3]; [exact (fun H => H) |].
  rewrite !findElement_found_iff, !firstHit_some_iff by assumption.
  intros (q & retry & Hin & Hhit). exists q, retry. split; [| exact Hhit].
  rewrite <- Hretries. revert Hin. now apply attempts_incl.
Qed.

(** X12: The detection modes are ordered: with the same number of retries,
    what strict mode finds, flexible mode finds (some element for it),
    and what flexible mode finds, aggressive mode finds. *)
Theorem findElement_mode_order (speed : Q) (visualIndicators autoScroll debugMode : bool)
  (maxRetries : Z) (page : oracle) (selector : option string) (action : option Action.t) :
  let found mode :=
    fst (findElement
           (Settings.mk speed visualIndicators autoScroll mode debugMode maxRetries)
           page selector action) in
  (found "strict" <> None -> found "flexible" <> None)
  /\ (found "flexible" <> None -> found "aggressive" <> None).
Proof.
  intros found. subst found. cbv beta.
  split; apply findElement_incl; try reflexivity; cbn;
    intros s Hs; cbn in *; tauto.
Qed.

Lemma findElement_mode_order_witness :
  fst (findElement (Settings.mk 1 true true "strict" false 3) textOnlyPage
         (Some "button.primary") None) <> None
  /\ fst (findElement (Settings.mk 1 true true "flexible" false 3) textOnlyPage
            (Some "button.primary") None) <> None
  /\ fst (findElement (Settings.mk 1 true true "aggressive" false 3) textOnlyPage
            (Some "button.primary") None) <> None.
Proof.
  assert (H : fst (findElement (Settings.mk 1 true true "strict" false 3) textOnlyPage
                     (Some "button.primary") None) <> None) by discriminate.
  destruct (findElement_mode_order 1 true true false 3 textOnlyPage
              (Some "button.primary") None) as [Hflexible Haggressive].
  exact (conj H (conj (Hflexible H) (Haggressive (Hflexible H)))).
Defined.

(** X13: With [maxRetries] at 0 or below no strategy runs: the direct query
    alone decides, and a miss is counted as a failed detection. *)
Theorem findElement_without_retries (settings : Settings.t) (page : oracle)
  (selector : string) (action : option Action.t) :
  selector <> "" -> selector <> "document" -> selector <> "window" ->
  Settings.maxRetries settings <= 0 ->
  findElement settings page (Some selector) action
  = match page selector action Direct 0%nat with
    | Hit e => (Some (FElement e), [Asked Direct 0])
    | Miss => (None, [Asked Direct 0; DetectionRecorded false])
    | Fault _ =>
        (None, [Asked Direct 0; ErrorLogged "Direct Selector Query"; DetectionRecorded false])
    end.
Proof.
  intros H1 H2 H3 Hle. unfold findElement.
  apply String.eqb_neq in H1, H2, H3. rewrite H1, H2, H3.
  replace (Z.to_nat (Settings.maxRetries settings)) with 0%nat by lia.
  cbn [retryLoop]. destruct (page selector action Direct 0%nat); reflexivity.
Qed.

Lemma findElement_without_retries_witness :
  findElement (Settings.mk 1 true true "aggressive" false 0) emptyPage (Some "#gone") None
  = (None, [Asked Direct 0; DetectionRecorded false]).
Proof.
  apply (findElement_without_retries (Settings.mk 1 true true "aggressive" false 0)
           emptyPage "#gone" None); discriminate.
Defined.

Lemma tryStrategies_events (look : Query -> nat -> probe) (retry : nat)
  (strategies : list Strategy) :
  exists events,
    forallb calm events = true
    /\ snd (tryStrategies look retry strategies)
       = match fst (tryStrategies look retry strategies) with
         | Some _ => (events ++ [DetectionRecorded true])%list
         | None => events
         end.
Proof.
  induction strategies as [| s rest IH]; cbn [tryStrategies].
  - now exists [].
  - destruct (look (Via s) retry).
    + now exists [Asked (Via s) retry].
    + destruct (tryStrategies look retry rest) as [found events].
      destruct IH as (ev & Hcalm & Heq). cbn [fst snd] in *.
      exists (Asked (Via s) retry :: ev). split; [exact Hcalm |].
      rewrite Heq. now destruct found.
    + destruct (tryStrategies look retry rest) as [found events].
      destruct IH as (ev & Hcalm & Heq). cbn [fst snd] in *.
      eexists (Asked (Via s) retry :: ErrorLogged _ :: ev). split; [exact Hcalm |].
      rewrite Heq. now destruct found.
Qed.

Lemma retryLoop_events (look : Query -> nat -> probe) (strategies : list Strategy)
  (maxRetries : Z) (rounds retry : nat) :
  exists events,
    forallb calm events = true
    /\ snd (retryLoop look strategies maxRetries rounds retry)
       = match fst (retryLoop look strategies maxRetries rounds retry) with
         | Some _ => (events ++ [DetectionRecorded true])%list
         | None => events
         end.
Proof.
  revert retry. induction rounds as [| rounds IH]; intros retry; cbn [retryLoop].
  - now exists [].
  - destruct (tryStrategies_events look retry strategies) as (ev & Hcalm & Heq).
    destruct (tryStrategies look retry strategies) as [[e |] events]; cbn [fst snd] in *.
    + now exists ev.
    + destruct (IH (S retry)) as (later & Hlater & Heq').
      destruct (retryLoop look strategies maxRetries rounds (S retry)) as [found rest].
      cbn [fst snd] in *. subst events.
      exists (ev ++ (if (Z.of_nat retry <? maxRetries - 1)%Z then [Paused 200] else [])
              ++ later)%list.
      split.
      * rewrite !forallb_app, Hcalm, Hlater.
        now destruct (Z.of_nat retry <? maxRetries - 1)%Z.
      * rewrite Heq'. destruct found; [| reflexivity]. now rewrite !app_assoc.
Qed.

(** X14: A resolution decided by the direct query records no detection; every
    other one records exactly one, at its end, a success exactly when an
    element is returned.  (The playback metrics thus leave direct hits
    out of the detection rate.) *)
Theorem findElement_detection_recorded_once (settings : Settings.t) (page : oracle)
  (selector : string) (action : option Action.t) :
  selector <> "" -> selector <> "document" -> selector <> "window" ->
  let result := findElement settings page (Some selector) action in
  exists events,
    forallb calm events = true
    /\ snd result
       = if isHit (page selector action Direct 0%nat) then events
         else (events ++ [DetectionRecorded (match fst result with
                                             | Some _ => true
                                             | None => false
                                             end)])%list.
Proof.
  intros H1 H2 H3 result. subst result. unfold findElement.
  apply String.eqb_neq in H1, H2, H3. rewrite H1, H2, H3.
  set (look := page selector action).
  destruct (retryLoop_events look (strategiesFor (Settings.elementDetection settings))
              (Settings.maxRetries settings) (Z.to_nat (Settings.maxRetries settings)) 0)
    as (ev & Hcalm & Heq).
  destruct (retryLoop look (strategiesFor (Settings.elementDetection settings))
              (Settings.maxRetries settings) (Z.to_nat (Settings.maxRetries settings)) 0)
    as [found events].
  cbn [fst snd] in Heq. subst events.
  destruct (look Direct 0%nat) as [e | | m]; cbn [isHit fst snd].
  - now exists [Asked Direct 0].
  - exists (Asked Direct 0 :: ev). split; [exact Hcalm |]. now destruct found.
  - eexists (Asked Direct 0 :: ErrorLogged _ :: ev). split; [exact Hcalm |].
    now destruct found.
Qed.

Lemma findElement_detection_recorded_once_witness :
  exists events,
    forallb calm events = true
    /\ snd (findElement strictSettings emptyPage (Some "#gone") None)
       = (events ++ [DetectionRecorded false])%list.
Proof.
  destruct (findElement_detection_recorded_once strictSettings emptyPage "#gone" None)
    as (events & Hcalm & Heq); try discriminate.
  exists events. split; [exact Hcalm | exact Heq].
Defined.

(** ** Recorder: the queue and its flush *)

Lemma never_duplicate (r : Recorder.t) (a : Action.t) :
  includes_list deduplicatedTypes (Action.type a) = false ->
  isDuplicateAction r a = false.
Proof.
  intros H. unfold isDuplicateAction.
  destruct (Recorder.lastRecordedAction r); [| reflexivity].
  unfold includes_list, deduplicatedTypes in H. cbn [existsb] in H.
  repeat (apply orb_false_iff in H; destruct H as [? H]).
  repeat match goal with E : String.eqb _ _ = false |- _ => rewrite E; clear E end.
  reflexivity.
Qed.

(** The loop of the flush, on a recorder whose current page is the heap
    object [ref]: it ends normally, appends to that page some of the
    queued actions in their order, among them every action that cannot
    be a duplicate, and leaves the queue empty. *)
Lemma drainQueue_appends (queue : list Action.t) (r : Recorder.t) (ref : nat)
  (page : Page.t) :
  Recorder.currentPageData r = Some ref ->
  deref r ref = Some page ->
  exists r' kept,
    drainQueue queue r = Done r'
    /\ actionsAt r' ref = (Page.actions page ++ kept)%list
    /\ subsequence kept queue
    /\ (forall a, In a queue ->
                  includes_list deduplicatedTypes (Action.type a) = false -> In a kept)
    /\ Recorder.currentPageData r' = Some ref
    /\ Recorder.isProcessingQueue r' = Recorder.isProcessingQueue r
    /\ (queue <> [] -> Recorder.recordingQueue r' = []).
Proof.
  revert r page. induction queue as [| a rest IH]; intros r page Hcur Hpage.
  - exists r, []. cbn [drainQueue]. repeat split; try constructor; try easy.
    + unfold actionsAt. now rewrite Hpage, app_nil_r.
  - cbn [drainQueue].
    change (Recorder.currentPageData (with_recordingQueue rest r))
      with (Recorder.currentPageData r).
    change (isDuplicateAction (with_recordingQueue rest r) a)
      with (isDuplicateAction r a).
    rewrite Hcur.
    destruct (isDuplicateAction r a) eqn:Hdup; cbn [negb].
    + destruct (IH (with_recordingQueue rest r) page Hcur Hpage)
        as (r' & kept & Hrun & Hact & Hsub & Hall & Hcur' & Hproc & Hq).
      exists r', kept. repeat split; try assumption.
      * now constructor.
      * intros b [<- | Hin] Hb; [| now apply Hall].
        rewrite (never_duplicate r a Hb) in Hdup. discriminate.
      * intros _. destruct rest as [| b rest']; [| apply Hq; discriminate].
        cbn [drainQueue] in Hrun. injection Hrun as <-. reflexivity.
    + set (r1 := with_lastRecordedAction (Some a)
                   (recordActionMetric
                      (updatePage (pushAction a) ref (with_recordingQueue rest r)))).
      assert (Hpage1 : deref r1 ref = Some (pushAction a page)).
      { subst r1. unfold deref. rsimpl. now apply nth_error_modify_nth. }
      destruct (IH r1 (pushAction a page) Hcur Hpage1)
        as (r' & kept & Hrun & Hact & Hsub & Hall & Hcur' & Hproc & Hq).
      exists r', (a :: kept). repeat split; try assumption.
      * rewrite Hact. cbn [pushAction Page.actions]. now rewrite <- app_assoc.
      * now constructor.
      * intros b [<- | Hin] Hb; [now left | right; now apply Hall].
      * intros _. destruct rest as [| b rest']; [| apply Hq; discriminate].
        cbn [drainQueue] in Hrun. injection Hrun as <-. reflexivity.
Qed.

(** X15: The flush keeps the order of arrival: [processRecordingQueue]
    appends to the page being recorded a subsequence of the queue, drops
    nothing but duplicates (so no click, double click, change, submit or
    resize is lost), and leaves the queue empty. *)
Theorem processRecordingQueue_keeps_order (env : Env.t) (r : Recorder.t) (ref : nat)
  (page : Page.t) :
  Recorder.currentPageData r = Some ref ->
  deref r ref = Some page ->
  Recorder.isProcessingQueue r = false ->
  exists r' kept,
    processRecordingQueue env r = Done r'
    /\ actionsAt r' ref = (Page.actions page ++ kept)%list
    /\ subsequence kept (Recorder.recordingQueue r)
    /\ (forall a, In a (Recorder.recordingQueue r) ->
                  includes_list deduplicatedTypes (Action.type a) = false -> In a kept)
    /\ Recorder.recordingQueue r' = [].
Proof.
  intros Hcur Hpage Hproc. unfold processRecordingQueue. rewrite Hproc.
  destruct (Recorder.recordingQueue r) as [| a rest] eqn:Hq.
  - exists r, []. repeat split; try constructor; try easy.
    unfold actionsAt. now rewrite Hpage, app_nil_r.
  - destruct (drainQueue_appends (a :: rest) (with_isProcessingQueue true r) ref page
                Hcur Hpage)
      as (r' & kept & Hrun & Hact & Hsub & Hall & Hcur' & Hproc' & Hempty).
    rewrite Hrun.
    exists (updateBackgroundSession env (with_isProcessingQueue false r')), kept.
    repeat split; try assumption.
    + now rewrite actionsAt_updateBackgroundSession.
    + unfold updateBackgroundSession.
      destruct (_ || _ || _)%bool; [| destruct (Env.sendMessageThrows env)];
        rsimpl; apply Hempty; discriminate.
Qed.

Lemma processRecordingQueue_keeps_order_witness :
  exists r' kept,
    processRecordingQueue (envAt 350 0 0)
      (step (envAt 300 0 0) (DomEvent "click" (clickOn sampleButton)) recording0)
    = Done r'
    /\ actionsAt r' 0 = ([] ++ kept)%list
    /\ subsequence kept
         (Recorder.recordingQueue
            (step (envAt 300 0 0) (DomEvent "click" (clickOn sampleButton)) recording0))
    /\ (forall a,
          In a (Recorder.recordingQueue
                  (step (envAt 300 0 0) (DomEvent "click" (clickOn sampleButton))
                     recording0)) ->
          includes_list deduplicatedTypes (Action.type a) = false -> In a kept)
    /\ Recorder.recordingQueue r' = [].
Proof.
  apply (processRecordingQueue_keeps_order (envAt 350 0 0)
           (step (envAt 300 0 0) (DomEvent "click" (clickOn sampleButton)) recording0)
           0 (Page.mk "https://example.test/" "Example" 0 None []));
    reflexivity.
Defined.

(** ** Recorder: from the event to the page *)

(** X16: An event of a type that is never deduplicated and waits 50ms in the
    queue (click, double click, change, submit), received while
    recording, is on the page once its debounce timer has fired: one
    action more, stamped with the time of the event relative to the
    start of the page, with the selector derived for its target and the
    window's scroll position at the time of the event. *)
Theorem event_recorded_after_debounce (r : Recorder.t) (ref : nat) (page : Page.t)
  (at_event at_timer : Env.t) (type : string) (event : RawEvent.t)
  (target : option string) :
  Recorder.isRecording r = true ->
  Recorder.listening r = true ->
  Recorder.extensionContextValid r = true ->
  Recorder.currentPageData r = Some ref ->
  deref r ref = Some page ->
  Recorder.recordingQueue r = [] ->
  Recorder.isProcessingQueue r = false ->
  In type ["click"; "dblclick"; "change"; "submit"] ->
  getElementSelector (Env.dom at_event) (Some (RawEvent.target event)) = Normal target ->
  Env.now at_event + 50 <= Env.now at_timer ->
  Env.hasRuntime at_timer = true ->
  let r' := run [(at_event, DomEvent type event); (at_timer, DebounceTimeout)] r in
  exists a,
    actionsAt r' ref = (Page.actions page ++ [a])%list
    /\ Action.type a = type
    /\ Action.timestamp a = Env.now at_event - Page.timestamp page
    /\ Action.target a = target
    /\ Action.scrollPosition a = positionOf at_event
    /\ Recorder.lastRecordedAction r' = Some a
    /\ Recorder.recordingQueue r' = [].
Proof.
  intros Hrec Hlis Hctx Hcur Hpage Hq Hproc Hty Hsel Hdue Hrt r'. subst r'.
  assert (Hhandled : includes_list handledTypes type = true).
  { cbn [In] in Hty. decompose [or] Hty; subst; try reflexivity; contradiction. }
  assert (Hnodup : includes_list deduplicatedTypes type = false).
  { cbn [In] in Hty. decompose [or] Hty; subst; try reflexivity; contradiction. }
  assert (Hdelay : getDebounceDelay type = 50).
  { cbn [In] in Hty. decompose [or] Hty; subst; try reflexivity; contradiction. }
  cbn [run step]. rewrite Hlis, Hhandled. cbn [andb].
  unfold recordAction. rewrite Hrec, Hctx, Hcur, Hpage, Hsel. cbn [negb].
  destruct (RawEvent.rect event) as [[[rectLeft rectTop] rectWidth] rectHeight].
  match goal with
  | |- context [queueAction at_event ?x r] => set (a := x)
  end.
  assert (Ha : Action.type a = type) by reflexivity.
  unfold queueAction.
  rewrite (never_duplicate r a) by (now rewrite Ha).
  cbn [settle]. rsimpl. rewrite Ha, Hdelay, Hq. cbn [app].
  destruct (Z.leb_spec (Env.now at_event + 50) (Env.now at_timer)) as [_ | Hlt]; [| lia].
  unfold debounceCallback. rsimpl. rewrite Hctx, Hrt. cbn [negb orb].
  unfold processRecordingQueue. rsimpl. rewrite Hproc. cbn [drainQueue].
  match goal with
  | |- context [isDuplicateAction ?x a] =>
      rewrite (never_duplicate x a) by (now rewrite Ha)
  end.
  cbn [negb]. rsimpl. rewrite Hcur.
  exists a. split; [| split; [| split; [| split; [| split; [| split]]]]];
    try reflexivity.
  - rewrite actionsAt_updateBackgroundSession. unfold actionsAt, deref. rsimpl.
    unfold deref in Hpage. now rewrite (nth_error_modify_nth _ _ _ _ Hpage).
  - unfold updateBackgroundSession.
    destruct (_ || _ || _)%bool; [| destruct (Env.sendMessageThrows at_timer)];
      reflexivity.
  - unfold updateBackgroundSession.
    destruct (_ || _ || _)%bool; [| destruct (Env.sendMessageThrows at_timer)];
      reflexivity.
Qed.

Lemma event_recorded_after_debounce_witness :
  exists a,
    actionsAt (run [(envAt 300 0 40, DomEvent "click" (clickOn sampleButton));
                    (envAt 350 0 40, DebounceTimeout)] recording0) 0
    = ([] ++ [a])%list
    /\ Action.type a = "click"
    /\ Action.timestamp a = 300 - 0
    /\ Action.target a
       = Some ("button[data-text=" ++ doubleQuote ++ "Save" ++ doubleQuote ++ "]")
    /\ Action.scrollPosition a = Point.mk 0 40.
Proof.
  destruct (event_recorded_after_debounce recording0 0
              (Page.mk "https://example.test/" "Example" 0 None [])
              (envAt 300 0 40) (envAt 350 0 40) "click" (clickOn sampleButton)
              (Some ("button[data-text=" ++ doubleQuote ++ "Save" ++ doubleQuote ++ "]")))
    as (a & H1 & H2 & H3 & H4 & H5 & _);
    try reflexivity; try (cbn; tauto); try (vm_compute; discriminate).
  exists a. exact (conj H1 (conj H2 (conj H3 (conj H4 H5)))).
Defined.

(** ** Recorder: after the stop *)

Lemma wiring_updateBackgroundSession (env : Env.t) (r : Recorder.t) :
  wiring (updateBackgroundSession env r) = wiring r.
Proof.
  unfold updateBackgroundSession.
  destruct (_ || _ || _)%bool; [| destruct (Env.sendMessageThrows env)]; reflexivity.
Qed.

Lemma wiring_drainQueue (queue : list Action.t) (r : Recorder.t) :
  wiring (settle (drainQueue queue r)) = wiring r.
Proof.
  revert r. induction queue as [| a rest IH]; intros r; cbn [drainQueue]; [reflexivity |].
  destruct (negb (isDuplicateAction (with_recordingQueue rest r) a)).
  - destruct (Recorder.currentPageData (with_recordingQueue rest r)); [| reflexivity].
    now rewrite IH.
  - now rewrite IH.
Qed.

Lemma wiring_processRecordingQueue (env : Env.t) (r : Recorder.t) :
  wiring (settle (processRecordingQueue env r)) = wiring r.
Proof.
  unfold processRecordingQueue.
  destruct (Recorder.isProcessingQueue r); [reflexivity |].
  destruct (Recorder.recordingQueue r) as [| a rest]; [reflexivity |].
  pose proof (wiring_drainQueue (a :: rest) (with_isProcessingQueue true r)) as H.
  destruct (drainQueue (a :: rest) (with_isProcessingQueue true r)) as [r' | r'];
    cbn [settle] in *; [| exact H].
  now rewrite wiring_updateBackgroundSession.
Qed.

Lemma wiring_removeEventListeners (env : Env.t) (r : Recorder.t) :
  wiring (settle (removeEventListeners env r)) = (Recorder.isRecording r, false, None, None).
Proof.
  unfold removeEventListeners.
  assert (Hfinish : forall r0 (q : list Action.t),
             wiring (settle match q with
                            | [] => Done r0
                            | _ :: _ => processRecordingQueue env r0
                            end)
             = wiring r0).
  { intros r0 q. destruct q; [reflexivity |]. apply wiring_processRecordingQueue. }
  cbv zeta. destruct (Recorder.isScrolling _).
  - destruct (Recorder.scrollStartPosition _) as [start |].
    + destruct (meaningfulScroll _ _).
      * destruct (Recorder.currentPageData _) as [ref |]; [| reflexivity].
        destruct (deref _ ref); [| reflexivity].
        etransitivity; [apply Hfinish | reflexivity].
      * etransitivity; [apply Hfinish | reflexivity].
    + etransitivity; [apply Hfinish | reflexivity].
  - etransitivity; [apply Hfinish | reflexivity].
Qed.

Lemma wiring_stopRecording (env : Env.t) (r : Recorder.t) :
  Recorder.isRecording r = true ->
  wiring (settle (fst (stopRecording env r))) = (false, false, None, None).
Proof.
  intros Hrec. unfold stopRecording. rewrite Hrec. cbn [negb].
  pose proof (wiring_removeEventListeners env (with_isRecording false r)) as H.
  destruct (removeEventListeners env (with_isRecording false r)) as [r' | r'];
    cbn [settle fst] in *; [| exact H].
  cbv zeta. destruct (Recorder.currentPageData (hideRecordingIndicator r')); exact H.
Qed.

Lemma silent_step (env : Env.t) (i : Input) (r : Recorder.t) :
  wiring r = (false, false, None, None) ->
  startsRecording i = false ->
  step env i r = r.
Proof.
  unfold wiring. intros H Hi. injection H as Hrec Hlis Hscroll Hdeb.
  destruct i; try discriminate; cbn [step].
  - unfold recordNavigation. now rewrite Hrec.
  - unfold stopRecording. now rewrite Hrec.
  - now rewrite Hlis.
  - now rewrite Hlis.
  - now rewrite Hscroll.
  - now rewrite Hdeb.
Qed.

(** X17: Once [stopRecording] has run on a recording recorder, the recorder
    reacts to nothing until a recording is started again: its handlers
    are detached and no timer is left, so no event, timer or message
    other than a start changes its state, and a second stop hands back
    no session. *)
Theorem stopRecording_silences_recorder (env : Env.t) (r : Recorder.t)
  (trace : list (Env.t * Input)) :
  Recorder.isRecording r = true ->
  forallb (fun ei => negb (startsRecording (snd ei))) trace = true ->
  let r' := step env StopRecording r in
  Recorder.isRecording r' = false
  /\ run trace r' = r'
  /\ forall env', stopRecording env' r' = (Done r', None).
Proof.
  intros Hrec Hquiet r'. subst r'. cbn [step].
  pose proof (wiring_stopRecording env r Hrec) as W.
  set (r' := settle (fst (stopRecording env r))) in *.
  split; [| split].
  - unfold wiring in W. now injection W.
  - induction trace as [| [env' i] rest IH]; [reflexivity |].
    cbn [forallb snd] in Hquiet. apply andb_true_iff in Hquiet.
    destruct Hquiet as [Hi Hrest]. apply negb_true_iff in Hi.
    cbn [run]. rewrite (silent_step env' i r' W Hi). now apply IH.
  - intros env'. unfold stopRecording. unfold wiring in W. injection W as -> _ _ _.
    reflexivity.
Qed.

Lemma stopRecording_silences_recorder_witness :
  Recorder.isRecording
    (step (envAt 400 0 0) StopRecording
       (step (envAt 300 0 0) (DomEvent "click" (clickOn sampleButton)) recording0)) = false
  /\ run [(envAt 450 0 0, DebounceTimeout);
          (envAt 500 0 90, ScrollEvent);
          (envAt 600 0 0, DomEvent "click" (clickOn sampleButton));
          (envAt 700 0 90, ScrollTimeout)]
       (step (envAt 400 0 0) StopRecording
          (step (envAt 300 0 0) (DomEvent "click" (clickOn sampleButton)) recording0))
     = step (envAt 400 0 0) StopRecording
         (step (envAt 300 0 0) (DomEvent "click" (clickOn sampleButton)) recording0).
Proof.
  destruct (stopRecording_silences_recorder (envAt 400 0 0)
              (step (envAt 300 0 0) (DomEvent "click" (clickOn sampleButton)) recording0)
              [(envAt 450 0 0, DebounceTimeout);
               (envAt 500 0 90, ScrollEvent);
               (envAt 600 0 0, DomEvent "click" (clickOn sampleButton));
               (envAt 700 0 90, ScrollTimeout)])
    as (H1 & H2 & _); try reflexivity.
  exact (conj H1 H2).
Defined.

(** ** Recorder: the session across pages *)

Lemma collect_pages (h l t : list Page.t) :
  flat_map (fun ref => match nth_error (h ++ l ++ t) ref with
                       | Some p => [p]
                       | None => []
                       end) (seq (length h) (length l)) = l.
Proof.
  revert h. induction l as [| a l IH]; intros h; [reflexivity |].
  cbn [length seq flat_map app].
  rewrite nth_error_app2, Nat.sub_diag by lia. cbn [nth_error app]. f_equal.
  specialize (IH (h ++ [a])%list).
  rewrite length_app, Nat.add_1_r, <- app_assoc in IH. exact IH.
Qed.

Lemma snapshot_updateBackgroundSession (env : Env.t) (r : Recorder.t) :
  snapshot (updateBackgroundSession env r) = snapshot r.
Proof.
  unfold updateBackgroundSession.
  destruct (_ || _ || _)%bool; [| destruct (Env.sendMessageThrows env)]; reflexivity.
Qed.

Lemma snapshot_showRecordingIndicator (r : Recorder.t) :
  snapshot (showRecordingIndicator r) = snapshot r.
Proof.
  unfold showRecordingIndicator. now destruct (negb _).
Qed.

(** X18: A recording started on a page has a session of its own, named after
    the time of the start, with the page as its only page; a recording
    continued on a new page keeps the identity, the start time and the
    pages of the session it is given and adds the new page, with no
    action yet, at the end. *)
Theorem recording_session_pages (env : Env.t) (r : Recorder.t) (session : SessionValue.t) :
  Recorder.isRecording r = false ->
  snapshot (startRecording env r)
  = Some (SessionValue.mk (toString (Env.now env)) (Env.now env) [freshPage env])
  /\ snapshot (continueRecording env (Some session) r)
     = Some (SessionValue.mk (SessionValue.id session) (SessionValue.startTime session)
               (SessionValue.pages session ++ [freshPage env])%list).
Proof.
  intros Hrec. unfold startRecording, continueRecording. rewrite Hrec.
  rewrite !snapshot_showRecordingIndicator.
  unfold startPageRecording, adopt, startRecordingMetrics, addEventListeners. rsimpl.
  rewrite !snapshot_updateBackgroundSession. unfold snapshot, deref. rsimpl.
  cbn [Session.id Session.startTime Session.pages app].
  fold (freshPage env). split.
  - cbn [flat_map app]. rewrite nth_error_app2, Nat.sub_diag by lia. reflexivity.
  - do 2 f_equal. rewrite flat_map_app. f_equal.
    + rewrite <- app_assoc. apply collect_pages.
    + cbn [flat_map]. rewrite length_app, app_nil_r.
      pose proof (collect_pages (Recorder.heap r ++ SessionValue.pages session)
                    [freshPage env] []) as H.
      rewrite length_app, app_nil_r in H. cbn [length seq flat_map] in H.
      rewrite app_nil_r in H. exact H.
Qed.

Lemma recording_session_pages_witness :
  snapshot (startRecording (envAt 0 0 0) newRecorder)
  = Some (SessionValue.mk "0" 0 [freshPage (envAt 0 0 0)])
  /\ snapshot (continueRecording (envAt 900 0 0)
                 (Some (SessionValue.mk "0" 0 [freshPage (envAt 0 0 0)])) newRecorder)
     = Some (SessionValue.mk "0" 0 [freshPage (envAt 0 0 0); freshPage (envAt 900 0 0)]).
Proof.
  split.
  - apply (recording_session_pages (envAt 0 0 0) newRecorder
             (SessionValue.mk "0" 0 [])). reflexivity.
  - apply (recording_session_pages (envAt 900 0 0) newRecorder
             (SessionValue.mk "0" 0 [freshPage (envAt 0 0 0)])). reflexivity.
Defined.

(** ** Session files: what an import stores *)

Lemma toString_nonEmpty (z : Z) : nonEmpty (toString z) = true.
Proof.
  unfold toString. destruct (Z.to_int z) as [d | d]; cbn.
  - unfold NilZero.string_of_uint. destruct d; reflexivity.
  - reflexivity.
Qed.

Lemma lookup_deleteField_ne (k k' : string) (fields : list (string * JValue)) :
  k <> k' -> lookup k (deleteField k' fields) = lookup k fields.
Proof.
  intros Hne. unfold deleteField.
  induction fields as [| [k0 v0] rest IH]; [reflexivity |].
  cbn [filter fst lookup].
  destruct (String.eqb_spec k0 k') as [-> | N]; cbn [negb lookup].
  - destruct (String.eqb_spec k' k); [congruence | exact IH].
  - destruct (String.eqb_spec k0 k); [reflexivity | exact IH].
Qed.

Ltac lookup_simpl :=
  repeat first
    [ rewrite lookup_setField_eq
    | rewrite lookup_setField_ne by (discriminate || congruence)
    | rewrite lookup_deleteField_ne by (discriminate || congruence) ].

(** What [repairSession] does to the properties of a session object,
    the pages apart: [id] and [startTime] are set if they are missing. *)
Lemma repairSession_fields (now : Z) (href title : string)
  (fields : list (string * JValue)) :
  let withId := if truthy (lookup "id" fields) then fields
                else setField "id" (JStr (toString now)) fields in
  let withStart := if truthy (lookup "startTime" withId) then withId
                   else setField "startTime" (JNum now) withId in
  exists repaired,
    fst (repairSession now href title (JObj fields)) = JObj repaired
    /\ forall k, k <> "pages" -> k <> "actions" -> k <> "url" -> k <> "title" ->
                 lookup k repaired = lookup k withStart.
Proof.
  unfold repairSession.
  destruct (truthy (lookup "id" fields));
    match goal with
    | |- context [truthy (lookup "startTime" ?f)] =>
        destruct (truthy (lookup "startTime" f))
    end;
    match goal with
    | |- context [negb (truthy (lookup "pages" ?f)) && ?x] =>
        destruct (negb (truthy (lookup "pages" f)) && x)
    end;
    match goal with
    | |- context [match lookup "pages" ?f with _ => _ end] =>
        destruct (lookup "pages" f) as [[] |]
    end;
    try match goal with
        | |- context [repairPages ?a ?b ?c] => destruct (repairPages a b c) as [[? ?] ?]
        end;
    cbv zeta; cbn [fst]; eexists; (split; [reflexivity |]);
    intros k H1 H2 H3 H4; lookup_simpl; reflexivity.
Qed.

Lemma repairSession_object (now : Z) (href title : string) (fields : list (string * JValue)) :
  exists fields', fst (repairSession now href title (JObj fields)) = JObj fields'.
Proof.
  destruct (repairSession_fields now href title fields) as (f & H & _). now exists f.
Qed.

(** X19: Whatever the file holds, [importSession] either rejects it and
    stores nothing, or stores one object: the file must hold an object,
    the stored one carries the identifier made from the time of the
    import and the [importedAt] stamp, it is filed under that identifier,
    and every session filed under another identifier stays as it was. *)
Theorem importSession_stores_one_object (validUrl : string -> bool) (now : Z)
  (importedAt href title : string) (file : option JValue)
  (sessions sessions' : list (string * JValue)) (statusMessage : string) :
  importSession validUrl now importedAt href title file sessions
  = Imported sessions' statusMessage ->
  (exists fields, file = Some (JObj fields))
  /\ (exists stored,
        lookup (toString now) sessions' = Some (JObj stored)
        /\ lookup "id" stored = Some (JStr (toString now))
        /\ lookup "importedAt" stored = Some (JStr importedAt))
  /\ forall id, id <> toString now -> lookup id sessions' = lookup id sessions.
Proof.
  destruct file as [sessionData |]; [| discriminate].
  assert (Hstore : forall fields msg,
             Imported
               (setField (toString now)
                  (assign "importedAt" (JStr importedAt)
                     (assign "id" (JStr (toString now)) (JObj fields))) sessions) msg
             = Imported sessions' statusMessage ->
             (exists stored,
                 lookup (toString now) sessions' = Some (JObj stored)
                 /\ lookup "id" stored = Some (JStr (toString now))
                 /\ lookup "importedAt" stored = Some (JStr importedAt))
             /\ forall id, id <> toString now -> lookup id sessions' = lookup id sessions).
  { intros fields msg H. injection H as <- _. split.
    - eexists. split; [apply lookup_setField_eq |]. cbn [assign]. split.
      + rewrite lookup_setField_ne by discriminate. apply lookup_setField_eq.
      + apply lookup_setField_eq.
    - intros id Hid. now apply lookup_setField_ne. }
  destruct sessionData as [| b | n | s | items | fields].
  - discriminate.
  - unfold importSession, validateSession. cbn [typeofObject negb].
    rewrite orb_true_r. discriminate.
  - unfold importSession, validateSession. cbn [typeofObject negb].
    rewrite orb_true_r. discriminate.
  - unfold importSession, validateSession. cbn [typeofObject negb].
    rewrite orb_true_r. discriminate.
  - discriminate.
  - intros H. split; [now eexists |].
    unfold importSession in H.
    destruct (Validation.isValid (validateSession validUrl now (JObj fields))); cbn [negb] in H.
    + destruct (Validation.warnings (validateSession validUrl now (JObj fields)));
        now apply Hstore in H.
    + destruct (Validation.canRepair (validateSession validUrl now (JObj fields)));
        [| discriminate].
      destruct (repairSession_object now href title fields) as [fields' E].
      destruct (repairSession now href title (JObj fields)) as [repaired repairs].
      cbn [fst] in E. subst repaired. now apply Hstore in H.
Qed.

Lemma importSession_stores_one_object_witness :
  (exists fields, Some sampleSession = Some (JObj fields))
  /\ (exists stored,
        lookup (toString 1700000005000)
          [("1700000000000", sampleSession);
           ("1700000005000",
            assign "importedAt" (JStr "2023-11-14T22:13:25.000Z")
              (assign "id" (JStr "1700000005000") sampleSession))]
        = Some (JObj stored)
        /\ lookup "id" stored = Some (JStr (toString 1700000005000))
        /\ lookup "importedAt" stored = Some (JStr "2023-11-14T22:13:25.000Z"))
  /\ forall id,
       id <> toString 1700000005000 ->
       lookup id
         [("1700000000000", sampleSession);
          ("1700000005000",
           assign "importedAt" (JStr "2023-11-14T22:13:25.000Z")
             (assign "id" (JStr "1700000005000") sampleSession))]
       = lookup id [("1700000000000", sampleSession)].
Proof.
  apply (importSession_stores_one_object anyUrl 1700000005000
           "2023-11-14T22:13:25.000Z" "" "" (Some sampleSession)
           [("1700000000000", sampleSession)] _ "Session imported successfully").
  reflexivity.
Defined.

(** ** Session files: what a repair leaves *)

(** X20: On an object, [repairSession] leaves a session that has an
    identifier and a start time: the ones it had, if it had them, else
    ones made from the current time; and it touches no property other
    than [id], [startTime], [pages], [actions], [url] and [title]. *)
Theorem repairSession_provides_identity (now : Z) (href title : string)
  (fields : list (string * JValue)) :
  now <> 0 ->
  let repaired := fst (repairSession now href title (JObj fields)) in
  truthy (get repaired "id") = true
  /\ truthy (get repaired "startTime") = true
  /\ (truthy (lookup "id" fields) = true -> get repaired "id" = lookup "id" fields)
  /\ (truthy (lookup "startTime" fields) = true ->
      get repaired "startTime" = lookup "startTime" fields)
  /\ forall k,
       ~ In k ["id"; "startTime"; "pages"; "actions"; "url"; "title"] ->
       get repaired k = lookup k fields.
Proof.
  intros Hnow repaired. subst repaired.
  assert (Hnum : truthy (Some (JNum now)) = true)
    by (cbn; now apply negb_true_iff, Z.eqb_neq).
  assert (Hstr : truthy (Some (JStr (toString now))) = true)
    by (cbn; apply toString_nonEmpty).
  destruct (repairSession_fields now href title fields) as (f & -> & Hf).
  cbn [get]. cbv zeta in Hf.
  split; [| split; [| split; [| split]]].
  - rewrite Hf by discriminate.
    destruct (truthy (lookup "id" fields)) eqn:Hid;
      match goal with
      | |- context [truthy (lookup "startTime" ?f)] =>
          destruct (truthy (lookup "startTime" f))
      end; lookup_simpl; assumption.
  - rewrite Hf by discriminate.
    destruct (truthy (lookup "id" fields)) eqn:Hid;
      match goal with
      | |- context [if truthy (lookup "startTime" ?f) then _ else _] =>
          destruct (truthy (lookup "startTime" f)) eqn:Hst
      end; first [assumption | lookup_simpl; assumption].
  - intros Hid. rewrite Hf by discriminate. rewrite Hid.
    destruct (truthy (lookup "startTime" fields)); lookup_simpl; reflexivity.
  - intros Hst. rewrite Hf by discriminate.
    destruct (truthy (lookup "id" fields)); lookup_simpl; rewrite Hst; lookup_simpl;
      reflexivity.
  - intros k Hk. cbn [In] in Hk.
    rewrite Hf by (intros ->; tauto).
    destruct (truthy (lookup "id" fields));
      match goal with
      | |- context [if truthy (lookup "startTime" ?f) then _ else _] =>
          destruct (truthy (lookup "startTime" f))
      end; rewrite ?lookup_setField_ne by (intros ->; tauto); reflexivity.
Qed.

Lemma repairSession_provides_identity_witness :
  1700000005000 <> 0
  /\ truthy (get (fst (repairSession 1700000005000 "" "" noStartTime)) "id") = true
  /\ get (fst (repairSession 1700000005000 "" "" noStartTime)) "startTime"
     = Some (JNum 1700000005000)
  /\ get (fst (repairSession 1700000005000 "" "" noStartTime)) "id"
     = Some (JStr "1700000000000").
Proof.
  assert (H : 1700000005000 <> 0) by discriminate.
  destruct (repairSession_provides_identity 1700000005000 "" ""
              [("id", JStr "1700000000000"); ("pages", JArr [samplePage])] H)
    as (Hid & _ & Hkeep & _).
  split; [exact H |]. split; [exact Hid |]. split; [reflexivity |].
  apply Hkeep. reflexivity.
Defined.

Lemma repairPage_steps (startTime : option JValue) (pageIndex : nat) (page : JValue) :
  repairPage startTime pageIndex page
  = if isPrimitive page then (page, [], true)
    else
      let index := toString (Z.of_nat pageIndex) in
      finishPage index
        (ensureProperty "timestamp" (match startTime with Some v => v | None => JNull end)
           ("Generated missing timestamp for page " ++ index)
           (ensureProperty "title" (JStr ("Page " ++ ordinal pageIndex))
              ("Generated missing title for page " ++ index)
              (ensureProperty "url" (JStr "about:blank")
                 ("Generated missing URL for page " ++ index) (page, [])))).
Proof. reflexivity. Qed.

Lemma ensureProperty_object (k : string) (v : JValue) (note : string)
  (f : list (string * JValue)) (l : list string) :
  exists f' l',
    ensureProperty k v note (JObj f, l) = (JObj f', l')
    /\ (truthy (Some v) = true -> truthy (lookup k f') = true)
    /\ (forall k0, truthy (lookup k0 f) = true -> truthy (lookup k0 f') = true)
    /\ (l' = [] -> l = [] /\ f' = f).
Proof.
  unfold ensureProperty. cbn [fst snd get assign].
  destruct (truthy (lookup k f)) eqn:T.
  - exists f, l. repeat split; try assumption; try reflexivity; now intros.
  - exists (setField k v f), (l ++ [note])%list.
    split; [reflexivity |]. split; [| split].
    + intros Hv. now rewrite lookup_setField_eq.
    + intros k0 H0. destruct (String.eqb_spec k0 k) as [-> | Hne]; [congruence |].
      now rewrite lookup_setField_ne.
    + intros E. now destruct l.
Qed.

Lemma filterActions_kept (actions kept : list JValue) :
  filterActions actions = Some kept ->
  Forall (fun action => keepAction action = Some true) kept
  /\ (length kept <= length actions)%nat
  /\ ((length actions <= length kept)%nat -> kept = actions).
Proof.
  revert kept. induction actions as [| a rest IH]; intros kept; cbn [filterActions].
  - intros H. injection H as <-. repeat split; [constructor | lia].
  - destruct (keepAction a) as [[] |] eqn:K; destruct (filterActions rest) as [kept' |];
      try discriminate; intros H; injection H as <-;
      destruct (IH kept' eq_refl) as (HF & Hle & Heq); cbn [length].
    + repeat split; [now constructor | lia |]. intros Hlen. f_equal. apply Heq. lia.
    + repeat split; [assumption | lia | lia].
Qed.

Lemma setField_same (k : string) (v : JValue) (fields : list (string * JValue)) :
  lookup k fields = Some v -> setField k v fields = fields.
Proof.
  induction fields as [| [k0 v0] rest IH]; cbn [lookup setField]; [discriminate |].
  destruct (String.eqb_spec k0 k) as [-> | Hne].
  - intros H. now injection H as ->.
  - intros H. f_equal. now apply IH.
Qed.

(** X21: When the repair of a page object runs to its end, the page has an
    address and a title, a timestamp if the session has a start time,
    and an array of actions each of which has a type, a timestamp and a
    target; and a page for which nothing is noted is handed back as it
    was. *)
Theorem repairPage_leaves_complete_page (startTime : option JValue) (pageIndex : nat)
  (fields : list (string * JValue)) (page' : JValue) (notes : list string) :
  repairPage startTime pageIndex (JObj fields) = (page', notes, false) ->
  truthy (get page' "url") = true
  /\ truthy (get page' "title") = true
  /\ (truthy startTime = true -> truthy (get page' "timestamp") = true)
  /\ (exists kept,
        get page' "actions" = Some (JArr kept)
        /\ Forall (fun action => keepAction action = Some true) kept)
  /\ (notes = [] -> page' = JObj fields).
Proof.
  rewrite repairPage_steps. cbn [isPrimitive]. cbv zeta.
  destruct (ensureProperty_object "url" (JStr "about:blank")
              ("Generated missing URL for page " ++ toString (Z.of_nat pageIndex))
              fields [])
    as (f1 & l1 & -> & Hurl & _ & Hsame1).
  destruct (ensureProperty_object "title" (JStr ("Page " ++ ordinal pageIndex))
              ("Generated missing title for page " ++ toString (Z.of_nat pageIndex))
              f1 l1)
    as (f2 & l2 & -> & Htitle & Hkeep2 & Hsame2).
  destruct (ensureProperty_object "timestamp"
              (match startTime with Some v => v | None => JNull end)
              ("Generated missing timestamp for page " ++ toString (Z.of_nat pageIndex))
              f2 l2)
    as (f3 & l3 & -> & Htime & Hkeep3 & Hsame3).
  unfold finishPage. cbn [fst].
  destruct (ensureProperty_object "actions" (JArr [])
              ("Generated missing actions array for page "
               ++ toString (Z.of_nat pageIndex))
              f3 l3)
    as (f4 & l4 & -> & _ & Hkeep4 & Hsame4).
  cbn [fst snd get assign].
  destruct (lookup "actions" f4) as [[| | | | actions |] |] eqn:Hactions; try discriminate.
  destruct (filterActions actions) as [kept |] eqn:Hfilter; [| discriminate].
  intros H. injection H as <- <-.
  destruct (filterActions_kept actions kept Hfilter) as (Hall & Hle & Heq).
  cbn [get]. split; [| split; [| split; [| split]]].
  - rewrite lookup_setField_ne by discriminate.
    apply Hkeep4, Hkeep3, Hkeep2, Hurl. reflexivity.
  - rewrite lookup_setField_ne by discriminate.
    apply Hkeep4, Hkeep3, Htitle. reflexivity.
  - intros Hstart. rewrite lookup_setField_ne by discriminate.
    apply Hkeep4, Htime. now destruct startTime.
  - exists kept. split; [apply lookup_setField_eq | exact Hall].
  - intros Hnotes.
    destruct (Nat.ltb_spec (length kept) (length actions)) as [Hlt | Hge].
    + now destruct l4.
    + destruct (Hsame4 Hnotes) as [E3 ->]. destruct (Hsame3 E3) as [E2 ->].
      destruct (Hsame2 E2) as [E1 ->]. destruct (Hsame1 E1) as [_ ->].
      rewrite (Heq Hge). f_equal. now apply setField_same.
Qed.

Lemma repairPage_leaves_complete_page_witness :
  exists page',
    repairPage (Some (JNum 1700000000000)) 0
      (JObj [("url", JStr "https://example.test/");
             ("actions", JArr [sampleClick; JObj [("type", JStr "click")]])])
    = (page', ["Generated missing title for page 0";
               "Generated missing timestamp for page 0";
               "Removed 1 invalid actions from page 0"], false)
    /\ truthy (get page' "title") = true
    /\ get page' "actions" = Some (JArr [sampleClick]).
Proof.
  eexists. split; [reflexivity |].
  destruct (repairPage_leaves_complete_page (Some (JNum 1700000000000)) 0
              [("url", JStr "https://example.test/");
               ("actions", JArr [sampleClick; JObj [("type", JStr "click")]])]
              _ _ eq_refl) as (_ & Htitle & _).
  split; [exact Htitle | reflexivity].
Defined.

(** ** Session files: recorded sessions and the validator *)

Lemma validateAction_encoded (context : string) (actionIndex : nat) (a : Action.t)
  (r : Report.t) :
  exists r',
    validateAction context actionIndex (encodeAction a) r = (r', None)
    /\ Report.issues r'
       = (Report.issues r
          ++ if (0 <=? Action.timestamp a)%Z then []
             else [((context ++ ", action " ++ toString (Z.of_nat actionIndex))
                    ++ ": Invalid timestamp: " ++ toString (Action.timestamp a))%string])%list.
Proof.
  unfold validateAction, encodeAction.
  cbn [requireFields requiredActionFields inOperator lookup app String.eqb Ascii.eqb
         Bool.eqb get].
  unfold badTimestamp. cbn [truthy renderOpt jsToString].
  destruct (Z.eqb_spec (Action.timestamp a) 0) as [E0 | N0];
    destruct (Z.ltb_spec (Action.timestamp a) 0) as [Hneg | Hpos];
    destruct (Z.leb_spec 0 (Action.timestamp a)) as [Hle | Hgt]; try lia;
    cbn [negb andb]; eexists; (split; [reflexivity |]);
    repeat match goal with
           | |- context [if ?c then _ else _] => destruct c
           end;
    cbn [addWarning addIssue Report.issues]; rewrite ?app_nil_r; reflexivity.
Qed.

Lemma validateActions_encoded (context : string) (actions : list Action.t)
  (index : nat) (r : Report.t) :
  exists r' extra,
    forEachChecked (validateAction context) index (map encodeAction actions) r
    = (r', None)
    /\ Report.issues r' = (Report.issues r ++ extra)%list
    /\ (extra = [] <-> forallb (fun a => (0 <=? Action.timestamp a)%Z) actions = true).
Proof.
  revert index r. induction actions as [| a rest IH]; intros index r.
  - exists r, []. cbn. rewrite app_nil_r. repeat split; reflexivity.
  - cbn [map forEachChecked forallb].
    destruct (validateAction_encoded context index a r) as (r1 & -> & H1).
    destruct (IH (S index) r1) as (r' & extra & -> & H2 & Hiff).
    eexists r', (_ ++ extra)%list. split; [reflexivity |]. split.
    + now rewrite H2, H1, <- app_assoc.
    + destruct (0 <=? Action.timestamp a)%Z; cbn [app andb].
      * exact Hiff.
      * split; discriminate.
Qed.

Lemma validatePage_encoded (validUrl : string -> bool) (pageIndex : nat) (p : Page.t)
  (r : Report.t) :
  exists r' extra,
    validatePage validUrl pageIndex (encodePage p) r = (r', None)
    /\ Report.issues r' = (Report.issues r ++ extra)%list
    /\ (extra = [] <-> forallb (fun a => (0 <=? Action.timestamp a)%Z) (Page.actions p) = true).
Proof.
  unfold validatePage, encodePage.
  cbn [requireFields requiredPageFields inOperator lookup app String.eqb Ascii.eqb
         Bool.eqb get truthy isArray andb validateActions].
  match goal with
  | |- context [forEachChecked _ _ _ ?r0] => set (r1 := r0)
  end.
  assert (H1 : Report.issues r1 = Report.issues r) by (subst r1; now destruct (_ && _)).
  clearbody r1.
  destruct (validateActions_encoded ("page " ++ toString (Z.of_nat pageIndex))
              (Page.actions p) 0 r1) as (r' & extra & -> & H2 & Hiff).
  exists r', extra. split; [reflexivity |]. split; [now rewrite H2, H1 | exact Hiff].
Qed.

Lemma validatePages_encoded (validUrl : string -> bool) (pages : list Page.t)
  (index : nat) (r : Report.t) :
  exists r' extra,
    forEachChecked (validatePage validUrl) index (map encodePage pages) r = (r', None)
    /\ Report.issues r' = (Report.issues r ++ extra)%list
    /\ (extra = []
        <-> forallb (fun p => forallb (fun a => (0 <=? Action.timestamp a)%Z)
                                (Page.actions p)) pages = true).
Proof.
  revert index r. induction pages as [| p rest IH]; intros index r.
  - exists r, []. cbn. rewrite app_nil_r. repeat split; reflexivity.
  - cbn [map forEachChecked forallb].
    destruct (validatePage_encoded validUrl index p r) as (r1 & e1 & -> & H1 & Hiff1).
    destruct (IH (S index) r1) as (r' & extra & -> & H2 & Hiff).
    exists r', (e1 ++ extra)%list. split; [reflexivity |]. split.
    + now rewrite H2, H1, <- app_assoc.
    + rewrite andb_true_iff, <- Hiff1, <- Hiff. split.
      * intros E. now apply app_eq_nil in E.
      * intros [-> ->]. reflexivity.
Qed.

(** X22: A session as the recorder hands it over passes the validator exactly
    when none of its actions has a negative timestamp: nothing else in a
    recorded session can raise an issue. *)
Theorem recorded_session_validates (validUrl : string -> bool) (now : Z)
  (session : SessionValue.t) :
  Validation.isValid (validateSession validUrl now (encodeSession session))
  = timestampsFrom0 session.
Proof.
  unfold validateSession, encodeSession, validateSessionBody.
  cbn [truthy typeofObject negb orb requiredSessionFields requireSessionFields
         inOperator lookup String.eqb Ascii.eqb Bool.eqb get].
  destruct (validatePages_encoded validUrl (SessionValue.pages session) 0
              (Report.mk [] [])) as (r' & extra & -> & H & Hiff).
  cbn [Report.issues app] in H.
  assert (Hissues : forall r0 : Report.t,
             Report.issues r0 = extra ->
             Validation.isValid
               (Validation.mk (match Report.issues r0 with [] => true | _ => false end)
                  (Report.issues r0) (Report.warnings r0)
                  (canRepairSession (Report.issues r0)))
             = timestampsFrom0 session).
  { intros r0 E. cbn [Validation.isValid]. rewrite E. unfold timestampsFrom0.
    destruct extra.
    - symmetry. now apply Hiff.
    - symmetry. apply not_true_is_false. intros F. apply Hiff in F. discriminate. }
  destruct (negb (SessionValue.startTime session =? 0)%Z
            && (yearMs <? now - SessionValue.startTime session)%Z);
    apply Hissues; exact H.
Qed.

(** The click recorded from [recording0] makes a valid session, and a
    session with an action stamped before the start of its page does
    not. *)
Example recorded_session_validates_at_work :
  Validation.isValid
    (validateSession anyUrl 1700000005000
       (encodeSession
          (SessionValue.mk "0" 0
             [Page.mk "https://example.test/" "Example" 0 None
                (currentActions
                   (run [(envAt 300 0 40, DomEvent "click" (clickOn sampleButton));
                         (envAt 350 0 40, DebounceTimeout)] recording0))]))) = true
  /\ Validation.issues
       (validateSession anyUrl 1700000005000
          (encodeSession
             (SessionValue.mk "0" 0
                [Page.mk "https://example.test/" "Example" 0 None
                   [mkAction "click" (-5) (Some "#a")]])))
     = ["page 0, action 0: Invalid timestamp: -5"].
Proof. split; reflexivity. Qed.

(** ** From the recorded text selector to the element *)

Lemma includes_quote_cons (a : ascii) (s : string) :
  includes (String a s) doubleQuote = false ->
  Ascii.eqb a (ascii_of_nat 34) = false /\ includes s doubleQuote = false.
Proof.
  cbn [includes]. unfold doubleQuote at 1. cbn [String.prefix].
  destruct (ascii_dec (ascii_of_nat 34) a) as [<- | Hne].
  - destruct s; discriminate.
  - intros H. split; [| exact H].
    apply Ascii.eqb_neq. congruence.
Qed.

Lemma untilQuote_group (group rest : string) :
  includes group doubleQuote = false ->
  untilQuote (group ++ doubleQuote ++ rest) = (group, (doubleQuote ++ rest)%string).
Proof.
  induction group as [| a group IH]; intros H.
  - reflexivity.
  - apply includes_quote_cons in H. destruct H as [Ha Hrest].
    cbn [append untilQuote]. rewrite Ha, (IH Hrest). reflexivity.
Qed.

Lemma dataTextAt_group (group : string) :
  nonEmpty group = true ->
  includes group doubleQuote = false ->
  dataTextAt ("[data-text=" ++ doubleQuote ++ group ++ doubleQuote ++ "]") = Some group.
Proof.
  intros Hne Hq. unfold dataTextAt.
  change (afterPrefix ("[data-text=" ++ doubleQuote)
            ("[data-text=" ++ doubleQuote ++ group ++ doubleQuote ++ "]"))
    with (Some (group ++ doubleQuote ++ "]")%string).
  cbv beta iota.
  rewrite (untilQuote_group group "]" Hq), Hne. reflexivity.
Qed.

Lemma prefix_substring (n : nat) (s : string) : String.prefix (substring 0 n s) s = true.
Proof.
  revert s. induction n as [| n IH]; intros s.
  - destruct s; reflexivity.
  - destruct s as [| c s]; [reflexivity |]. cbn [substring String.prefix].
    destruct (ascii_dec c c); [apply IH | congruence].
Qed.

Lemma includes_prefix (s sub : string) : String.prefix sub s = true -> includes s sub = true.
Proof.
  intros H. destruct s; cbn [includes]; now rewrite H.
Qed.

Lemma matchDataText_here (s group : string) :
  dataTextAt s = Some group -> matchDataText s = Some group.
Proof.
  intros H. destruct s; cbn [matchDataText]; now rewrite H.
Qed.

Lemma textStrategy_selector (esc : string -> string) (d : Element.data) (selector : string) :
  textStrategy esc d = Some selector ->
  exists tag text,
    (tag = "a" \/ tag = "button")
    /\ toLowerCase (Element.tagName d) = tag
    /\ Element.textContent d = Some text
    /\ nonEmpty (substring 0 30 (trim text)) = true
    /\ selector = tag ++ "[data-text=" ++ doubleQuote
                  ++ esc (substring 0 30 (trim text)) ++ doubleQuote ++ "]".
Proof.
  unfold textStrategy.
  destruct (includes_list ["a"; "button"] (toLowerCase (Element.tagName d))) eqn:Htag;
    [| discriminate].
  destruct (Element.textContent d) as [text |]; [| discriminate].
  destruct (nonEmpty (substring 0 30 (trim text))) eqn:Hne; [| discriminate].
  intros H. injection H as <-.
  exists (toLowerCase (Element.tagName d)), text.
  split; [| repeat split; (reflexivity || assumption)].
  unfold includes_list in Htag. cbn [existsb] in Htag.
  destruct (String.eqb_spec (toLowerCase (Element.tagName d)) "a"); [now left |].
  destruct (String.eqb_spec (toLowerCase (Element.tagName d)) "button"); [now right |].
  discriminate.
Qed.

(** X23: The selector that [getElementSelector] falls back to for a link or a
    button is resolved by the data-text strategy of [findElement] to the
    first element of that tag whose trimmed text includes the recorded
    text as it stands in the selector, that is after [CSS.escape]; when
    the escape leaves the text as it is and the element is still in the
    page with its text, an element is found; when no text in the page
    includes the escaped text, none is. *)
Theorem data_text_selector_round_trip (esc : string -> string) (d : Element.data)
  (doc : TextDom.t) (selector text : string) (elements : list nat) :
  textStrategy esc d = Some selector ->
  Element.textContent d = Some text ->
  nonEmpty (esc (substring 0 30 (trim text))) = true ->
  includes (esc (substring 0 30 (trim text))) doubleQuote = false ->
  TextDom.querySelectorAll doc (toLowerCase (Element.tagName d)) = Normal elements ->
  dataTextStrategy doc selector
  = match find (textIncludes doc (esc (substring 0 30 (trim text)))) elements with
    | Some el => Hit el
    | None => Miss
    end
  /\ (esc (substring 0 30 (trim text)) = substring 0 30 (trim text) ->
      forall el, In el elements -> TextDom.textContent doc el = Some text ->
                 isHit (dataTextStrategy doc selector) = true)
  /\ ((forall el, In el elements ->
                  textIncludes doc (esc (substring 0 30 (trim text))) el = false) ->
      dataTextStrategy doc selector = Miss).
Proof.
  intros Hsel Htext Hne Hquote Hall.
  destruct (textStrategy_selector esc d selector Hsel)
    as (tag & text' & Htag & Etag & Etext & _ & ->).
  rewrite Htext in Etext. injection Etext as <-. rewrite Etag in Hall.
  set (recorded := esc (substring 0 30 (trim text))) in *.
  assert (Hrun : dataTextStrategy doc
                   (tag ++ "[data-text=" ++ doubleQuote ++ recorded ++ doubleQuote ++ "]")
                 = match find (textIncludes doc recorded) elements with
                   | Some el => Hit el
                   | None => Miss
                   end).
  { pose proof (dataTextAt_group recorded Hne Hquote) as Hat.
    apply matchDataText_here in Hat.
    unfold dataTextStrategy.
    destruct Htag as [-> | ->].
    - change (includes ("a" ++ "[data-text=" ++ doubleQuote ++ recorded ++ doubleQuote ++ "]")
                "[data-text=") with true.
      change (matchDataText
                ("a" ++ "[data-text=" ++ doubleQuote ++ recorded ++ doubleQuote ++ "]"))
        with (matchDataText
                ("[data-text=" ++ doubleQuote ++ recorded ++ doubleQuote ++ "]")).
      rewrite Hat.
      change (hd EmptyString
                (split "[" ("a" ++ "[data-text=" ++ doubleQuote ++ recorded
                            ++ doubleQuote ++ "]")))
        with "a".
      cbv zeta. now rewrite Hall.
    - change (includes ("button" ++ "[data-text=" ++ doubleQuote ++ recorded
                        ++ doubleQuote ++ "]")
                "[data-text=") with true.
      change (matchDataText
                ("button" ++ "[data-text=" ++ doubleQuote ++ recorded ++ doubleQuote ++ "]"))
        with (matchDataText
                ("[data-text=" ++ doubleQuote ++ recorded ++ doubleQuote ++ "]")).
      rewrite Hat.
      change (hd EmptyString
                (split "[" ("button" ++ "[data-text=" ++ doubleQuote ++ recorded
                            ++ doubleQuote ++ "]")))
        with "button".
      cbv zeta. now rewrite Hall. }
  rewrite Hrun. split; [reflexivity |]. split.
  - intros Hesc el Hin Hel.
    destruct (find (textIncludes doc recorded) elements) as [e |] eqn:F; [reflexivity |].
    exfalso. apply (find_none _ _ F) in Hin.
    unfold textIncludes in Hin. rewrite Hel, Hesc in Hin.
    rewrite includes_prefix in Hin by apply prefix_substring. discriminate.
  - intros Hnone.
    destruct (find (textIncludes doc recorded) elements) as [e |] eqn:F; [| reflexivity].
    apply find_some in F. destruct F as [Hin F]. rewrite (Hnone e Hin) in F. discriminate.
Qed.

Lemma data_text_selector_round_trip_witness :
  dataTextStrategy buttonsDoc ("button[data-text=" ++ doubleQuote ++ "Send" ++ doubleQuote ++ "]")
  = Hit 7.
Proof.
  refine (proj1 (data_text_selector_round_trip (fun s => s) (dataOf documentButton)
                   buttonsDoc
                   ("button[data-text=" ++ doubleQuote ++ "Send" ++ doubleQuote ++ "]")
                   "Send" [4; 7; 9]%nat _ _ _ _ _)); reflexivity.
Defined.

(** The same selector through [findElement] in strict mode; and the
    effect of the escape: the button that reads "Save changes" is
    recorded with a backslash before the space, and the strategy then
    looks for a text with that backslash in it and finds none. *)
Example data_text_selector_at_work :
  fst (findElement strictSettings buttonsPage
         (Some ("button[data-text=" ++ doubleQuote ++ "Send" ++ doubleQuote ++ "]")) None)
  = Some (FElement 7)
  /\ textStrategy escapeSpaces saveChangesButton
     = Some ("button[data-text=" ++ doubleQuote ++ "Save\ changes" ++ doubleQuote ++ "]")
  /\ dataTextStrategy buttonsDoc
       ("button[data-text=" ++ doubleQuote ++ "Save\ changes" ++ doubleQuote ++ "]")
     = Miss
  /\ dataTextStrategy buttonsDoc
       ("button[data-text=" ++ doubleQuote ++ "Save changes" ++ doubleQuote ++ "]")
     = Hit 9.
Proof. repeat split; reflexivity. Qed.

(** ** Replay of any session: it comes to an end *)




































(** On the loading page the key press goes out once the document is
    complete, the click lands on [#save], and the replay then leaves for
    the second page, storing where to resume; the first page alone is
    replayed to completion; a session with no page and no list of actions
    is not replayed. *)
Example replay_at_work :
  (let p := runTimers loadingWorld 40
              (playbackSessionMessage loadingWorld twoPageSession
                 (newPlayer defaultSettings)) in
   Player.unloaded p = true
   /\ Player.effects p
      = [KeyDispatched "keydown" None; Clicked 3; StateStored (Some 1%nat) 0;
         NavigatedTo "https://example.test/next"])
  /\ (let p := runTimers loadingWorld 40
                 (playbackSessionMessage loadingWorld
                    (PlaybackSession.mk (Some [keyThenSave]) None)
                    (newPlayer defaultSettings)) in
      Player.timers p = []
      /\ Player.effects p
         = [KeyDispatched "keydown" None; Clicked 3; PlaybackCompleted; PlaybackCompleted])
  /\ (let p := runTimers loadingWorld 40
                 (playbackSessionMessage loadingWorld (PlaybackSession.mk (Some []) None)
                    (newPlayer defaultSettings)) in
      Player.timers p = [] /\ Player.effects p = []
      /\ Player.playbackSession p = Some (PlaybackSession.mk (Some []) None)).
Proof. vm_compute. repeat split; reflexivity. Qed.



(** Resumed on the first page at its second action, the replay clicks
    [#save] and leaves for the second page; resumed past the last page it
    completes at once. *)
Example resumed_replay_at_work :
  Player.effects
    (runTimers loadingWorld 40
       (continuePlaybackMessage loadingWorld twoPageSession 0 1 (newPlayer defaultSettings)))
  = [Clicked 3; StateStored (Some 1%nat) 0; NavigatedTo "https://example.test/next"]
  /\ Player.effects
       (runTimers loadingWorld 40
          (continuePlaybackMessage loadingWorld twoPageSession 2 0
             (newPlayer defaultSettings)))
     = [PlaybackCompleted; PlaybackCompleted].
Proof. vm_compute. split; reflexivity. Qed.
(** ** Replay: the pause button *)






(** A pause after the key press leaves the click unplayed; a pause
    during the wait for the page is not honoured: when the page is
    complete the replay plays the key press, and only then stops. *)
Example pause_at_work :
  Player.effects (runTimers loadingWorld 10 pausedAfterKey)
  = [KeyDispatched "keydown" None]
  /\ Player.playbackActionIndex (runTimers loadingWorld 10 pausedAfterKey) = 1%nat
  /\ Player.isPlaybackPaused pausedWhileLoading = true
  /\ Player.effects (runTimers loadingWorld 10 pausedWhileLoading)
     = [KeyDispatched "keydown" None]
  /\ Player.playbackActionIndex (runTimers loadingWorld 10 pausedWhileLoading) = 1%nat.
Proof. vm_compute. repeat split; reflexivity. Qed.
(** ** Replay: the detection counters *)

Lemma tally_refl (p : Player.t) : tally p p.
Proof. unfold tally. lia. Qed.

Lemma tally_trans (p p' p'' : Player.t) : tally p p' -> tally p' p'' -> tally p p''.
Proof. unfold tally. lia. Qed.

(** The counters after calls that do not touch them. *)
Ltac tally_same :=
  unfold tally, navigateToPageForPlayback, whenPageReady, setTimeout, emit, clearTimeout in *;
  cbv zeta; cbn [fst]; psimpl; lia.

Lemma absorb_tally (events : list Event) (p : Player.t) : tally p (absorb events p).
Proof.
  revert p. induction events as [| ev events IH]; intros p; cbn [absorb];
    [apply tally_refl |].
  eapply tally_trans; [| apply IH].
  destruct ev as [q n | ctx | ms | [|]]; unfold tally; psimpl; lia.
Qed.

Lemma locate_tally (w : World.t) (selector : option string) (a : Action.t) (p : Player.t) :
  tally p (snd (locate w selector a p)).
Proof.
  unfold locate. destruct (findElement _ _ _ _) as [found events]. apply absorb_tally.
Qed.

Lemma executeAction_tally (w : World.t) (a : Action.t) (p : Player.t) :
  tally p (executeAction w a p).
Proof.
  unfold executeAction.
  destruct (Player.clock p <? World.interactiveAt w)%Z; [tally_same |].
  destruct (Action.target a) as [selector |]; [| tally_same].
  destruct (nonEmpty selector); [| tally_same].
  pose proof (locate_tally w (Some selector) a p) as H.
  destruct (locate w (Some selector) a p) as [[f |] q]; cbn [snd] in H; tally_same.
Qed.

Lemma retryFind_tally (w : World.t) (a : Action.t) (p : Player.t) :
  tally p (retryFind w a p).
Proof.
  unfold retryFind.
  pose proof (locate_tally w (Action.target a) a p) as H.
  destruct (locate w (Action.target a) a p) as [[f |] q]; cbn [snd] in H; tally_same.
Qed.

Lemma stopPlayback_tally (p : Player.t) : tally p (stopPlayback p).
Proof.
  unfold stopPlayback. destruct (Player.playbackTimeoutId p); tally_same.
Qed.

Lemma moveToNextPage_tally (w : World.t) (p : Player.t) : tally p (moveToNextPage w p).
Proof.
  unfold moveToNextPage.
  destruct (Player.playbackSession p) as [session |]; [| tally_same].
  destruct (PlaybackSession.pages session) as [pages |]; [| apply stopPlayback_tally].
  destruct (nth_error pages _) as [page |];
    [| eapply tally_trans; [| apply stopPlayback_tally]; tally_same].
  destruct (negb _); tally_same.
Qed.

Lemma playNextAction_tally (w : World.t) (p : Player.t) : tally p (playNextAction w p).
Proof.
  unfold playNextAction.
  destruct (Player.currentPlaybackPage p) as [page |]; [| apply moveToNextPage_tally].
  destruct (PlaybackPage.actions page) as [actions |]; [| apply moveToNextPage_tally].
  destruct (nth_error actions (Player.playbackActionIndex p)) as [action |];
    [| apply moveToNextPage_tally].
  assert (H : tally p (executeActionWithVisualization w action p)).
  { unfold executeActionWithVisualization.
    destruct (visualize_shape action p) as [e ->].
    destruct (isClickEvent (Action.type action)); [tally_same |].
    eapply tally_trans; [| apply executeAction_tally]. tally_same. }
  destruct (nth_error actions (S (Player.playbackActionIndex p))); tally_same.
Qed.

Lemma fire_tally (w : World.t) (task : Task) (p : Player.t) : tally p (fire w task p).
Proof.
  destruct task as [[|] | | | a | a]; cbn [fire].
  - eapply tally_trans; [| apply playNextAction_tally]. tally_same.
  - apply playNextAction_tally.
  - destruct (Player.isPlaybackPaused p); [apply tally_refl | apply playNextAction_tally].
  - destruct (Player.isPlaybackPaused p); [apply tally_refl | apply moveToNextPage_tally].
  - apply executeAction_tally.
  - apply retryFind_tally.
Qed.

Lemma runTimers_tally (w : World.t) (fuel : nat) (p : Player.t) :
  tally p (runTimers w fuel p).
Proof.
  revert p. induction fuel as [| fuel IH]; intros p; cbn [runTimers]; [apply tally_refl |].
  destruct (Player.unloaded p); [apply tally_refl |].
  destruct (Player.timers p) as [| t0 rest]; [apply tally_refl |]. cbv zeta.
  eapply tally_trans; [| apply IH].
  eapply tally_trans; [| apply fire_tally]. tally_same.
Qed.

(** X27: Throughout a replay the successful detections never outnumber the
    attempts, so the detection rate reported at the end is at most 100 %;
    and no turn of the event loop takes a detection back. *)
Theorem detection_successes_within_attempts (w : World.t) (fuel : nat) (p : Player.t) :
  (Player.detectionSuccesses p <= Player.detectionAttempts p)%nat ->
  let p' := runTimers w fuel p in
  (Player.detectionSuccesses p' <= Player.detectionAttempts p')%nat
  /\ (Player.detectionAttempts p <= Player.detectionAttempts p')%nat
  /\ (Player.detectionSuccesses p <= Player.detectionSuccesses p')%nat.
Proof.
  intros H p'. pose proof (runTimers_tally w fuel p) as Ht. fold p' in Ht.
  unfold tally in Ht. lia.
Qed.

Lemma detection_successes_within_attempts_witness :
  let p := playbackSessionMessage loadingWorld twoPageSession (newPlayer defaultSettings) in
  (Player.detectionSuccesses p <= Player.detectionAttempts p)%nat
  /\ let p' := runTimers loadingWorld 40 p in
     (Player.detectionSuccesses p' <= Player.detectionAttempts p')%nat
     /\ (Player.detectionAttempts p <= Player.detectionAttempts p')%nat
     /\ (Player.detectionSuccesses p <= Player.detectionSuccesses p')%nat.
Proof.
  intros p.
  assert (H : (Player.detectionSuccesses p <= Player.detectionAttempts p)%nat)
    by (vm_compute; lia).
  split; [exact H |].
  exact (detection_successes_within_attempts loadingWorld 40 p H).
Defined.
(** ** Replay: where a click lands *)

(** X28: A replayed click is never lost on a resolved element: exactly one
    click is dispatched, to the element or to one of its ancestors, and to
    an interactable one whenever the element or an ancestor is
    interactable.  Without a resolved element the click goes to whatever
    lies under the recorded point, moved by the scroll offset since the
    recording and clamped into the viewport.  A click resolved to the
    document or the window ends in a caught error. *)
Theorem simulateClick_lands (w : World.t) (now : Z) (action : Action.t) :
  1 <= World.innerWidth w -> 1 <= World.innerHeight w ->
  (forall element, exists target,
      filter actsOnPage (simulateClick w now (Some (FElement element)) action)
      = [Clicked target]
      /\ In target (element :: World.ancestors w element)
      /\ (existsb (World.isElementInteractable w) (element :: World.ancestors w element)
          = true -> World.isElementInteractable w target = true))
  /\ simulateClick w now (Some FDocument) action = [ErrorCaught]
  /\ simulateClick w now (Some FWindow) action = [ErrorCaught]
  /\ exists x y,
       0 <= x < World.innerWidth w /\ 0 <= y < World.innerHeight w
       /\ (0 <= Coordinates.x (Action.coordinates action)
                + (Point.x (World.scrollAt w now) - Point.x (Action.scrollPosition action))
           < World.innerWidth w ->
           x = Coordinates.x (Action.coordinates action)
               + (Point.x (World.scrollAt w now) - Point.x (Action.scrollPosition action)))
       /\ (0 <= Coordinates.y (Action.coordinates action)
                + (Point.y (World.scrollAt w now) - Point.y (Action.scrollPosition action))
           < World.innerHeight w ->
           y = Coordinates.y (Action.coordinates action)
               + (Point.y (World.scrollAt w now) - Point.y (Action.scrollPosition action)))
       /\ simulateClick w now None action
          = match World.elementFromPoint w now x y with
            | Some element => clickOnElement w element
            | None => [Warned "Could not find any element to click at coordinates"]
            end.
Proof.
  intros Hw Hh. split; [| split; [reflexivity | split; [reflexivity |]]].
  - intros element. cbn [simulateClick]. unfold clickOnElement. cbn [existsb].
    destruct (World.isElementInteractable w element) eqn:He.
    + exists element. cbn [filter actsOnPage]. repeat split; [now left | easy].
    + cbn [filter actsOnPage orb].
      destruct (find (World.isElementInteractable w) (World.ancestors w element))
        as [parent |] eqn:Hfind.
      * exists parent. apply find_some in Hfind. destruct Hfind as [Hin Hp].
        repeat split; [now right | easy].
      * exists element. repeat split; [now left |].
        intros Hex. apply existsb_exists in Hex. destruct Hex as [x [Hin Hx]].
        pose proof (find_none _ _ Hfind x Hin) as Hnone. congruence.
  - cbn [simulateClick]. cbv zeta.
    eexists _, _. split; [| split; [| split; [| split; [| reflexivity]]]]; lia.
Qed.

Lemma simulateClick_lands_witness :
  exists x y,
    0 <= x < 1280 /\ 0 <= y < 720
    /\ simulateClick coveredWorld 0 None goneClick
       = match World.elementFromPoint coveredWorld 0 x y with
         | Some element => clickOnElement coveredWorld element
         | None => [Warned "Could not find any element to click at coordinates"]
         end.
Proof.
  destruct (simulateClick_lands coveredWorld 0 goneClick) as (_ & _ & _ & x & y & Hx & Hy
                                                              & _ & _ & Heq);
    [cbn; lia | cbn; lia |].
  exists x, y. exact (conj Hx (conj Hy Heq)).
Defined.
(** ** Ending a recording: what is saved *)

Lemma totalActions_sum (pages : list Page.t) (total : nat) :
  fold_left (fun total page => (total + length (Page.actions page))%nat) pages total
  = (total + list_sum (map (fun page => length (Page.actions page)) pages))%nat.
Proof.
  revert total. induction pages as [| page pages IH]; intros total; cbn [fold_left map].
  - cbn. lia.
  - rewrite IH. cbn [list_sum fold_right]. unfold list_sum. lia.
Qed.

(** The popup counts an action exactly when some page holds one. *)
Lemma totalActions_positive (session : SessionValue.t) :
  (0 <? totalActions session)%nat
  = existsb (fun page => match Page.actions page with [] => false | _ => true end)
      (SessionValue.pages session).
Proof.
  unfold totalActions. rewrite totalActions_sum. cbn [Nat.add].
  induction (SessionValue.pages session) as [| page pages IH]; [reflexivity |].
  cbn [map existsb]. rewrite <- IH. unfold list_sum. cbn [fold_right].
  destruct (Page.actions page) as [| a rest]; cbn [length orb]; [reflexivity |].
  destruct (fold_right Nat.add 0%nat _); reflexivity.
Qed.

(** X29: What ends up in the store when a recording is stopped.  The
    background script hands the popup the session of the content script
    when it answers with one, and its own last copy otherwise; it is then
    idle, and a late [updateSession] changes nothing.  The popup saves the
    session exactly when one of its pages holds an action: under a new id,
    the time of the save, with the start time and every page as recorded,
    leaving the other stored sessions alone.  A recording without any
    action leaves the store as it was. *)
Theorem stopped_recording_saved_iff_actions (g : GlobalRecordingState.t)
  (reply : option SessionValue.t) (now : Z) (localeNow : string)
  (sessions : list (string * JValue)) :
  let g' := fst (stopGlobalRecording reply g) in
  let final := snd (stopGlobalRecording reply g) in
  let sessions' := fst (popupStopRecording now localeNow final sessions) in
  GlobalRecordingState.isRecording g' = false
  /\ (forall late, updateSession late g' = g')
  /\ (forall session, truthyTab (GlobalRecordingState.recordingTabId g) = true ->
                      reply = Some session -> final = Some session)
  /\ (reply = None -> final = GlobalRecordingState.currentSession g)
  /\ match final with
     | Some session =>
         if existsb (fun page => match Page.actions page with [] => false | _ => true end)
              (SessionValue.pages session)
         then lookup (toString now) sessions'
              = Some (JObj [("id", JStr (toString now));
                            ("startTime", JNum (SessionValue.startTime session));
                            ("pages", JArr (map encodePage (SessionValue.pages session)));
                            ("name", JStr ("Session " ++ localeNow))])
              /\ forall k, k <> toString now -> lookup k sessions' = lookup k sessions
         else sessions' = sessions
     | None => sessions' = sessions
     end.
Proof.
  intros g' final sessions'.
  split; [reflexivity |]. split; [reflexivity |].
  split; [intros session Htab ->; subst final; unfold stopGlobalRecording; cbn [snd];
          now rewrite Htab |].
  split; [intros ->; subst final; unfold stopGlobalRecording; cbn [snd];
          now destruct (truthyTab _) |].
  subst sessions'. destruct final as [session |]; [| reflexivity].
  unfold popupStopRecording. rewrite <- totalActions_positive.
  destruct (SessionValue.pages session) as [| page pages] eqn:Hpages.
  - assert (H0 : (0 <? totalActions session)%nat = false).
    { unfold totalActions. now rewrite Hpages. }
    now rewrite H0.
  - destruct (0 <? totalActions session)%nat; [| reflexivity].
    cbn [fst]. unfold saveSession. split.
    + rewrite lookup_setField_eq. unfold encodeSession. rewrite Hpages. reflexivity.
    + intros k Hk. apply lookup_setField_ne. congruence.
Qed.

(** A click recorded at 300 ms is still in the queue when the recording
    is stopped at 400 ms; the stop flushes it, and the popup saves the
    session, under the time of the save. *)
Example stopped_recording_at_work :
  let r := step (envAt 300 0 0) (DomEvent "click" (clickOn sampleButton)) recording0 in
  let reply := snd (stopRecording (envAt 400 0 0) r) in
  let g := fst (startGlobalRecording (Some 5%nat) 0 (GlobalRecordingState.mk false None None)) in
  let saved := popupStopRecording 500 "1/1/2026, 12:00:00 AM"
                 (snd (stopGlobalRecording reply g)) [] in
  Recorder.recordingQueue r <> []
  /\ map fst (fst saved) = ["500"]
  /\ snd saved = "Recording completed! Captured 1 actions across 1 page(s)"
  /\ popupStopRecording 500 "1/1/2026, 12:00:00 AM"
       (snd (stopGlobalRecording None g)) []
     = ([], "Recording stopped (no session data)").
Proof. vm_compute. repeat split; (reflexivity || discriminate). Qed.
